(** * VolumeMeasureController: a shallow embedding

    The controller of the volume-measurement tool keeps the parameters of
    an oriented box (anchor corner, two in-plane directions, three signed
    extents), the grid of empty heights of the last refinement and a few
    flags.  This development embeds the parts of the controller that
    decide the measured quantities and proves their properties, and after
    them the gesture handling of the controller, the painting of the
    refined volume, the units of measure, the cube mesh of the painted
    columns and the blocking banner.

    Numbers.  A TypeScript [number] is idealised as a real number: the
    statements are about the arithmetic the code writes down, not about
    rounding, infinities or NaN.  The one place where the code can read
    [undefined] out of an array (the empty-height grid) is modelled
    explicitly.  A law that holds for this arithmetic but not digit for
    digit for doubles is stated up to a tolerance ([agree]).

    Collaborators.  Ray/plane intersection, rotation helpers, shape
    construction and the camera belong to libraries outside the
    repository; they are fields of the records [Collaborators] and [Map] and
    every theorem holds for all of them. *)

From Stdlib Require Import Reals Lra Psatz List Bool Arith ZArith Lia.
Import ListNotations.
Local Open Scope R_scope.

Set Implicit Arguments.

(** ** Vectors (Vector3Util of the toolbox) *)

Module Vec.

Record V3 : Type := mkV3 { x : R; y : R; z : R }.

Definition add (a b : V3) : V3 := mkV3 (x a + x b) (y a + y b) (z a + z b).
Definition sub (a b : V3) : V3 := mkV3 (x a - x b) (y a - y b) (z a - z b).
Definition scale (a : V3) (k : R) : V3 := mkV3 (x a * k) (y a * k) (z a * k).
Definition dot (a b : V3) : R := x a * x b + y a * y b + z a * z b.
Definition cross (a b : V3) : V3 :=
  mkV3 (y a * z b - z a * y b) (z a * x b - x a * z b) (x a * y b - y a * x b).
Definition length (a : V3) : R := sqrt (dot a a).
Definition normalize (a : V3) : V3 := scale a (/ length a).
Definition distance (a b : V3) : R := length (sub a b).

(** [addArray]: the sum of a list of vectors. *)
Definition addArray (vs : list V3) : V3 := fold_left add vs (mkV3 0 0 0).

(** The cartesian geodesy interpolates linearly between two points. *)
Definition interpolate (a b : V3) (t : R) : V3 := add a (scale (sub b a) t).

(** [clamp] of the toolbox's Math module. *)
Definition clamp (v lo hi : R) : R := Rmax lo (Rmin hi v).

End Vec.
Import Vec.

(** ** The controller's data *)

Inductive CreationState : Type :=
| IDLE | CORNER_DEFINED | WIDTH_DEFINED | PLANE_DEFINED | VOLUME_DEFINED
| FACE_RESIZING | RESIZE_ROTATE.

Definition CreationState_eqb (a b : CreationState) : bool :=
  match a, b with
  | IDLE, IDLE | CORNER_DEFINED, CORNER_DEFINED | WIDTH_DEFINED, WIDTH_DEFINED
  | PLANE_DEFINED, PLANE_DEFINED | VOLUME_DEFINED, VOLUME_DEFINED
  | FACE_RESIZING, FACE_RESIZING | RESIZE_ROTATE, RESIZE_ROTATE => true
  | _, _ => false
  end.

Inductive HandleEventResult : Type := EVENT_IGNORED | EVENT_HANDLED.

(** The three notification kinds of the controller's event support. *)
Inductive Notification : Type :=
| VOLUME_MEASUREMENT_UPDATE | VOLUME_MEASUREMENT_READY | VOLUME_MEASUREMENT_END.

(** [getCornerPoints] of an oriented box: eight points, indexed 0..7. *)
Record OrientedBox : Type := mkBox {
  c0 : V3; c1 : V3; c2 : V3; c3 : V3; c4 : V3; c5 : V3; c6 : V3; c7 : V3
}.

(** [createFacePolygons] returns six polygons; the controller only reads
    their focus points. *)
Record Faces : Type := mkFaces {
  f0 : V3; f1 : V3; f2 : V3; f3 : V3; f4 : V3; f5 : V3
}.

(** The part of the map the controller reads: the camera, the pointing
    direction of a view point, the north-facing camera placed at a point
    (forward, up), and the closest surface under the view centre once the
    camera has been moved above a point ([None]: the transformation
    throws). *)
Record Map : Type := mkMap {
  camera_eye : V3;
  camera_forward : V3;
  camera_up : V3;
  calculatePointingDirection : V3 -> V3;
  lookFromNorth : V3 -> V3 * V3;
  closestSurfaceAtCentre : V3 -> option V3
}.

(** The library functions the controller calls without owning them, and
    the user at the abort button. *)
Record Collaborators : Type := mkCollaborators {
  rayPlaneIntersection : V3 -> V3 -> V3 -> V3 -> option V3;
  distanceAlongDirection : V3 -> V3 -> V3 -> R;
  rotateAroundAxis : V3 -> V3 -> R -> V3;
  rotatePointAroundLine : V3 -> V3 -> V3 -> R -> V3;
  angle : V3 -> V3 -> V3 -> R;
  createOrientedBox : V3 -> R -> V3 -> V3 -> OrientedBox;
  createFacePolygons : OrientedBox -> Faces;
  (** whether the user presses the abort button while the n-th camera
      move of a refinement run is in flight *)
  userAborts : nat -> bool
}.

Record Controller : Type := mkController {
  map : option Map;
  _shiftPressed : bool;
  _state : CreationState;
  _firstCorner : option V3;
  _orientation : option V3;
  _orientationComplement : option V3;
  _width : R;
  _depth : R;
  _height : R;
  emptyVolumes : list (list R);
  abort : bool;
  success : bool;
  refinedVolumeCalculation : R;
  resizedFaceIndex : Z;
  _geoHandleSupport : bool;
  _lastRotation : R;
  _rotating : bool;
  (** notifications emitted so far, oldest first *)
  emitted : list Notification
}.

Definition RefinedGridSize : nat := 24.
Definition MAX_SIZE : R := 10000.

(** Field updates. *)
Definition set_state (v : CreationState) (c : Controller) : Controller :=
  mkController (map c) (_shiftPressed c) v (_firstCorner c) (_orientation c)
    (_orientationComplement c) (_width c) (_depth c) (_height c) (emptyVolumes c)
    (abort c) (success c) (refinedVolumeCalculation c) (resizedFaceIndex c)
    (_geoHandleSupport c) (_lastRotation c) (_rotating c) (emitted c).
Definition set_firstCorner (v : option V3) (c : Controller) : Controller :=
  mkController (map c) (_shiftPressed c) (_state c) v (_orientation c)
    (_orientationComplement c) (_width c) (_depth c) (_height c) (emptyVolumes c)
    (abort c) (success c) (refinedVolumeCalculation c) (resizedFaceIndex c)
    (_geoHandleSupport c) (_lastRotation c) (_rotating c) (emitted c).
Definition set_orientation (v : option V3) (c : Controller) : Controller :=
  mkController (map c) (_shiftPressed c) (_state c) (_firstCorner c) v
    (_orientationComplement c) (_width c) (_depth c) (_height c) (emptyVolumes c)
    (abort c) (success c) (refinedVolumeCalculation c) (resizedFaceIndex c)
    (_geoHandleSupport c) (_lastRotation c) (_rotating c) (emitted c).
Definition set_orientationComplement (v : option V3) (c : Controller) : Controller :=
  mkController (map c) (_shiftPressed c) (_state c) (_firstCorner c) (_orientation c)
    v (_width c) (_depth c) (_height c) (emptyVolumes c)
    (abort c) (success c) (refinedVolumeCalculation c) (resizedFaceIndex c)
    (_geoHandleSupport c) (_lastRotation c) (_rotating c) (emitted c).
Definition set_width (v : R) (c : Controller) : Controller :=
  mkController (map c) (_shiftPressed c) (_state c) (_firstCorner c) (_orientation c)
    (_orientationComplement c) v (_depth c) (_height c) (emptyVolumes c)
    (abort c) (success c) (refinedVolumeCalculation c) (resizedFaceIndex c)
    (_geoHandleSupport c) (_lastRotation c) (_rotating c) (emitted c).
Definition set_depth (v : R) (c : Controller) : Controller :=
  mkController (map c) (_shiftPressed c) (_state c) (_firstCorner c) (_orientation c)
    (_orientationComplement c) (_width c) v (_height c) (emptyVolumes c)
    (abort c) (success c) (refinedVolumeCalculation c) (resizedFaceIndex c)
    (_geoHandleSupport c) (_lastRotation c) (_rotating c) (emitted c).
Definition set_height (v : R) (c : Controller) : Controller :=
  mkController (map c) (_shiftPressed c) (_state c) (_firstCorner c) (_orientation c)
    (_orientationComplement c) (_width c) (_depth c) v (emptyVolumes c)
    (abort c) (success c) (refinedVolumeCalculation c) (resizedFaceIndex c)
    (_geoHandleSupport c) (_lastRotation c) (_rotating c) (emitted c).
Definition set_emptyVolumes (v : list (list R)) (c : Controller) : Controller :=
  mkController (map c) (_shiftPressed c) (_state c) (_firstCorner c) (_orientation c)
    (_orientationComplement c) (_width c) (_depth c) (_height c) v
    (abort c) (success c) (refinedVolumeCalculation c) (resizedFaceIndex c)
    (_geoHandleSupport c) (_lastRotation c) (_rotating c) (emitted c).
Definition set_abort (v : bool) (c : Controller) : Controller :=
  mkController (map c) (_shiftPressed c) (_state c) (_firstCorner c) (_orientation c)
    (_orientationComplement c) (_width c) (_depth c) (_height c) (emptyVolumes c)
    v (success c) (refinedVolumeCalculation c) (resizedFaceIndex c)
    (_geoHandleSupport c) (_lastRotation c) (_rotating c) (emitted c).
Definition set_success (v : bool) (c : Controller) : Controller :=
  mkController (map c) (_shiftPressed c) (_state c) (_firstCorner c) (_orientation c)
    (_orientationComplement c) (_width c) (_depth c) (_height c) (emptyVolumes c)
    (abort c) v (refinedVolumeCalculation c) (resizedFaceIndex c)
    (_geoHandleSupport c) (_lastRotation c) (_rotating c) (emitted c).
Definition set_refinedVolumeCalculation (v : R) (c : Controller) : Controller :=
  mkController (map c) (_shiftPressed c) (_state c) (_firstCorner c) (_orientation c)
    (_orientationComplement c) (_width c) (_depth c) (_height c) (emptyVolumes c)
    (abort c) (success c) v (resizedFaceIndex c)
    (_geoHandleSupport c) (_lastRotation c) (_rotating c) (emitted c).
Definition set_lastRotation (v : R) (c : Controller) : Controller :=
  mkController (map c) (_shiftPressed c) (_state c) (_firstCorner c) (_orientation c)
    (_orientationComplement c) (_width c) (_depth c) (_height c) (emptyVolumes c)
    (abort c) (success c) (refinedVolumeCalculation c) (resizedFaceIndex c)
    (_geoHandleSupport c) v (_rotating c) (emitted c).
Definition set_rotating (v : bool) (c : Controller) : Controller :=
  mkController (map c) (_shiftPressed c) (_state c) (_firstCorner c) (_orientation c)
    (_orientationComplement c) (_width c) (_depth c) (_height c) (emptyVolumes c)
    (abort c) (success c) (refinedVolumeCalculation c) (resizedFaceIndex c)
    (_geoHandleSupport c) (_lastRotation c) v (emitted c).
Definition set_resizedFaceIndex (v : Z) (c : Controller) : Controller :=
  mkController (map c) (_shiftPressed c) (_state c) (_firstCorner c) (_orientation c)
    (_orientationComplement c) (_width c) (_depth c) (_height c) (emptyVolumes c)
    (abort c) (success c) (refinedVolumeCalculation c) v
    (_geoHandleSupport c) (_lastRotation c) (_rotating c) (emitted c).
Definition emit (n : Notification) (c : Controller) : Controller :=
  mkController (map c) (_shiftPressed c) (_state c) (_firstCorner c) (_orientation c)
    (_orientationComplement c) (_width c) (_depth c) (_height c) (emptyVolumes c)
    (abort c) (success c) (refinedVolumeCalculation c) (resizedFaceIndex c)
    (_geoHandleSupport c) (_lastRotation c) (_rotating c) (emitted c ++ [n]).

(** ** The measurement snapshot *)

Record Measurement : Type := mkMeasurement {
  m_width : R; m_depth : R; m_height : R;
  m_area : R; m_volume : R; m_refinedVolume : R
}.

Definition calculateVolume (c : Controller) : Measurement :=
  let width := Rabs (_width c) in
  let height := Rabs (_height c) in
  let depth := Rabs (_depth c) in
  let area := width * depth in
  let volume := area * height in
  let refinedVolume := refinedVolumeCalculation c in
  mkMeasurement width depth height area volume refinedVolume.

Definition canRefine (c : Controller) : bool :=
  CreationState_eqb (_state c) VOLUME_DEFINED.

(** [emitMeasurementUpdate]: the payload is [calculateVolume] formatted by
    the unit collaborator; the log keeps the kind. *)
Definition emitMeasurementUpdate (c : Controller) : Controller :=
  emit VOLUME_MEASUREMENT_UPDATE c.

(** A controller as the constructor leaves it, on an activated map. *)
Definition newController (m : option Map) : Controller :=
  mkController m false IDLE None None None 0 0 0 [] false false 0 (-1)%Z
    false 0 false [].

(** The scenario of the specification: anchor at the origin, width 10,
    depth 10, height 5. *)
Definition scenarioBox : Controller :=
  set_state VOLUME_DEFINED
    (set_height 5 (set_depth 10 (set_width 10
      (set_orientationComplement (Some (mkV3 0 1 0))
        (set_orientation (Some (mkV3 1 0 0))
          (set_firstCorner (Some (mkV3 0 0 0)) (newController None))))))).


(** ** Calls that can throw

    A method either returns a value and leaves a controller, or throws
    and leaves the controller as it was at the throw. *)

Inductive Result (A : Type) : Type :=
| Returned (a : A) (c : Controller)
| Thrown (c : Controller).
Arguments Thrown {A} c.

Definition M (A : Type) : Type := Controller -> Result A.

Definition ret {A : Type} (a : A) : M A := fun c => Returned a c.
Definition bind {A B : Type} (m : M A) (k : A -> M B) : M B :=
  fun c => match m c with
           | Returned a c' => k a c'
           | Thrown c' => Thrown c'
           end.
Definition modify (f : Controller -> Controller) : M unit :=
  fun c => Returned tt (f c).

Notation "m ;;; k" := (bind m (fun _ => k))
  (at level 61, right associativity).

(** The controller a call leaves behind, whether it returned or threw. *)
Definition stateAfter {A : Type} (r : Result A) : Controller :=
  match r with Returned _ c => c | Thrown c => c end.

Definition Rltb (a b : R) : bool := if Rlt_dec a b then true else false.
Definition truthy (a : R) : bool := if Req_dec_T a 0 then false else true.
Definition isSome {A : Type} (o : option A) : bool :=
  match o with Some _ => true | None => false end.

(** ** Shapes built from the parameters *)

(** [createPlane]: the base rectangle; [None] when the method throws. *)
Definition createPlane (c : Controller) : option (list V3) :=
  match map c, _firstCorner c, _orientation c, _orientationComplement c with
  | Some _, Some p, Some o, Some oc =>
      Some [ p;
             add p (scale o (_width c));
             add p (add (scale o (_width c)) (scale oc (_depth c)));
             add p (scale oc (_depth c)) ]
  | _, _, _, _ => None
  end.

Section WithCollaborators.

Variable env : Collaborators.

(** [createBoxFromParameters]; [None] when it throws. *)
Definition createBoxFromParameters (c : Controller)
    (firstCorner orientation orientationComplement : option V3)
    (width depth height : R) : option OrientedBox :=
  match map c, firstCorner, orientation, orientationComplement with
  | Some m, Some p, Some o, Some _ =>
      let northFacingCamera := lookFromNorth m p in
      let azimuth := - angle env (fst northFacingCamera) o (snd northFacingCamera) - 90 in
      let azimuth := if Rlt_dec 0 depth then azimuth + 90 else azimuth in
      Some (createOrientedBox env p azimuth
              (mkV3 0 0 (if Rltb height 0 || _shiftPressed c
                         then - Rabs height else 0))
              (mkV3 (if Rlt_dec depth 0 then width else Rabs depth)
                    (if Rlt_dec depth 0 then Rabs depth else width)
                    (Rabs (if _shiftPressed c then height * 2 else height))))
  | _, _, _, _ => None
  end.

Definition createBox (c : Controller) : option OrientedBox :=
  createBoxFromParameters c (_firstCorner c) (_orientation c)
    (_orientationComplement c) (_width c) (_depth c) (_height c).

(** ** Standardization *)

Definition standardizePlane : M unit := fun c =>
  if Rlt_dec (_depth c) 0 then
    match map c, _firstCorner c, _orientationComplement c, _orientation c with
    | Some _, Some p, Some oc, Some o =>
        let fourthCorner := add p (scale oc (_depth c)) in
        let worldPoint :=
          add p (add (scale o (_width c)) (scale oc (_depth c))) in
        let c := set_firstCorner (Some fourthCorner) c in
        let c := set_depth (Rabs (_depth c)) c in
        let o' := normalize (sub worldPoint fourthCorner) in
        let c := set_orientation (Some o') c in
        let c := set_orientationComplement
                   (Some (normalize (cross o' fourthCorner))) c in
        Returned tt c
    | _, _, _, _ => Thrown c
    end
  else Returned tt c.

(** ** Seeding from a box *)

Record BoxParameters : Type := mkBoxParameters {
  p_firstCorner : V3;
  p_width : R; p_depth : R; p_height : R;
  p_orientation : V3; p_orientationComplement : V3
}.

Definition extractBoxParameters (box : OrientedBox) : BoxParameters :=
  let firstCorner := c7 box in
  let widthVec := sub (c5 box) firstCorner in
  let depthVec := sub (c3 box) firstCorner in
  let heightVec := sub (c6 box) firstCorner in
  let orientation := normalize (sub (c5 box) firstCorner) in
  let orientationComplement := normalize (cross orientation firstCorner) in
  mkBoxParameters firstCorner
    (Rabs (length widthVec)) (Rabs (length depthVec)) (length heightVec)
    orientation orientationComplement.

Definition initializeBox (box : OrientedBox) (c : Controller) : Controller :=
  let inputs := extractBoxParameters box in
  let c := set_firstCorner (Some (p_firstCorner inputs)) c in
  let c := set_orientation (Some (p_orientation inputs)) c in
  let c := set_orientationComplement (Some (p_orientationComplement inputs)) c in
  let c := set_width (p_width inputs) c in
  let c := set_depth (p_depth inputs) c in
  let c := set_height (p_height inputs) c in
  set_state VOLUME_DEFINED c.

(** ** Face resizing *)

(** [dimensionsChanged].  Moving the handles of the rotate/translate
    support is a drawing effect; only the throw of [createPlane] on that
    path is kept. *)
Definition dimensionsChanged : M unit := fun c =>
  let c := set_emptyVolumes [] c in
  if _geoHandleSupport c && isSome (map c) then
    if isSome (_firstCorner c) && truthy (_width c) && truthy (_depth c)
       && truthy (_height c)
    then match createPlane c with
         | Some _ => Returned tt c
         | None => Thrown c
         end
    else Returned tt c
  else Returned tt c.

Definition updateHeightFromTopFaceDrag (viewPoint thirdCorner : V3)
  : M HandleEventResult := fun c =>
  match map c, _firstCorner c, _orientation c, _orientationComplement c with
  | Some m, Some p, Some _, Some _ =>
      let right := cross (camera_forward m) (camera_up m) in
      let normal := normalize (cross right p) in
      match rayPlaneIntersection env (camera_eye m)
              (calculatePointingDirection m viewPoint) normal thirdCorner with
      | Some worldPoint =>
          let c := set_height
                     (clamp (distanceAlongDirection env worldPoint p p) 0 MAX_SIZE) c in
          Returned EVENT_HANDLED (emitMeasurementUpdate c)
      | None => Returned EVENT_HANDLED c
      end
  | _, _, _, _ => Thrown c
  end.

Definition updateWidthFromFaceDragPrimary (viewPoint oppositeFaceCenter : V3)
  : M HandleEventResult := fun c =>
  match map c, _firstCorner c, _orientation c with
  | Some m, Some p, Some o =>
      match rayPlaneIntersection env (camera_eye m)
              (calculatePointingDirection m viewPoint)
              oppositeFaceCenter oppositeFaceCenter with
      | Some worldPoint =>
          let newWidth :=
            clamp (distanceAlongDirection env oppositeFaceCenter worldPoint o)
                  (1 / 100) MAX_SIZE in
          let delta := _width c - newWidth in
          let c := set_firstCorner (Some (add p (scale o delta))) c in
          let c := set_width newWidth c in
          (dimensionsChanged ;;;
           modify emitMeasurementUpdate ;;;
           ret EVENT_HANDLED) c
      | None => Returned EVENT_HANDLED c
      end
  | _, _, _ => Returned EVENT_IGNORED c
  end.

Definition updateWidthFromFaceDragSecondary (viewPoint oppositeFaceCenter : V3)
  : M HandleEventResult := fun c =>
  match map c, _firstCorner c, _orientation c with
  | Some m, Some p, Some o =>
      match rayPlaneIntersection env (camera_eye m)
              (calculatePointingDirection m viewPoint)
              oppositeFaceCenter oppositeFaceCenter with
      | Some worldPoint =>
          let c := set_width
                     (clamp (distanceAlongDirection env worldPoint oppositeFaceCenter o)
                            (1 / 100) MAX_SIZE) c in
          (dimensionsChanged ;;;
           modify emitMeasurementUpdate ;;;
           ret EVENT_HANDLED) c
      | None => Returned EVENT_HANDLED c
      end
  | _, _, _ => Returned EVENT_IGNORED c
  end.

(** The clamp range of a depth drag: [direction] is 1 or -1. *)
Definition MINMAX (direction : Z) : R * R :=
  if (direction =? 1)%Z then (- MAX_SIZE, - (1 / 100)) else (1 / 100, MAX_SIZE).

(** The depth handlers cast [_orientationComplement] to a vector without
    a check; a missing complement makes the toolbox call throw. *)
Definition updateDepthFromFaceDragPrimary (viewPoint oppositeFaceCenter : V3)
    (direction : Z) : M HandleEventResult := fun c =>
  match map c, _firstCorner c, _orientation c with
  | Some m, Some p, Some _ =>
      match rayPlaneIntersection env (camera_eye m)
              (calculatePointingDirection m viewPoint)
              oppositeFaceCenter oppositeFaceCenter with
      | Some worldPoint =>
          match _orientationComplement c with
          | Some oc =>
              let newDepth :=
                clamp (distanceAlongDirection env oppositeFaceCenter worldPoint oc)
                      (fst (MINMAX direction)) (snd (MINMAX direction)) in
              let delta := _depth c - newDepth in
              let c := set_firstCorner (Some (add p (scale oc delta))) c in
              let c := set_depth newDepth c in
              (dimensionsChanged ;;;
               modify emitMeasurementUpdate ;;;
               ret EVENT_HANDLED) c
          | None => Thrown c
          end
      | None => Returned EVENT_HANDLED c
      end
  | _, _, _ => Returned EVENT_IGNORED c
  end.

Definition updateDepthFromFaceDragSecondary (viewPoint oppositeFaceCenter : V3)
    (direction : Z) : M HandleEventResult := fun c =>
  match map c, _firstCorner c, _orientation c with
  | Some m, Some p, Some _ =>
      match rayPlaneIntersection env (camera_eye m)
              (calculatePointingDirection m viewPoint)
              oppositeFaceCenter oppositeFaceCenter with
      | Some worldPoint =>
          match _orientationComplement c with
          | Some oc =>
              let c := set_depth
                         (clamp (distanceAlongDirection env worldPoint oppositeFaceCenter oc)
                                (fst (MINMAX direction)) (snd (MINMAX direction))) c in
              (dimensionsChanged ;;;
               modify emitMeasurementUpdate ;;;
               ret EVENT_HANDLED) c
          | None => Thrown c
          end
      | None => Returned EVENT_HANDLED c
      end
  | _, _, _ => Returned EVENT_IGNORED c
  end.

(** [updateFaceSize].  The references [resizedFace] and [hoveredFace] it
    refreshes are drawing state. *)
Definition updateFaceSize (viewPoint : V3) : M HandleEventResult := fun c =>
  if negb (isSome (map c)) || (resizedFaceIndex c <=? -1)%Z
  then Returned EVENT_IGNORED c
  else
    match createBox c with
    | None => Thrown c
    | Some box =>
        let polygons := createFacePolygons env box in
        if (resizedFaceIndex c <? 0)%Z || (6 <=? resizedFaceIndex c)%Z
        then Returned EVENT_IGNORED c
        else if Rlt_dec (_depth c) 0 then
          match resizedFaceIndex c with
          | 0%Z => updateWidthFromFaceDragPrimary viewPoint (f1 polygons) c
          | 1%Z => updateWidthFromFaceDragSecondary viewPoint (f0 polygons) c
          | 2%Z => updateDepthFromFaceDragPrimary viewPoint (f3 polygons) 1 c
          | 3%Z => updateDepthFromFaceDragSecondary viewPoint (f2 polygons) 1 c
          | 5%Z => updateHeightFromTopFaceDrag viewPoint (f4 polygons) c
          | _ => Returned EVENT_IGNORED c
          end
        else
          match resizedFaceIndex c with
          | 0%Z => updateDepthFromFaceDragPrimary viewPoint (f1 polygons) (-1) c
          | 1%Z => updateDepthFromFaceDragSecondary viewPoint (f0 polygons) (-1) c
          | 2%Z => updateWidthFromFaceDragPrimary viewPoint (f3 polygons) c
          | 3%Z => updateWidthFromFaceDragSecondary viewPoint (f2 polygons) c
          | 5%Z => updateHeightFromTopFaceDrag viewPoint (f4 polygons) c
          | _ => Returned EVENT_IGNORED c
          end
    end.

Definition handleDrag (viewPoint : V3) : M HandleEventResult := fun c =>
  if CreationState_eqb (_state c) FACE_RESIZING
  then updateFaceSize viewPoint c
  else Returned EVENT_IGNORED c.

(** ** Rotation and translation *)

Definition applyRotation (absoluteRotation : R) : M unit := fun c =>
  match _orientation c, _orientationComplement c, _firstCorner c with
  | Some o, Some oc, Some p =>
      let c := if _rotating c then c
               else set_lastRotation 0 (set_rotating true c) in
      let delta := _lastRotation c - absoluteRotation in
      match createPlane c with
      | None => Thrown c
      | Some corners =>
          let center :=
            scale (addArray corners) (1 / INR (List.length corners)) in
          let planeNormal := cross o oc in
          let c := set_orientation
                     (Some (rotateAroundAxis env o planeNormal (- delta))) c in
          let c := set_orientationComplement
                     (Some (rotateAroundAxis env oc planeNormal (- delta))) c in
          let point := rotatePointAroundLine env p center planeNormal (- delta) in
          let c := set_firstCorner (Some point) c in
          Returned tt (set_lastRotation absoluteRotation c)
      end
  | _, _, _ => Returned tt c
  end.

Definition applyTranslation (translation : V3) : M unit := fun c =>
  match _orientation c, _orientationComplement c, _firstCorner c with
  | Some _, Some _, Some p =>
      let c := set_firstCorner
                 (Some (mkV3 (x p + x translation) (y p + y translation)
                             (z p + z translation))) c in
      match createPlane c with
      | None => Thrown c
      | Some _ => Returned tt c
      end
  | _, _, _ => Returned tt c
  end.

(** ** Refined volume *)

(** The accumulator [emptyVolume] of [substractEmptyAreas].  Reading a
    cell outside its row gives [undefined] and the product is NaN, which
    the sum then keeps: [None] stands for NaN. *)
Fixpoint sumRow (smallBaseArea : R) (row : list R) (j n : nat)
    (emptyVolume : option R) : option R :=
  match n with
  | O => emptyVolume
  | S n' =>
      let emptyVolume :=
        match emptyVolume, nth_error row j with
        | Some s, Some e => Some (s + smallBaseArea * e)
        | _, _ => None
        end in
      sumRow smallBaseArea row (S j) n' emptyVolume
  end.

(** The outer loop; reading a cell of a row that does not exist throws
    (outer [None]). *)
Fixpoint sumRows (smallBaseArea : R) (grid : list (list R)) (i n : nat)
    (emptyVolume : option R) : option (option R) :=
  match n with
  | O => Some emptyVolume
  | S n' =>
      match nth_error grid i with
      | None => None
      | Some row =>
          sumRows smallBaseArea grid (S i) n'
            (sumRow smallBaseArea row 0 RefinedGridSize emptyVolume)
      end
  end.

(** [substractEmptyAreas]; [None] when it throws. *)
Definition substractEmptyAreas (c : Controller) : option R :=
  let width := Rabs (_width c) in
  let depth := Rabs (_depth c) in
  let height := Rabs (_height c) in
  let area := width * depth in
  let volume := area * height in
  if canRefine c && (0 <? List.length (emptyVolumes c))%nat then
    let w := width / INR RefinedGridSize in
    let d := depth / INR RefinedGridSize in
    let smallBaseArea := w * d in
    match sumRows smallBaseArea (emptyVolumes c) 0 RefinedGridSize (Some 0) with
    | None => None
    | Some None => Some 0
    | Some (Some emptyVolume) =>
        let refined := volume - emptyVolume in
        Some (if Rlt_dec 0 refined then refined else 0)
    end
  else Some volume.

(** ** The refinement scan *)

(** What a scan does to the outside, in order: a call of
    [moveCameraToPointAndSample] with a point, and a progress value sent
    to the banner. *)
Inductive ScanEvent : Type :=
| Sampled (point : V3)
| Progress (percent : R).

(** A running scan: the controller, the number of camera moves awaited
    so far and the events so far (oldest first). *)
Record Run : Type := mkRun {
  ctl : Controller;
  moves : nat;
  trace : list ScanEvent
}.

Definition logEvent (e : ScanEvent) (r : Run) : Run :=
  mkRun (ctl r) (moves r) (trace r ++ [e]).

(** Awaiting the camera move, which is taken to complete: the abort
    callback may run meanwhile. *)
Definition awaitCameraMove (r : Run) : Run :=
  mkRun (set_abort (abort (ctl r) || userAborts env (moves r)) (ctl r))
        (S (moves r)) (trace r).

Definition moveCameraToPointAndSample (point : V3) (maxValue : R) (r : Run)
  : R * Run :=
  let r := logEvent (Sampled point) r in
  match map (ctl r) with
  | None => (0, r)
  | Some m =>
      let r := awaitCameraMove r in
      match closestSurfaceAtCentre m point with
      | Some mapPoint =>
          let d := distance point mapPoint in
          (if Rgt_dec d maxValue then maxValue else d, r)
      | None => (0, r)
      end
  end.

(** The left-to-right loop over a row: [row] is what is left of it. *)
Fixpoint scanLeftToRight (maxValue : R) (row : list V3) (dataRow : list R)
    (r : Run) : list R * Run :=
  match row with
  | [] => (dataRow, r)
  | point :: rest =>
      if abort (ctl r) then (dataRow, r)
      else
        let (distance, r) := moveCameraToPointAndSample point maxValue r in
        scanLeftToRight maxValue rest (dataRow ++ [distance]) r
  end.

(** The right-to-left loop: [rowReversed] is the row from its last point
    to its first, what is left of it; each value is put in front. *)
Fixpoint scanRightToLeft (maxValue : R) (rowReversed : list V3)
    (dataRow : list R) (r : Run) : list R * Run :=
  match rowReversed with
  | [] => (dataRow, r)
  | point :: rest =>
      let (distance, r) := moveCameraToPointAndSample point maxValue r in
      scanRightToLeft maxValue rest (distance :: dataRow) r
  end.

Definition updateBlockingBannerProgress (percent : R) (r : Run) : Run :=
  logEvent (Progress percent) r.

(** The loop over the rows, from row [i] on. *)
Fixpoint scanRows (maxValue : R) (i : nat) (rows : list (list V3))
    (data : list (list R)) (r : Run) : list (list R) * Run :=
  match rows with
  | [] => (data, mkRun (set_success true (ctl r)) (moves r) (trace r))
  | row :: rest =>
      if abort (ctl r) then ([], r)
      else
        let finishRow := fun (scanned : list R * Run) =>
          let (dataRow, r) := scanned in
          let r := updateBlockingBannerProgress
                     (100 * (INR i + 1) / INR RefinedGridSize) r in
          scanRows maxValue (S i) rest (data ++ [dataRow]) r in
        let leftToRight := Nat.even i in
        if leftToRight then finishRow (scanLeftToRight maxValue row [] r)
        else if abort (ctl r) then ([], r)
        else finishRow (scanRightToLeft maxValue (rev row) [] r)
  end.

Definition processGridPoints (gridPoints : list (list V3)) (maxValue : R)
    (r : Run) : list (list R) * Run :=
  scanRows maxValue 0 gridPoints [] r.

(** The grid of cell centres on the face with corners 0, 4, 2, 6. *)
Definition gridPointsOf (box : OrientedBox) : list (list V3) :=
  let top0 := c0 box in
  let top4 := c4 box in
  let top2 := c2 box in
  let top6 := c6 box in
  let halfStep := (1 / 2) / INR RefinedGridSize in
  let step := 1 / INR RefinedGridSize in
  List.map (fun i =>
         let t := step * INR i + halfStep in
         let leftPoint := interpolate top0 top4 t in
         let rightPoint := interpolate top2 top6 t in
         List.map (fun j =>
                let s := step * INR j + halfStep in
                interpolate leftPoint rightPoint s)
             (seq 0 RefinedGridSize))
      (seq 0 RefinedGridSize).

(** The bound handed to the sampler. *)
Definition maxDistanceOf (box : OrientedBox) : R := distance (c0 box) (c1 box).

(** [refineCalculation] together with the continuation that runs when
    the scan settles.  Saving and restoring the screen and the banner
    are host effects.  The result is the trace of the scan. *)
Definition refineCalculation : M (list ScanEvent) := fun c =>
  if negb (canRefine c) then Returned [] c
  else
    let c := set_emptyVolumes [] c in
    match createBox c with
    | None => Thrown c
    | Some box =>
        let gridPoints := gridPointsOf box in
        let c := set_abort false c in
        let c := set_refinedVolumeCalculation 0 c in
        let c := set_success false c in
        let maxDistance := maxDistanceOf box in
        let (data, r) := processGridPoints gridPoints maxDistance (mkRun c 0 []) in
        let c := ctl r in
        if success c then
          let c := set_emptyVolumes data c in
          match substractEmptyAreas c with
          | None => Thrown c
          | Some v =>
              let c := set_refinedVolumeCalculation v c in
              Returned (trace r) (emitMeasurementUpdate c)
          end
        else Returned (trace r) (set_emptyVolumes [] c)
    end.

End WithCollaborators.

(** ** Spec-side notions *)

(** The gross volume and the area of one cell of the refinement grid. *)
Definition grossVolume (c : Controller) : R :=
  Rabs (_width c) * Rabs (_depth c) * Rabs (_height c).

Definition cellArea (c : Controller) : R :=
  (Rabs (_width c) / INR RefinedGridSize) * (Rabs (_depth c) / INR RefinedGridSize).

(** The sum over all cells of cell area times empty height. *)
Definition emptySum (a : R) (grid : list (list R)) : R :=
  fold_right Rplus 0 (List.map (fun e => a * e) (concat grid)).

(** The same sum over one row. *)
Definition rowSum (a : R) (row : list R) : R :=
  fold_right Rplus 0 (List.map (fun e => a * e) row).

(** An n x n matrix. *)
Definition isGrid {A : Type} (n : nat) (grid : list (list A)) : Prop :=
  List.length grid = n /\ Forall (fun row => List.length row = n) grid.

Definition nonNegativeCells (grid : list (list R)) : Prop :=
  Forall (Forall (fun e => 0 <= e)) grid.

Definition allZeroCells (grid : list (list R)) : Prop :=
  Forall (Forall (fun e => e = 0)) grid.

(** A finalized 10 x 10 x 5 box whose last refinement found one metre of
    empty height in every cell. *)
Definition refinedScenarioBox : Controller :=
  set_emptyVolumes (repeat (repeat 1 RefinedGridSize) RefinedGridSize) scenarioBox.

(** The value a sample at [point] has: it depends on the map and the
    bound only. *)
Definition sampleAt (m : option Map) (maxValue : R) (point : V3) : R :=
  match m with
  | None => 0
  | Some m =>
      match closestSurfaceAtCentre m point with
      | Some mapPoint =>
          let d := distance point mapPoint in
          if Rgt_dec d maxValue then maxValue else d
      | None => 0
      end
  end.

(** A plain scan: every row left to right, the rows in order. *)
Definition plainScan (m : option Map) (maxValue : R)
    (gridPoints : list (list V3)) : list (list R) :=
  List.map (List.map (sampleAt m maxValue)) gridPoints.

(** The order in which row [i] is walked in a serpentine scan. *)
Definition rowOrder (i : nat) (row : list V3) : list V3 :=
  if Nat.even i then row else rev row.

(** The points of the rows from row [i] on, in serpentine order. *)
Fixpoint serpentine (i : nat) (rows : list (list V3)) : list V3 :=
  match rows with
  | [] => []
  | row :: rest => rowOrder i row ++ serpentine (S i) rest
  end.

(** The progress value reported once [rowsCompleted] rows are done. *)
Definition progressAfter (rowsCompleted : nat) : R :=
  100 * INR rowsCompleted / INR RefinedGridSize.

(** The events of a serpentine scan that is left alone: row after row,
    and after each row its progress report. *)
Fixpoint serpentineTrace (i : nat) (rows : list (list V3)) : list ScanEvent :=
  match rows with
  | [] => []
  | row :: rest =>
      List.map Sampled (rowOrder i row) ++ [Progress (progressAfter (S i))]
        ++ serpentineTrace (S i) rest
  end.

(** The points sampled in a trace, in order. *)
Fixpoint sampledPoints (t : list ScanEvent) : list V3 :=
  match t with
  | [] => []
  | Sampled point :: t => point :: sampledPoints t
  | Progress _ :: t => sampledPoints t
  end.

(** The user pressed the abort button during one of the camera moves
    [from], ..., [from + count - 1]. *)
Definition abortedDuring (env : Collaborators) (from count : nat) : bool :=
  existsb (userAborts env) (seq from count).

(** What the scan may have done to a run between two moments: pressed
    abort, counted camera moves, logged events. *)
Record scanStep (env : Collaborators) (r r' : Run) (count : nat) : Prop :=
  mkScanStep {
    step_ctl : ctl r' = set_abort (abort (ctl r')) (ctl r);
    step_moves : moves r' = (moves r + (if isSome (map (ctl r)) then count else 0))%nat;
    step_abort : abort (ctl r') =
                 abort (ctl r) ||
                 abortedDuring env (moves r) (if isSome (map (ctl r)) then count else 0)
  }.

(** ** Concrete hosts and boxes *)

(** A map whose camera looks down the z axis and finds the surface three
    units below every point. *)
Definition plainMap : Map :=
  mkMap (mkV3 0 0 10) (mkV3 0 0 (-1)) (mkV3 0 1 0)
        (fun _ => mkV3 0 0 (-1))
        (fun _ => (mkV3 0 1 0, mkV3 0 0 1))
        (fun point => Some (sub point (mkV3 0 0 3))).

(** A box whose depth was dragged backward: anchor 4 units from the
    centre of the reference frame on the z axis, orientation along x, the
    complement [normalize (cross orientation anchor)], width 1, depth -3,
    height 5. *)
Definition backwardBox : Controller :=
  set_state PLANE_DEFINED
    (set_height 5 (set_depth (-3) (set_width 1
      (set_orientationComplement (Some (mkV3 0 (-1) 0))
        (set_orientation (Some (mkV3 1 0 0))
          (set_firstCorner (Some (mkV3 0 0 4)) (newController (Some plainMap)))))))).

(** Corner [k] of an oriented box is its minimum corner moved along the
    box x edge when bit 2 of [k] is set, along the y edge when bit 1 is
    set and along the z edge when bit 0 is set.  This is the indexing the
    controller relies on: [extractBoxParameters] takes corners 5, 3 and 6
    as the three neighbours of corner 7, the sampled face is 0, 4, 2, 6
    and the face drawn opposite to it is 1, 5, 3, 7. *)
Definition boxFrom (origin ex ey ez : V3) : OrientedBox :=
  mkBox origin (add origin ez)
        (add origin ey) (add (add origin ey) ez)
        (add origin ex) (add (add origin ex) ez)
        (add (add origin ex) ey) (add (add (add origin ex) ey) ez).

Definition centroid (a b c d : V3) : V3 :=
  scale (add (add a b) (add c d)) (1 / 4).

(** Collaborators for concrete runs: every ray hits the plane at the
    point that defines it, rotations are the identity, boxes are axis
    aligned, the faces are x-, x+, y-, y+, z-, z+, and nobody presses the
    abort button. *)
Definition plainCollaborators : Collaborators :=
  mkCollaborators
    (fun _ _ _ point => Some point)
    (fun a b direction => dot (sub a b) (normalize direction))
    (fun v _ _ => v)
    (fun point _ _ _ => point)
    (fun _ _ _ => 0)
    (fun anchor _ offset size =>
       boxFrom (add anchor offset)
               (mkV3 (x size) 0 0) (mkV3 0 (y size) 0) (mkV3 0 0 (z size)))
    (fun box =>
       mkFaces (centroid (c0 box) (c1 box) (c3 box) (c2 box))
               (centroid (c4 box) (c5 box) (c7 box) (c6 box))
               (centroid (c0 box) (c1 box) (c5 box) (c4 box))
               (centroid (c2 box) (c3 box) (c7 box) (c6 box))
               (centroid (c0 box) (c2 box) (c6 box) (c4 box))
               (centroid (c1 box) (c3 box) (c7 box) (c5 box)))
    (fun _ => false).

(** The same collaborators with a user who presses the abort button
    during the first camera move. *)
Definition impatientCollaborators : Collaborators :=
  mkCollaborators
    (rayPlaneIntersection plainCollaborators)
    (distanceAlongDirection plainCollaborators)
    (rotateAroundAxis plainCollaborators)
    (rotatePointAroundLine plainCollaborators)
    (angle plainCollaborators)
    (createOrientedBox plainCollaborators)
    (createFacePolygons plainCollaborators)
    (fun n => (n =? 0)%nat).

(** The same kind of box at any scale: anchor at distance [radius] on the
    z axis, depth dragged backward by [d]. *)
Definition backwardBoxAt (radius d width height : R) : Controller :=
  set_state PLANE_DEFINED
    (set_height height (set_depth (- d) (set_width width
      (set_orientationComplement (Some (mkV3 0 (-1) 0))
        (set_orientation (Some (mkV3 1 0 0))
          (set_firstCorner (Some (mkV3 0 0 radius))
             (newController (Some plainMap)))))))).

(** A finalized box on [plainMap]: anchor (0, 0, 4), width 1, depth 1,
    height 5. *)
Definition towerBox : Controller :=
  set_state VOLUME_DEFINED
    (set_height 5 (set_depth 1 (set_width 1
      (set_orientationComplement (Some (mkV3 0 (-1) 0))
        (set_orientation (Some (mkV3 1 0 0))
          (set_firstCorner (Some (mkV3 0 0 4)) (newController (Some plainMap)))))))).

(** [towerBox] after a refinement that found one unit of empty height in
    every cell and reported a refined volume of 4. *)
Definition refinedTowerBox : Controller :=
  set_refinedVolumeCalculation 4
    (set_emptyVolumes (repeat (repeat 1 RefinedGridSize) RefinedGridSize) towerBox).

(** [refinedTowerBox] while its bottom face (face 5) is being dragged. *)
Definition draggedTowerBox : Controller :=
  set_resizedFaceIndex 5 (set_state FACE_RESIZING refinedTowerBox).

(** [refinedTowerBox] while its face 3, one of the two width faces, is
    being dragged. *)
Definition widthDraggedTowerBox : Controller :=
  set_resizedFaceIndex 3 (set_state FACE_RESIZING refinedTowerBox).

(** A grid of two rows of two points. *)
Definition smallGrid : list (list V3) :=
  [[mkV3 0 0 4; mkV3 1 0 4]; [mkV3 0 1 4; mkV3 1 1 4]].

(** The diagonal of the sampled face, the one with corners 0, 4, 2, 6. *)
Definition topFaceDiagonal (box : OrientedBox) : R := distance (c0 box) (c6 box).

(** ** Gestures

    The rest of the controller: the gesture dispatch, the construction
    steps, hovering, and entering and leaving the edit modes. *)

Definition set_shiftPressed (v : bool) (c : Controller) : Controller :=
  mkController (map c) v (_state c) (_firstCorner c) (_orientation c)
    (_orientationComplement c) (_width c) (_depth c) (_height c) (emptyVolumes c)
    (abort c) (success c) (refinedVolumeCalculation c) (resizedFaceIndex c)
    (_geoHandleSupport c) (_lastRotation c) (_rotating c) (emitted c).
Definition set_geoHandleSupport (v : bool) (c : Controller) : Controller :=
  mkController (map c) (_shiftPressed c) (_state c) (_firstCorner c) (_orientation c)
    (_orientationComplement c) (_width c) (_depth c) (_height c) (emptyVolumes c)
    (abort c) (success c) (refinedVolumeCalculation c) (resizedFaceIndex c)
    v (_lastRotation c) (_rotating c) (emitted c).

Inductive GestureEventType : Type :=
| DRAG | MOVE | SINGLE_CLICK_UP | DOUBLE_CLICK | DOWN | UP | DRAG_END
| OTHER_GESTURE.

(** A gesture event: its type, the button of its DOM event, whether its
    modifier is SHIFT, and its view point. *)
Record GestureEvent : Type := mkGestureEvent {
  g_type : GestureEventType;
  g_button : Z;
  g_shift : bool;
  g_viewPoint : V3
}.

(** What the view-to-map transformation under the pointer does. *)
Inductive Transformed : Type :=
| TransformedTo (point : V3)
| OutOfBoundsError
| OtherError.

(** What the handles of the rotate/translate support report while they
    deal with a gesture. *)
Inductive HandleCallback : Type :=
| STYLE_UPDATED_EVENT
| ROTATED_EVENT (rotation : R)
| MOVED_EVENT (translation : V3)
| ALTITUDE_CHANGED_EVENT (translation : V3).

(** The services of the view under the pointer: the closest surface
    under a view point, the view position of a map point, the hit of a
    ray on face [k] of a box, and the handle support.  The last three are
    taken to answer: a throw of the map-to-view transformation, of the
    intersection or of the handle support is outside the model. *)
Record Pointing : Type := mkPointing {
  closestSurfaceUnder : V3 -> Transformed;
  mapToView : V3 -> V3;
  rayRectangleIntersection : V3 -> V3 -> OrientedBox -> nat -> option V3;
  handleGestureEvent : GestureEvent -> list V3 -> list HandleCallback * HandleEventResult
}.

Definition ResizeHandleIconSize : R := 20.
Definition MAX_SAFE_INTEGER : R := 9007199254740991.

(** The controller together with what it remembers about hovering.  A
    face polygon is kept as its focus point, the one thing the controller
    reads from it. *)
Record Session : Type := mkSession {
  core : Controller;
  boxIsHovered : bool;
  hoveredFace : option V3;
  resizedFace : option V3;
  handleIsHovered : bool
}.

Definition newSession (c : Controller) : Session :=
  mkSession c false None None false.

Definition with_core (c : Controller) (s : Session) : Session :=
  mkSession c (boxIsHovered s) (hoveredFace s) (resizedFace s) (handleIsHovered s).
Definition set_hoveredFace (v : option V3) (s : Session) : Session :=
  mkSession (core s) (boxIsHovered s) v (resizedFace s) (handleIsHovered s).
Definition set_resizedFace (v : option V3) (s : Session) : Session :=
  mkSession (core s) (boxIsHovered s) (hoveredFace s) v (handleIsHovered s).
Definition set_boxIsHovered (v : bool) (s : Session) : Session :=
  mkSession (core s) v (hoveredFace s) (resizedFace s) (handleIsHovered s).
Definition set_handleIsHovered (v : bool) (s : Session) : Session :=
  mkSession (core s) (boxIsHovered s) (hoveredFace s) (resizedFace s) v.

(** A handler either returns leaving a session or throws leaving one. *)
Inductive Outcome (A : Type) : Type :=
| Done (a : A) (s : Session)
| Failed (s : Session).
Arguments Failed {A} s.

Definition sessionAfter {A : Type} (o : Outcome A) : Session :=
  match o with Done _ s => s | Failed s => s end.

(** Running a method of the controller inside a session. *)
Definition onCore {A : Type} (m : M A) (s : Session) : Outcome A :=
  match m (core s) with
  | Returned a c => Done a (with_core c s)
  | Thrown c => Failed (with_core c s)
  end.

Definition facePolygon (faces : Faces) (k : nat) : option V3 :=
  match k with
  | 0%nat => Some (f0 faces) | 1%nat => Some (f1 faces) | 2%nat => Some (f2 faces)
  | 3%nat => Some (f3 faces) | 4%nat => Some (f4 faces) | 5%nat => Some (f5 faces)
  | _ => None
  end.

(** The answer of [isHovered]. *)
Record Hover : Type := mkHover {
  h_rectangle : option V3;
  h_hovered : bool;
  h_face : Z
}.

Section WithPointing.

Variable env : Collaborators.
Variable view : Pointing.

(** *** Construction steps *)

Definition updateCorner (viewPoint : V3) : M unit := fun c =>
  match closestSurfaceUnder view viewPoint with
  | TransformedTo point => Returned tt (set_firstCorner (Some point) c)
  | OutOfBoundsError => Returned tt c
  | OtherError => Thrown c
  end.

Definition updateWidth (viewPoint : V3) : M unit := fun c =>
  match map c, _firstCorner c with
  | Some m, Some p =>
      match rayPlaneIntersection env (camera_eye m)
              (calculatePointingDirection m viewPoint) p p with
      | Some worldPoint =>
          let c := set_width (Rmin MAX_SIZE (Rabs (distance p worldPoint))) c in
          let o := normalize (sub worldPoint p) in
          let c := set_orientation (Some o) c in
          let c := set_orientationComplement (Some (normalize (cross o p))) c in
          Returned tt (emitMeasurementUpdate c)
      | None => Returned tt c
      end
  | _, _ => Thrown c
  end.

Definition updatePlane (viewPoint : V3) : M unit := fun c =>
  match map c, _firstCorner c, _orientation c, _orientationComplement c with
  | Some m, Some p, Some _, Some oc =>
      match rayPlaneIntersection env (camera_eye m)
              (calculatePointingDirection m viewPoint) p p with
      | Some worldPoint =>
          let c := set_depth
                     (clamp (distanceAlongDirection env worldPoint p oc)
                            (- MAX_SIZE) MAX_SIZE) c in
          Returned tt (emitMeasurementUpdate c)
      | None => Returned tt c
      end
  | _, _, _, _ => Thrown c
  end.

Definition updateHeight (viewPoint : V3) : M unit := fun c =>
  match map c, _firstCorner c, _orientation c, _orientationComplement c with
  | Some m, Some p, Some o, Some oc =>
      let right := cross (camera_forward m) (camera_up m) in
      let normal := normalize (cross right p) in
      let thirdCorner :=
        add p (add (scale o (_width c)) (scale oc (_depth c))) in
      match rayPlaneIntersection env (camera_eye m)
              (calculatePointingDirection m viewPoint) normal thirdCorner with
      | Some worldPoint =>
          let c := set_height
                     (clamp (distanceAlongDirection env worldPoint p p) 0 MAX_SIZE) c in
          Returned tt (emitMeasurementUpdate c)
      | None => Returned tt c
      end
  | _, _, _, _ => Thrown c
  end.

(** *** Hovering *)

(** One turn of the loop of [isHovered] over the faces: the running
    minimum, the rectangle and the face found so far. *)
Definition hoverStep (m : Map) (viewPoint : V3) (box : OrientedBox)
    (acc : R * Hover) (faceCount : nat) : R * Hover :=
  let eye := camera_eye m in
  match rayRectangleIntersection view eye
          (calculatePointingDirection m viewPoint) box faceCount with
  | Some intersectionPoint =>
      let intersectionDistance := distance intersectionPoint eye in
      if Rlt_dec intersectionDistance (fst acc)
      then (intersectionDistance,
            mkHover (facePolygon (createFacePolygons env box) faceCount) true
                    (Z.of_nat faceCount))
      else acc
  | None => acc
  end.

(** [isHovered]; [None] when [createBox] throws. *)
Definition isHovered (viewPoint : V3) (c : Controller) : option Hover :=
  match map c with
  | None => Some (mkHover None false 0)
  | Some m =>
      match createBox env c with
      | None => None
      | Some box =>
          Some (snd (fold_left (hoverStep m viewPoint box) (seq 0 6)
                       (MAX_SAFE_INTEGER, mkHover None false (-1))))
      end
  end.

Definition hoverDetect (viewPoint : V3) (s : Session) : Outcome unit :=
  match map (core s) with
  | None => Done tt s
  | Some _ =>
      match isHovered viewPoint (core s) with
      | None => Failed s
      | Some h =>
          let s := set_boxIsHovered (h_hovered h) s in
          match h_hovered h, h_rectangle h with
          | true, Some rectangle =>
              let s := set_hoveredFace (Some rectangle) s in
              let d := distance (mapToView view rectangle) viewPoint in
              Done tt (set_handleIsHovered (Rltb d ResizeHandleIconSize) s)
          | _, _ =>
              Done tt (set_handleIsHovered false (set_hoveredFace None s))
          end
      end
  end.

Definition handleMove (viewPoint : V3) (s : Session)
  : Outcome HandleEventResult :=
  let moved :=
    match _state (core s) with
    | IDLE => onCore (updateCorner viewPoint) s
    | CORNER_DEFINED => onCore (updateWidth viewPoint) s
    | WIDTH_DEFINED => onCore (updatePlane viewPoint) s
    | PLANE_DEFINED => onCore (updateHeight viewPoint) s
    | VOLUME_DEFINED => hoverDetect viewPoint s
    | _ => Done tt s
    end in
  match moved with
  | Done _ s => Done EVENT_HANDLED s
  | Failed s => Failed s
  end.

(** *** Face dragging *)

(** [updateFaceSize] with the face references it refreshes. *)
Definition updateFaceSizeInSession (viewPoint : V3) (s : Session)
  : Outcome HandleEventResult :=
  let c := core s in
  if negb (isSome (map c)) || (resizedFaceIndex c <=? -1)%Z
  then Done EVENT_IGNORED s
  else
    match createBox env c with
    | None => Failed s
    | Some box =>
        if (resizedFaceIndex c <? 0)%Z || (6 <=? resizedFaceIndex c)%Z
        then Done EVENT_IGNORED (set_hoveredFace None (set_resizedFace None s))
        else
          let face := facePolygon (createFacePolygons env box)
                        (Z.to_nat (resizedFaceIndex c)) in
          onCore (updateFaceSize env viewPoint)
                 (set_hoveredFace face (set_resizedFace face s))
    end.

Definition handleDragInSession (viewPoint : V3) (s : Session)
  : Outcome HandleEventResult :=
  if CreationState_eqb (_state (core s)) FACE_RESIZING
  then updateFaceSizeInSession viewPoint s
  else Done EVENT_IGNORED s.

Definition handleButtonDown (viewPoint : V3) (s : Session)
  : Outcome HandleEventResult :=
  match map (core s) with
  | None => Done EVENT_IGNORED s
  | Some _ =>
      if CreationState_eqb (_state (core s)) VOLUME_DEFINED then
        match isHovered viewPoint (core s) with
        | None => Failed s
        | Some h =>
            match h_hovered h, h_rectangle h with
            | true, Some rectangle =>
                if (0 <=? h_face h)%Z
                   && Rltb (distance (mapToView view rectangle) viewPoint)
                           ResizeHandleIconSize
                then
                  let c := set_resizedFaceIndex (h_face h) (core s) in
                  let s := set_resizedFace (Some rectangle) (with_core c s) in
                  Done EVENT_HANDLED
                       (with_core (set_state FACE_RESIZING (core s)) s)
                else Done EVENT_IGNORED s
            | _, _ => Done EVENT_IGNORED s
            end
        end
      else Done EVENT_IGNORED s
  end.

Definition handleButtonUp (s : Session) : Outcome HandleEventResult :=
  if CreationState_eqb (_state (core s)) FACE_RESIZING then
    let c := set_state VOLUME_DEFINED (core s) in
    let c := set_resizedFaceIndex (-1) c in
    let s := set_resizedFace None (with_core c s) in
    Done EVENT_HANDLED (with_core (emitMeasurementUpdate (core s)) s)
  else Done EVENT_IGNORED s.

(** *** Clicks *)

(** [createEvent(true)] builds the box and throws when it cannot; the
    log keeps the kind of the notification. *)
Definition emitWithBox (n : Notification) : M unit := fun c =>
  match createBox env c with
  | Some _ => Returned tt (emit n c)
  | None => Thrown c
  end.

Definition restart : M HandleEventResult := fun c =>
  match emitWithBox VOLUME_MEASUREMENT_END c with
  | Thrown c => Thrown c
  | Returned _ c =>
      let c := set_state IDLE c in
      let c := set_width 0 c in
      let c := set_depth 0 c in
      let c := set_height 0 c in
      let c := set_refinedVolumeCalculation 0 c in
      let c := set_emptyVolumes [] c in
      let c := set_firstCorner None c in
      Returned EVENT_HANDLED (emitMeasurementUpdate c)
  end.

Definition enterMoveRotate : M HandleEventResult := fun c =>
  let c := set_geoHandleSupport true c in
  match dimensionsChanged c with
  | Thrown c => Thrown c
  | Returned _ c =>
      let c := set_state RESIZE_ROTATE c in
      Returned EVENT_IGNORED (emitMeasurementUpdate c)
  end.

Definition moveRotateOrRestart (viewPoint : V3) (s : Session)
  : Outcome HandleEventResult :=
  match map (core s) with
  | None => Done EVENT_IGNORED s
  | Some _ =>
      match isHovered viewPoint (core s) with
      | None => Failed s
      | Some h =>
          match h_hovered h, hoveredFace s with
          | true, Some face =>
              let d := distance (mapToView view face) viewPoint in
              if Rlt_dec d ResizeHandleIconSize then Done EVENT_IGNORED s
              else onCore enterMoveRotate s
          | _, _ => onCore restart s
          end
      end
  end.

Definition handleClick (viewPoint : V3) (s : Session)
  : Outcome HandleEventResult :=
  let c := core s in
  match _state c with
  | IDLE =>
      if isSome (_firstCorner c)
      then Done EVENT_HANDLED (with_core (set_state CORNER_DEFINED c) s)
      else Done EVENT_IGNORED s
  | CORNER_DEFINED =>
      if truthy (_width c) && isSome (_orientation c)
      then Done EVENT_HANDLED
             (with_core (emit VOLUME_MEASUREMENT_UPDATE
                           (set_state WIDTH_DEFINED c)) s)
      else Done EVENT_IGNORED s
  | WIDTH_DEFINED =>
      if truthy (_depth c)
      then Done EVENT_HANDLED
             (with_core (emit VOLUME_MEASUREMENT_UPDATE
                           (set_state PLANE_DEFINED c)) s)
      else Done EVENT_IGNORED s
  | PLANE_DEFINED =>
      if truthy (_height c)
      then onCore (standardizePlane ;;;
                   modify (set_state VOLUME_DEFINED) ;;;
                   modify emitMeasurementUpdate ;;;
                   emitWithBox VOLUME_MEASUREMENT_READY ;;;
                   ret EVENT_HANDLED) s
      else Done EVENT_IGNORED s
  | VOLUME_DEFINED => moveRotateOrRestart viewPoint s
  | _ => Done EVENT_IGNORED s
  end.

(** *** Rotate/translate mode *)

Definition runCallback (cb : HandleCallback) : M unit :=
  match cb with
  | STYLE_UPDATED_EVENT => ret tt
  | ROTATED_EVENT rotation => applyRotation env rotation
  | MOVED_EVENT translation => applyTranslation translation
  | ALTITUDE_CHANGED_EVENT translation => applyTranslation translation
  end.

Fixpoint runCallbacks (cbs : list HandleCallback) : M unit :=
  match cbs with
  | [] => ret tt
  | cb :: rest => runCallback cb ;;; runCallbacks rest
  end.

Definition isLeftClick (event : GestureEvent) : bool :=
  match g_type event with
  | SINGLE_CLICK_UP => (g_button event =? 0)%Z
  | _ => false
  end.

Definition shouldEndMoveRotate (event : GestureEvent) (s : Session)
  : Outcome HandleEventResult :=
  if isLeftClick event then
    match isHovered (g_viewPoint event) (core s) with
    | None => Failed s
    | Some h =>
        if h_hovered h && (-1 <? h_face h)%Z then
          let c := set_state VOLUME_DEFINED (core s) in
          let c := set_geoHandleSupport false c in
          let c := set_resizedFaceIndex (h_face h) c in
          let s := set_hoveredFace (h_rectangle h) (with_core c s) in
          Done EVENT_HANDLED (with_core (emitMeasurementUpdate (core s)) s)
        else Done EVENT_IGNORED s
    end
  else Done EVENT_IGNORED s.

Definition onGestureEvent (event : GestureEvent) (s : Session)
  : Outcome HandleEventResult :=
  match map (core s) with
  | None => Done EVENT_IGNORED s
  | Some _ =>
      if CreationState_eqb (_state (core s)) RESIZE_ROTATE
         && _geoHandleSupport (core s)
      then
        let s :=
          match g_type event with
          | DRAG_END =>
              if _rotating (core s)
              then with_core (set_rotating false (core s)) s else s
          | _ => s
          end in
        match createPlane (core s) with
        | None => Failed s
        | Some plane =>
            let handled := handleGestureEvent view event plane in
            match onCore (runCallbacks (fst handled)) s with
            | Failed s => Failed s
            | Done _ s =>
                match snd handled with
                | EVENT_HANDLED => Done EVENT_HANDLED s
                | EVENT_IGNORED => shouldEndMoveRotate event s
                end
            end
        end
      else
        let s := with_core (set_shiftPressed (g_shift event) (core s)) s in
        match g_type event with
        | DRAG => handleDragInSession (g_viewPoint event) s
        | MOVE => handleMove (g_viewPoint event) s
        | SINGLE_CLICK_UP =>
            if (g_button event =? 0)%Z then
              match handleClick (g_viewPoint event) s with
              | Done _ s => Done EVENT_IGNORED s
              | Failed s => Failed s
              end
            else Done EVENT_IGNORED s
        | DOUBLE_CLICK => Done EVENT_HANDLED s
        | DOWN =>
            if (g_button event =? 0)%Z
            then handleButtonDown (g_viewPoint event) s
            else Done EVENT_IGNORED s
        | UP =>
            if (g_button event =? 0)%Z then handleButtonUp s
            else Done EVENT_IGNORED s
        | _ => Done EVENT_IGNORED s
        end
  end.

Definition onDeactivate (c : Controller) : Controller :=
  set_geoHandleSupport false (set_emptyVolumes [] c).

End WithPointing.

Definition set_map (v : option Map) (c : Controller) : Controller :=
  mkController v (_shiftPressed c) (_state c) (_firstCorner c) (_orientation c)
    (_orientationComplement c) (_width c) (_depth c) (_height c) (emptyVolumes c)
    (abort c) (success c) (refinedVolumeCalculation c) (resizedFaceIndex c)
    (_geoHandleSupport c) (_lastRotation c) (_rotating c) (emitted c).

(** A gesture as it arrives: the map with its camera as it is then, the
    pointing services as they answer then, and the event. *)
Record Scene : Type := mkScene {
  scene_map : Map;
  scene_view : Pointing;
  scene_event : GestureEvent
}.

(** A series of gestures on an activated controller, up to the first
    that throws. *)
Fixpoint onGestureEvents (env : Collaborators) (scenes : list Scene)
    (s : Session) : Outcome unit :=
  match scenes with
  | [] => Done tt s
  | scene :: rest =>
      let s := with_core (set_map (Some (scene_map scene)) (core s)) s in
      match onGestureEvent env (scene_view scene) (scene_event scene) s with
      | Done _ s => onGestureEvents env rest s
      | Failed s => Failed s
      end
  end.

(** The progress values in a trace, in order. *)
Fixpoint progressReports (t : list ScanEvent) : list R :=
  match t with
  | [] => []
  | Sampled _ :: t => progressReports t
  | Progress percent :: t => percent :: progressReports t
  end.

(** Cell by cell, the first grid is nowhere above the second. *)
Definition cellsBelow (g1 g2 : list (list R)) : Prop :=
  Forall2 (Forall2 Rle) g1 g2.



(** Which state a click may lead to from which. *)
Definition clickAllowed (before after : CreationState) : bool :=
  match before, after with
  | IDLE, (IDLE | CORNER_DEFINED)
  | CORNER_DEFINED, (CORNER_DEFINED | WIDTH_DEFINED)
  | WIDTH_DEFINED, (WIDTH_DEFINED | PLANE_DEFINED)
  | PLANE_DEFINED, (PLANE_DEFINED | VOLUME_DEFINED)
  | VOLUME_DEFINED, (VOLUME_DEFINED | RESIZE_ROTATE | IDLE)
  | FACE_RESIZING, FACE_RESIZING
  | RESIZE_ROTATE, RESIZE_ROTATE => true
  | _, _ => false
  end.

(** How far from the eye the pointer ray hits face [k] of the box, if it
    does. *)
Definition hitDistance (view : Pointing) (m : Map) (viewPoint : V3)
    (box : OrientedBox) (k : nat) : option R :=
  match rayRectangleIntersection view (camera_eye m)
          (calculatePointingDirection m viewPoint) box k with
  | Some intersectionPoint => Some (distance intersectionPoint (camera_eye m))
  | None => None
  end.

(** What the loop of [isHovered] has found once the faces below [a] are
    done: nothing, every hit being too far; or the nearest hit, the
    lowest face winning a tie. *)
Definition nearestSoFar (env : Collaborators) (view : Pointing) (m : Map)
    (viewPoint : V3) (box : OrientedBox) (a : nat) (acc : R * Hover) : Prop :=
  (acc = (MAX_SAFE_INTEGER, mkHover None false (-1)) /\
   forall j d', (j < a)%nat -> hitDistance view m viewPoint box j = Some d' ->
                MAX_SAFE_INTEGER <= d') \/
  (exists k : nat,
     (k < a)%nat /\
     snd acc = mkHover (facePolygon (createFacePolygons env box) k) true
                       (Z.of_nat k) /\
     hitDistance view m viewPoint box k = Some (fst acc) /\
     fst acc < MAX_SAFE_INTEGER /\
     forall j d', (j < a)%nat -> hitDistance view m viewPoint box j = Some d' ->
                  fst acc <= d' /\ ((j < k)%nat -> fst acc < d')).

(** The collaborators of [plainCollaborators] with rays that miss every
    plane. *)
Definition blindCollaborators : Collaborators :=
  mkCollaborators
    (fun _ _ _ _ => None)
    (distanceAlongDirection plainCollaborators)
    (rotateAroundAxis plainCollaborators)
    (rotatePointAroundLine plainCollaborators)
    (angle plainCollaborators)
    (createOrientedBox plainCollaborators)
    (createFacePolygons plainCollaborators)
    (userAborts plainCollaborators).

(** Pointing services that find nothing. *)
Definition quietPointing : Pointing :=
  mkPointing (fun _ => OutOfBoundsError) (fun v => v)
             (fun _ _ _ _ => None) (fun _ _ => ([], EVENT_IGNORED)).

(** What the states of the controller promise about its fields: a map;
    an anchor from CORNER_DEFINED on; an orientation from WIDTH_DEFINED
    on; and never an orientation without its complement. *)
Definition wellFormed (c : Controller) : bool :=
  isSome (map c)
  && match _state c with
     | IDLE => true
     | _ => isSome (_firstCorner c)
     end
  && match _state c with
     | IDLE | CORNER_DEFINED => true
     | _ => isSome (_orientation c)
     end
  && implb (isSome (_orientation c)) (isSome (_orientationComplement c)).

(** A box in the middle of its construction, the height being dragged. *)
Definition risingBox : Controller :=
  set_state PLANE_DEFINED towerBox.

(** What [wellFormed] looks at. *)
Definition shape (c : Controller) : bool * CreationState * bool * bool * bool :=
  (isSome (map c), _state c, isSome (_firstCorner c), isSome (_orientation c),
   isSome (_orientationComplement c)).

(** A controller with a map, an anchor and both directions. *)
Definition defined (c : Controller) : Prop :=
  exists (m : Map) (p o oc : V3),
    map c = Some m /\ _firstCorner c = Some p /\
    _orientation c = Some o /\ _orientationComplement c = Some oc.

(** What a handler must do for the series to go on. *)
Definition goesOn {A : Type} (o : Outcome A) : Prop :=
  exists (a : A) (s' : Session), o = Done a s' /\ wellFormed (core s') = true.

(** Collaborators under which a box can be drawn: every ray hits its
    plane three units along x from the point that defines the plane, and
    every distance along a direction is 2. *)
Definition buildingCollaborators : Collaborators :=
  mkCollaborators
    (fun _ _ _ point => Some (add point (mkV3 3 0 0)))
    (fun _ _ _ => 2)
    (rotateAroundAxis plainCollaborators)
    (rotatePointAroundLine plainCollaborators)
    (angle plainCollaborators)
    (createOrientedBox plainCollaborators)
    (createFacePolygons plainCollaborators)
    (userAborts plainCollaborators).

(** Pointing services that find the surface at (0, 0, 4) under every
    view point. *)
Definition findingPointing : Pointing :=
  mkPointing (fun _ => TransformedTo (mkV3 0 0 4)) (fun v => v)
             (fun _ _ _ _ => None) (fun _ _ => ([], EVENT_IGNORED)).

(** The gestures that draw a box: four times a move and a click. *)
Definition constructionGestures : list Scene :=
  let move := mkScene plainMap findingPointing
                      (mkGestureEvent MOVE 0 false (mkV3 0 0 0)) in
  let click := mkScene plainMap findingPointing
                       (mkGestureEvent SINGLE_CLICK_UP 0 false (mkV3 0 0 0)) in
  [move; click; move; click; move; click; move; click].

(** Pointing services under which the pointer ray hits face 2 of every
    box five units from the eye of [plainMap], and every map point shows
    at the view origin. *)
Definition touchingPointing : Pointing :=
  mkPointing (fun _ => OutOfBoundsError) (fun _ => mkV3 0 0 0)
             (fun _ _ _ k => if (k =? 2)%nat then Some (mkV3 0 0 5) else None)
             (fun _ _ => ([], EVENT_IGNORED)).

(** ** Agreement up to rounding

    The code computes in double precision.  Where a law holds for the
    arithmetic the code writes down but not digit for digit for its
    doubles, it is stated up to a tolerance: [a] and [b] agree at
    [scale] when they differ by at most [scale] times 10^-12. *)
Definition agree (scale a b : R) : Prop := Rabs (a - b) <= scale / 10 ^ 12.

(** ** Painting the refined volume (OrientedBoxDrawUtil) *)

(** [Math.round]: the nearest integer, a tie going up. *)
Definition Math_round (v : R) : R := IZR (Int_part (v + 1 / 2)).

(** The geodesy of the host: [reprojectPoint] brings a point to
    EPSG:4326 ([None] when the transformation throws), [forwardAzimuth]
    is the ellipsoidal azimuth between two reprojected points. *)
Record Geodesy : Type := mkGeodesy {
  reprojectPoint : V3 -> option V3;
  forwardAzimuth : V3 -> V3 -> R
}.

Definition getAzimuth (geo : Geodesy) (pointA pointB : V3) (depth : R) : R :=
  match reprojectPoint geo pointA, reprojectPoint geo pointB with
  | Some A, Some B =>
      let angle := - forwardAzimuth geo A B in
      if Rlt_dec depth 0 then angle + 90 else angle
  | _, _ => 0
  end.

(** One call of [drawIcon3D]: the point and the scale, translation and
    rotation of the style.  The height is [None] when the arithmetic
    gave NaN. *)
Record Icon3D : Type := mkIcon3D {
  icon_point : V3;
  scale_x : R;
  scale_y : R;
  scale_z : option R;
  translation_z : option R;
  rotation_z : R
}.

(** The canvas after the call: [Painted] when it returned, [PaintFailed]
    when it threw on a row that is not there. *)
Inductive Paint : Type :=
| Painted (canvas : list Icon3D)
| PaintFailed (canvas : list Icon3D).

(** The height of one column: [cell] is the entry read from the grid,
    [None] for [undefined]. *)
Definition targetHeight (height : R) (cell : option R) : option R :=
  match cell with
  | None => None
  | Some e =>
      let pointHeight := height - e in
      let roundedHeight :=
        if Rlt_dec pointHeight 0 then 0
        else Math_round (pointHeight * 100) / 100 in
      Some (if Req_dec_T roundedHeight 0 then 1 / 1000 else roundedHeight)
  end.

Section Painting.

Variable geo : Geodesy.
Variable box : OrientedBox.
Variable emptyGrid : list (list R).
Variables width depth height : R.
Variable gridSize : nat.

(** The inner loop over [j] for one row. *)
Definition paintRow (azimuth : R) (leftPoint rightPoint : V3)
    (row : list R) : list Icon3D :=
  let halfStep := (1 / 2) / INR gridSize in
  let step := 1 / INR gridSize in
  List.map (fun j =>
         let s := step * INR j + halfStep in
         let centerPoint := interpolate leftPoint rightPoint s in
         let target := targetHeight (Rabs height) (nth_error row j) in
         mkIcon3D centerPoint
                  (Rabs width / INR gridSize) (Rabs depth / INR gridSize)
                  target (option_map (fun t => t / 2) target) azimuth)
      (seq 0 gridSize).

(** The outer loop over [i]: [n] rows are still to be painted. *)
Fixpoint paintRows (azimuth : R) (i n : nat) (canvas : list Icon3D) : Paint :=
  match n with
  | O => Painted canvas
  | S n' =>
      let halfStep := (1 / 2) / INR gridSize in
      let step := 1 / INR gridSize in
      let t := step * INR i + halfStep in
      let leftPoint := interpolate (c1 box) (c5 box) t in
      let rightPoint := interpolate (c3 box) (c7 box) t in
      match nth_error emptyGrid i with
      | None => PaintFailed canvas
      | Some row =>
          paintRows azimuth (S i) n'
                    (canvas ++ paintRow azimuth leftPoint rightPoint row)
      end
  end.

(** [paintRefinedVolume]; the map and the orientation it is handed are
    not used. *)
Definition paintRefinedVolume (canvas : list Icon3D) : Paint :=
  if (List.length emptyGrid =? 0)%nat then Painted canvas
  else
    let azimuth := getAzimuth geo (c1 box) (c5 box) depth in
    paintRows azimuth 0 gridSize canvas.

End Painting.

(** The volume of the painted columns: footprint times height, summed;
    [None] when a height is NaN. *)
Definition paintedVolume (icons : list Icon3D) : option R :=
  fold_right (fun icon acc =>
                match scale_z icon, acc with
                | Some t, Some v => Some (scale_x icon * scale_y icon * t + v)
                | _, _ => None
                end)
             (Some 0) icons.

(** The eight corners are those of a parallelepiped: the four edges from
    an even corner to the next odd one are the same vector. *)
Definition heightEdge (box : OrientedBox) (v : V3) : Prop :=
  c1 box = add (c0 box) v /\ c3 box = add (c2 box) v /\
  c5 box = add (c4 box) v /\ c7 box = add (c6 box) v.

(** A geodesy that reprojects nothing. *)
Definition noGeodesy : Geodesy := mkGeodesy (fun _ => None) (fun _ _ => 0).

(** ** Units of measure (DistanceUnit) *)

Inductive ENUM_DISTANCE_UNIT : Type := METRE | KM | FT | MILE_US | NM.

(** A [UnitObject] without its name and symbol. *)
Record UnitObject : Type := mkUnitObject {
  toMetreFactor : R;
  minimumMeter : R;
  smallerUnit : ENUM_DISTANCE_UNIT
}.

(** The table [DistanceUnit]. *)
Definition DistanceUnit (u : ENUM_DISTANCE_UNIT) : UnitObject :=
  match u with
  | FT => mkUnitObject (30480060960121924 / 100000000000000000) 0 FT
  | KM => mkUnitObject 1000 1000 METRE
  | METRE => mkUnitObject 1 0 METRE
  | MILE_US => mkUnitObject (16093472186944375 / 10000000000000) 305 FT
  | NM => mkUnitObject 1852 305 FT
  end.

Definition convertToStandard (u : ENUM_DISTANCE_UNIT) (aValue : R) : R :=
  aValue * toMetreFactor (DistanceUnit u).

Definition convertFromStandard (u : ENUM_DISTANCE_UNIT) (aValue : R) : R :=
  aValue / toMetreFactor (DistanceUnit u).

(** The three text methods.  A text is the value printed with three
    decimals and the symbol of a unit; the model returns the value and
    the unit.  [fuel] bounds the depth of the calls: [None] means that
    the method is still calling itself at that depth. *)
Fixpoint getDistanceText (fuel : nat) (u : ENUM_DISTANCE_UNIT) (meters : R)
  : option (R * ENUM_DISTANCE_UNIT) :=
  match fuel with
  | O => None
  | S fuel' =>
      let minimum := minimumMeter (DistanceUnit u) in
      if Rlt_dec meters minimum then
        getDistanceText fuel' (smallerUnit (DistanceUnit u)) meters
      else
        Some (meters / toMetreFactor (DistanceUnit u), u)
  end.

Fixpoint getAreaText (fuel : nat) (u : ENUM_DISTANCE_UNIT) (squareMeters : R)
  : option (R * ENUM_DISTANCE_UNIT) :=
  match fuel with
  | O => None
  | S fuel' =>
      let minimum := minimumMeter (DistanceUnit u) * minimumMeter (DistanceUnit u) in
      if Rlt_dec squareMeters minimum then
        getAreaText fuel' (smallerUnit (DistanceUnit u)) squareMeters
      else
        Some (squareMeters
              / (toMetreFactor (DistanceUnit u) * toMetreFactor (DistanceUnit u)),
              u)
  end.

Fixpoint getVolumeText (fuel : nat) (u : ENUM_DISTANCE_UNIT) (cubicMeters : R)
  : option (R * ENUM_DISTANCE_UNIT) :=
  match fuel with
  | O => None
  | S fuel' =>
      let minimum := minimumMeter (DistanceUnit u) ^ 3 in
      if Rlt_dec cubicMeters minimum then
        getVolumeText fuel' (smallerUnit (DistanceUnit u)) cubicMeters
      else
        Some (cubicMeters / toMetreFactor (DistanceUnit u) ^ 3, u)
  end.

(** The unit a text of [k]-dimensional measure [v] is shown in, asked in
    unit [u]. *)
Definition shownUnit (u : ENUM_DISTANCE_UNIT) (k : nat) (v : R)
  : ENUM_DISTANCE_UNIT :=
  if Rlt_dec v (minimumMeter (DistanceUnit u) ^ k)
  then smallerUnit (DistanceUnit u) else u.

(** ** The cube mesh of the painted columns (Cube3DMesh) *)

Module Cube3DMesh.

Record t : Type := mk {
  _height : R;
  _zOffset : R;
  _radius : R;
  _sliceCount : nat;
  _indices : list nat
}.

Definition set_indices (indices : list nat) (m : t) : t :=
  mk (_height m) (_zOffset m) (_radius m) (_sliceCount m) indices.

Definition set_zOffset (value : R) (m : t) : t :=
  mk (_height m) value (_radius m) (_sliceCount m) (_indices m).

(** The constructor. *)
Definition new (size : R) : t := mk size 0 (sqrt 2 / 2 * size) 4 [].

Definition PHI_OFFSET : R := PI / 4.

(** The angle of slice [i]. *)
Definition phiOf (m : t) (i : nat) : R :=
  INR i * (2 * PI / INR (_sliceCount m)) + PHI_OFFSET.

(** [createVertices]: three loops over the slices 0, ..., sliceCount,
    each pushing two vertices and two indices; the indices go to the
    buffer of the mesh, after those that are already there.  The result
    is the array of coordinates and the mesh with its longer buffer. *)
Definition createVertices (m : t) : list R * t :=
  let baseZ := - (1 / 2) * _height m + _zOffset m in
  let topZ := 1 / 2 * _height m + _zOffset m in
  let slices := seq 0 (S (_sliceCount m)) in
  let offset := 0%nat in
  let side :=
    fold_left (fun '(vertices, indices) i =>
                 let phi := phiOf m i in
                 let nx := cos phi in
                 let ny := sin phi in
                 let x0 := _radius m * nx in
                 let y0 := _radius m * ny in
                 (vertices ++ [x0; y0; baseZ] ++ [x0; y0; topZ],
                  indices ++ [offset + 2 * i; offset + 2 * i + 1]%nat))
              slices ([], _indices m) in
  let offset := List.length (snd side) in
  let base :=
    fold_left (fun '(vertices, indices) i =>
                 let phi := phiOf m i in
                 let nx := cos phi in
                 let ny := sin phi in
                 let x1 := _radius m * nx in
                 let y1 := _radius m * ny in
                 (vertices ++ [0; 0; baseZ] ++ [x1; y1; baseZ],
                  indices ++ [offset + 2 * i; offset + 2 * i + 1]%nat))
              slices side in
  let offset := List.length (snd base) in
  let top :=
    fold_left (fun '(vertices, indices) i =>
                 let phi := phiOf m i in
                 let nx := cos phi in
                 let ny := sin phi in
                 let x1 := _radius m * nx in
                 let y1 := _radius m * ny in
                 (vertices ++ [0; 0; topZ] ++ [x1; y1; topZ],
                  indices ++ [offset + 2 * i; offset + 2 * i + 1]%nat))
              slices base in
  (fst top, set_indices (snd top) m).

(** [createIndices]: the triangle fans of the three surfaces, read from
    the buffer; an entry is [None] where the buffer has nothing at the
    place read.  The buffer's length is a multiple of three whenever the
    division is made (see [buffer_length]), so the division is exact. *)
Definition createIndices (m : t) : list (option nat) * t :=
  let m := if (List.length (_indices m) =? 0)%nat
           then snd (createVertices m) else m in
  let numberOfSides := 3%nat in
  let numberOfIndicesPerSide := (List.length (_indices m) / numberOfSides)%nat in
  (flat_map
     (fun i =>
        flat_map
          (fun j =>
             [nth_error (_indices m) (j - 1 + i * numberOfIndicesPerSide);
              nth_error (_indices m) (j + i * numberOfIndicesPerSide);
              nth_error (_indices m) (j + 1 + i * numberOfIndicesPerSide)])
          (seq 1 (numberOfIndicesPerSide - 1 - 1)))
     (seq 0 numberOfSides),
   m).

Definition createNormals (m : t) : list R :=
  let slices := seq 0 (S (_sliceCount m)) in
  flat_map (fun i =>
              let phi := phiOf m i in
              let nx := cos phi in
              let ny := sin phi in
              [nx; ny; 0] ++ [nx; ny; 0]) slices
  ++ flat_map (fun _ => [0; 0; -1] ++ [0; 0; -1]) slices
  ++ flat_map (fun _ => [0; 0; 1] ++ [0; 0; 1]) slices.

Definition createTextureCoordinates (m : t) : list R :=
  let slices := seq 0 (S (_sliceCount m)) in
  let surface :=
    flat_map (fun i =>
                let phi := phiOf m i in
                let tx := phi / (2 * PI) in
                [tx; 0] ++ [tx; 1]) slices in
  surface ++ surface ++ surface.

End Cube3DMesh.

(** What [create3DCube] hands to the mesh factory of the host. *)
Record MeshArrays : Type := mkMeshArrays {
  positions : list R;
  indices : list (option nat);
  normals : list R;
  texCoords : option (list R)
}.

(** [create3DCube] of Simplified3DMeshFactory; [texture] tells whether a
    texture was given. *)
Definition create3DCube (size : R) (texture : bool) : MeshArrays :=
  let cube3DMesh := Cube3DMesh.new size in
  let normals := Cube3DMesh.createNormals cube3DMesh in
  let texCoords :=
    if texture then Some (Cube3DMesh.createTextureCoordinates cube3DMesh)
    else None in
  let vertices := Cube3DMesh.createVertices cube3DMesh in
  let triangles := Cube3DMesh.createIndices (snd vertices) in
  mkMeshArrays (fst vertices) (fst triangles) normals texCoords.

(** An array of coordinates read three by three. *)
Fixpoint triples (l : list R) : list V3 :=
  match l with
  | a :: b :: c :: rest => mkV3 a b c :: triples rest
  | _ => []
  end.

(** The corners of the square of half-edge [h], in the order of the
    slices; the last is the first again. *)
Definition squareCorners (h : R) : list (R * R) :=
  [(h, h); (- h, h); (- h, - h); (h, - h); (h, h)].

(** The number of [createVertices] calls a mesh has seen is counted by
    running them. *)
Fixpoint createVerticesTimes (n : nat) (m : Cube3DMesh.t) : Cube3DMesh.t :=
  match n with
  | O => m
  | S n' => snd (Cube3DMesh.createVertices (createVerticesTimes n' m))
  end.

(** ** The blocking banner (blockingBanner)

    The scan above records the calls of [updateBlockingBannerProgress];
    this module is the banner that receives them. *)

Module BlockingBanner.

(** The part of the document the banner owns.  [None]: there is no
    overlay.  [Some text]: the overlay is there and its progress line
    shows [text], [None] for the empty text and [Some n] for "n%". *)
Definition Banner : Type := option (option R).

(** [showBlockingBanner] with the [progress] option. *)
Definition showBlockingBanner (progress : option R) (b : Banner) : Banner :=
  match b with
  | Some _ => b
  | None =>
      Some (match progress with
            | Some p => Some (Math_round p)
            | None => None
            end)
  end.

Definition hideBlockingBanner (b : Banner) : Banner := None.

Definition updateBlockingBannerProgress (value : R) (b : Banner) : Banner :=
  match b with
  | Some _ => Some (Some (Rmax 0 (Rmin 100 (Math_round value))))
  | None => None
  end.

End BlockingBanner.

(** The banner after each of a series of progress reports. *)
Fixpoint bannerStates (reports : list R) (b : BlockingBanner.Banner)
  : list BlockingBanner.Banner :=
  match reports with
  | [] => []
  | value :: rest =>
      let b' := BlockingBanner.updateBlockingBannerProgress value b in
      b' :: bannerStates rest b'
  end.

(** ** The labels of the box *)

Record Labels : Type := mkLabels {
  label_width : R * ENUM_DISTANCE_UNIT;
  label_height : R * ENUM_DISTANCE_UNIT;
  label_depth : R * ENUM_DISTANCE_UNIT;
  label_area : R * ENUM_DISTANCE_UNIT;
  label_volume : R * ENUM_DISTANCE_UNIT;
  label_refined : R * ENUM_DISTANCE_UNIT
}.

(** [provideLabels] for a controller whose unit of measure is [uom];
    [None] when one of the six texts is not answered within [fuel]
    nested calls. *)
Definition provideLabels (fuel : nat) (uom : ENUM_DISTANCE_UNIT)
    (c : Controller) : option Labels :=
  let v := calculateVolume c in
  match getDistanceText fuel uom (m_width v) with
  | None => None
  | Some width =>
  match getDistanceText fuel uom (m_height v) with
  | None => None
  | Some height =>
  match getDistanceText fuel uom (m_depth v) with
  | None => None
  | Some depth =>
  match getAreaText fuel uom (m_area v) with
  | None => None
  | Some area =>
  match getVolumeText fuel uom (m_volume v) with
  | None => None
  | Some volume =>
  match getVolumeText fuel uom (m_refinedVolume v) with
  | None => None
  | Some refined => Some (mkLabels width height depth area volume refined)
  end end end end end end.

(** * Properties *)

(** ** Vectors *)

Lemma v3_eq (a b : V3) : x a = x b -> y a = y b -> z a = z b -> a = b.
Proof. destruct a, b; simpl; intros; subst; reflexivity. Qed.

Lemma length_nonneg (a : V3) : 0 <= length a.
Proof. apply sqrt_pos. Qed.

Lemma distance_nonneg (a b : V3) : 0 <= distance a b.
Proof. apply length_nonneg. Qed.


Lemma length_scale (a : V3) (k : R) : 0 <= k -> length (scale a k) = k * length a.
Proof.
  intros Hk. unfold length.
  replace (dot (scale a k) (scale a k)) with (k * k * dot a a)
    by (unfold dot, scale; simpl; ring).
  rewrite sqrt_mult_alt by nra.
  rewrite sqrt_square by assumption. reflexivity.
Qed.

(** Scaling a unit vector by a positive factor and normalising gives the
    unit vector back. *)
Lemma normalize_scale_unit (a : V3) (k : R) :
  0 < k -> length a = 1 -> normalize (scale a k) = a.
Proof.
  intros Hk Hu. unfold normalize.
  rewrite length_scale by lra. rewrite Hu, Rmult_1_r.
  apply v3_eq; unfold scale; simpl; field; lra.
Qed.

Lemma clamp_bounds (v lo hi : R) : lo <= hi -> lo <= clamp v lo hi <= hi.
Proof.
  intros H. unfold clamp, Rmax, Rmin.
  destruct (Rle_dec hi v); destruct (Rle_dec lo _); lra.
Qed.


(** ** The measurement snapshot *)

(** C8: for every model state the snapshot has area = width * depth and
    volume = area * height with non-negative width, depth and height (the
    absolute values of the stored fields); the 10 x 10 x 5 box reports
    area 100 and volume 500. *)
Theorem calculateVolume_snapshot :
  (forall c : Controller,
     let s := calculateVolume c in
     m_width s = Rabs (_width c) /\ m_depth s = Rabs (_depth c) /\
     m_height s = Rabs (_height c) /\
     m_area s = m_width s * m_depth s /\
     m_volume s = m_area s * m_height s /\
     0 <= m_width s /\ 0 <= m_depth s /\ 0 <= m_height s) /\
  m_area (calculateVolume scenarioBox) = 100 /\
  m_volume (calculateVolume scenarioBox) = 500.
Proof.
  split.
  - intros c s. subst s. simpl.
    repeat split; try reflexivity; apply Rabs_pos.
  - simpl. rewrite !Rabs_pos_eq by lra. split; lra.
Qed.

(** ** Seeding from a box *)

(** A model whose depth is not negative is left alone by
    [standardizePlane]. *)
Lemma standardizePlane_nonneg (c : Controller) :
  0 <= _depth c -> standardizePlane c = Returned tt c.
Proof.
  intros H. unfold standardizePlane.
  destruct (Rlt_dec (_depth c) 0); [lra | reflexivity].
Qed.

(** C10: a box seeded through [initializeBox] is already standardized:
    [extractBoxParameters] returns non-negative width, depth and height,
    the controller enters VOLUME_DEFINED with these extents, and
    [standardizePlane] then returns without changing the model. *)
Theorem initializeBox_standardized (box : OrientedBox) (c : Controller) :
  let inputs := extractBoxParameters box in
  let c' := initializeBox box c in
  0 <= p_width inputs /\ 0 <= p_depth inputs /\ 0 <= p_height inputs /\
  p_width inputs = Rabs (length (sub (c5 box) (c7 box))) /\
  p_depth inputs = Rabs (length (sub (c3 box) (c7 box))) /\
  p_height inputs = length (sub (c6 box) (c7 box)) /\
  _state c' = VOLUME_DEFINED /\
  _width c' = p_width inputs /\ _depth c' = p_depth inputs /\
  _height c' = p_height inputs /\
  0 <= _depth c' /\
  standardizePlane c' = Returned tt c'.
Proof.
  intros inputs c'. subst inputs c'.
  assert (Hd : 0 <= _depth (initializeBox box c)) by (simpl; apply Rabs_pos).
  repeat split; try reflexivity; simpl;
    try apply Rabs_pos; try apply length_nonneg.
  apply standardizePlane_nonneg. exact Hd.
Qed.

(** ** Rotation and translation *)

(** C6: [applyRotation] and [applyTranslation] leave width, depth and
    height exactly as they were, for every rotation value and every
    translation vector and on every path (also when the call throws);
    translation also leaves both orientation vectors as they were. *)
Theorem rotate_translate_preserve_extents (env : Collaborators) (c : Controller) :
  (forall absoluteRotation : R,
     let c' := stateAfter (applyRotation env absoluteRotation c) in
     _width c' = _width c /\ _depth c' = _depth c /\ _height c' = _height c) /\
  (forall translation : V3,
     let c' := stateAfter (applyTranslation translation c) in
     _width c' = _width c /\ _depth c' = _depth c /\ _height c' = _height c /\
     _orientation c' = _orientation c /\
     _orientationComplement c' = _orientationComplement c).
Proof.
  split.
  - intros a. unfold applyRotation.
    destruct (_orientation c) as [o|]; [|simpl; auto].
    destruct (_orientationComplement c) as [oc|]; [|simpl; auto].
    destruct (_firstCorner c) as [p|]; [|simpl; auto].
    destruct (_rotating c);
      match goal with
      | |- context [match createPlane ?k with _ => _ end] =>
          destruct (createPlane k)
      end; simpl; auto.
  - intros t. unfold applyTranslation.
    destruct (_orientation c) as [o|] eqn:Ho; [|simpl; auto].
    destruct (_orientationComplement c) as [oc|] eqn:Hoc; [|simpl; auto].
    destruct (_firstCorner c) as [p|]; [|simpl; auto].
    match goal with
    | |- context [match createPlane ?k with _ => _ end] =>
        destruct (createPlane k)
    end; simpl; auto.
Qed.

(** ** Refined volume *)

Lemma skipn_nth_error {A : Type} (l : list A) (j : nat) (e : A) :
  nth_error l j = Some e -> skipn j l = e :: skipn (S j) l.
Proof.
  revert j. induction l as [|a l IH]; intros [|j] H; simpl in *; try discriminate.
  - injection H as ->. reflexivity.
  - apply IH. exact H.
Qed.

(** The inner loop adds up the cells of the row from column [j] on. *)
Lemma sumRow_spec (a : R) (row : list R) (n j : nat) (s : R) :
  (j + n = List.length row)%nat ->
  sumRow a row j n (Some s) = Some (s + rowSum a (skipn j row)).
Proof.
  revert j s. induction n as [|n IH]; intros j s Hlen; simpl.
  - rewrite skipn_all2 by lia. unfold rowSum. simpl. f_equal. ring.
  - destruct (nth_error row j) as [e|] eqn:He.
    + rewrite IH by lia. rewrite (skipn_nth_error _ _ He).
      unfold rowSum. simpl. f_equal. ring.
    + apply nth_error_None in He. lia.
Qed.

Lemma emptySum_cons (a : R) (row : list R) (grid : list (list R)) :
  emptySum a (row :: grid) = rowSum a row + emptySum a grid.
Proof.
  unfold emptySum, rowSum. simpl. rewrite map_app, fold_right_app.
  induction (List.map (fun e => a * e) row) as [|v l IH]; simpl; [ring|].
  rewrite IH. ring.
Qed.

(** The outer loop adds up the rows from row [i] on. *)
Lemma sumRows_spec (a : R) (grid : list (list R)) (n i : nat) (s : R) :
  (i + n = List.length grid)%nat ->
  Forall (fun row => List.length row = RefinedGridSize) grid ->
  sumRows a grid i n (Some s) = Some (Some (s + emptySum a (skipn i grid))).
Proof.
  intros Hlen Hrows. revert i s Hlen.
  induction n as [|n IH]; intros i s Hlen; cbn [sumRows].
  - rewrite skipn_all2 by lia. unfold emptySum. simpl. do 2 f_equal. ring.
  - destruct (nth_error grid i) as [row|] eqn:Hrow.
    + assert (Hin : In row grid) by (eapply nth_error_In; eassumption).
      rewrite Forall_forall in Hrows. specialize (Hrows row Hin) as Hr.
      rewrite (@sumRow_spec a row RefinedGridSize 0%nat s)
        by (rewrite Hr; reflexivity).
      simpl skipn at 1.
      rewrite IH by lia.
      rewrite (skipn_nth_error _ _ Hrow), emptySum_cons.
      do 2 f_equal. ring.
    + apply nth_error_None in Hrow. lia.
Qed.

Lemma rowSum_nonneg (a : R) (row : list R) :
  0 <= a -> Forall (fun e => 0 <= e) row -> 0 <= rowSum a row.
Proof.
  intros Ha H. induction H as [|e row He _ IH]; unfold rowSum in *; simpl; [lra|nra].
Qed.

Lemma emptySum_nonneg (a : R) (grid : list (list R)) :
  0 <= a -> nonNegativeCells grid -> 0 <= emptySum a grid.
Proof.
  intros Ha H. induction H as [|row grid Hrow _ IH].
  - unfold emptySum. simpl. lra.
  - rewrite emptySum_cons. pose proof (rowSum_nonneg Ha Hrow). lra.
Qed.

Lemma rowSum_zero (a : R) (row : list R) :
  Forall (fun e => e = 0) row -> rowSum a row = 0.
Proof.
  intros H. induction H as [|e row He _ IH]; unfold rowSum in *; simpl; [reflexivity|].
  rewrite IH, He. ring.
Qed.

Lemma emptySum_zero (a : R) (grid : list (list R)) :
  allZeroCells grid -> emptySum a grid = 0.
Proof.
  intros H. induction H as [|row grid Hrow _ IH].
  - reflexivity.
  - rewrite emptySum_cons, IH, (rowSum_zero a Hrow). ring.
Qed.

Lemma rowSum_zero_inv (a : R) (row : list R) :
  0 < a -> Forall (fun e => 0 <= e) row -> rowSum a row = 0 ->
  Forall (fun e => e = 0) row.
Proof.
  intros Ha H. induction H as [|e row He Hrow IH]; intros Hs; constructor.
  - unfold rowSum in Hs. simpl in Hs.
    pose proof (rowSum_nonneg (or_introl Ha : 0 <= a) Hrow) as Hn.
    unfold rowSum in Hn. nra.
  - apply IH. unfold rowSum in Hs. simpl in Hs.
    pose proof (rowSum_nonneg (or_introl Ha : 0 <= a) Hrow) as Hn.
    unfold rowSum in *. nra.
Qed.

Lemma emptySum_zero_inv (a : R) (grid : list (list R)) :
  0 < a -> nonNegativeCells grid -> emptySum a grid = 0 -> allZeroCells grid.
Proof.
  intros Ha H. induction H as [|row grid Hrow Hgrid IH]; intros Hs; constructor.
  - rewrite emptySum_cons in Hs.
    pose proof (rowSum_nonneg (or_introl Ha : 0 <= a) Hrow).
    pose proof (emptySum_nonneg (or_introl Ha : 0 <= a) Hgrid).
    apply rowSum_zero_inv with a; auto. lra.
  - apply IH. rewrite emptySum_cons in Hs.
    pose proof (rowSum_nonneg (or_introl Ha : 0 <= a) Hrow).
    pose proof (emptySum_nonneg (or_introl Ha : 0 <= a) Hgrid).
    lra.
Qed.

Lemma cellArea_nonneg (c : Controller) : 0 <= cellArea c.
Proof.
  unfold cellArea, RefinedGridSize.
  pose proof (Rabs_pos (_width c)). pose proof (Rabs_pos (_depth c)).
  replace (INR 24) with 24 by (simpl; ring).
  apply Rmult_le_pos; lra.
Qed.

Lemma grossVolume_nonneg (c : Controller) : 0 <= grossVolume c.
Proof.
  unfold grossVolume.
  pose proof (Rabs_pos (_width c)). pose proof (Rabs_pos (_depth c)).
  pose proof (Rabs_pos (_height c)).
  apply Rmult_le_pos; [apply Rmult_le_pos|]; assumption.
Qed.

(** On a finalized box with a full grid the method returns the floored
    difference. *)
Lemma substractEmptyAreas_grid (c : Controller) :
  canRefine c = true ->
  isGrid RefinedGridSize (emptyVolumes c) ->
  substractEmptyAreas c =
    Some (Rmax 0 (grossVolume c - emptySum (cellArea c) (emptyVolumes c))).
Proof.
  intros Hcan [Hlen Hrows]. unfold substractEmptyAreas.
  rewrite Hcan, Hlen. simpl andb. cbv iota.
  rewrite (@sumRows_spec _ (emptyVolumes c) RefinedGridSize 0%nat 0)
    by (rewrite ?Hlen; auto).
  simpl skipn. fold (cellArea c). fold (grossVolume c).
  rewrite Rplus_0_l.
  change (0 <? RefinedGridSize)%nat with true. cbv iota. f_equal.
  unfold Rmax.
  destruct (Rlt_dec 0 _); destruct (Rle_dec 0 _); lra.
Qed.

Lemma Forall_repeat {A : Type} (P : A -> Prop) (a : A) (n : nat) :
  P a -> Forall P (repeat a n).
Proof. intros H. induction n; simpl; constructor; assumption. Qed.

(** ** Standardization *)

Lemma length_of_square (a : V3) (k : R) :
  0 <= k -> dot a a = k * k -> length a = k.
Proof.
  intros Hk H. unfold length. rewrite H. apply sqrt_square. exact Hk.
Qed.

(** The vector from the relocated anchor to the old far corner is the old
    width edge. *)
Lemma far_corner_minus_fourth (p o oc : V3) (w d : R) :
  sub (add p (add (scale o w) (scale oc d))) (add p (scale oc d)) = scale o w.
Proof. apply v3_eq; simpl; ring. Qed.

(** What [standardizePlane] does to a model of negative depth. *)
Lemma standardizePlane_negative (c : Controller) (m : Map) (p o oc : V3) :
  _depth c < 0 ->
  map c = Some m -> _firstCorner c = Some p ->
  _orientation c = Some o -> _orientationComplement c = Some oc ->
  let anchor := add p (scale oc (_depth c)) in
  let o' := normalize (scale o (_width c)) in
  standardizePlane c =
    Returned tt
      (set_orientationComplement (Some (normalize (cross o' anchor)))
        (set_orientation (Some o')
          (set_depth (Rabs (_depth c))
            (set_firstCorner (Some anchor) c)))).
Proof.
  intros Hd Hm Hp Ho Hoc anchor o'. subst anchor o'.
  unfold standardizePlane.
  destruct (Rlt_dec (_depth c) 0); [|lra].
  rewrite Hm, Hp, Ho, Hoc. cbn [_depth set_firstCorner _width].
  rewrite far_corner_minus_fourth. reflexivity.
Qed.

Lemma standardizePlane_idempotent (c c' : Controller) :
  standardizePlane c = Returned tt c' -> standardizePlane c' = Returned tt c'.
Proof.
  intros H. apply standardizePlane_nonneg.
  unfold standardizePlane in H.
  destruct (Rlt_dec (_depth c) 0) as [Hneg|Hpos].
  - destruct (map c), (_firstCorner c), (_orientationComplement c),
      (_orientation c); try discriminate.
    injection H as <-. simpl. apply Rabs_pos.
  - injection H as <-. lra.
Qed.

Ltac vec := apply v3_eq; simpl; try lra; try (field; lra).

(** C3 (as the code has it): [standardizePlane] leaves a model of
    non-negative depth untouched and is idempotent; on a model of negative
    depth it makes the depth its absolute value, moves the anchor to the
    old anchor plus old depth times the old complement, keeps width and
    height, re-derives the orientation from the old width edge (the old
    orientation when the width is positive and the orientation a unit
    vector) and recomputes the complement as
    [normalize (cross orientation anchor)] at the new anchor.  The base
    rectangle is the old one (its corners in reverse order) when the
    recomputed complement is the old complement. *)
Theorem standardizePlane_effect (c : Controller) :
  (0 <= _depth c -> standardizePlane c = Returned tt c) /\
  (forall c', standardizePlane c = Returned tt c' ->
              standardizePlane c' = Returned tt c') /\
  (forall (m : Map) (p o oc : V3),
     _depth c < 0 ->
     map c = Some m -> _firstCorner c = Some p ->
     _orientation c = Some o -> _orientationComplement c = Some oc ->
     exists c',
       standardizePlane c = Returned tt c' /\
       _depth c' = Rabs (_depth c) /\ 0 <= _depth c' /\
       _width c' = _width c /\ _height c' = _height c /\
       _firstCorner c' = Some (add p (scale oc (_depth c))) /\
       _orientation c' = Some (normalize (scale o (_width c))) /\
       _orientationComplement c' =
         Some (normalize (cross (normalize (scale o (_width c)))
                                (add p (scale oc (_depth c))))) /\
       (0 < _width c -> length o = 1 ->
        _orientation c' = Some o /\
        (_orientationComplement c' = Some oc ->
         createPlane c' =
           Some [ add p (scale oc (_depth c));
                  add p (add (scale o (_width c)) (scale oc (_depth c)));
                  add p (scale o (_width c));
                  p ]))).
Proof.
  split; [apply standardizePlane_nonneg|].
  split; [intros c'; apply standardizePlane_idempotent|].
  intros m p o oc Hd Hm Hp Ho Hoc.
  eexists. split; [apply (standardizePlane_negative c Hd Hm Hp Ho Hoc)|].
  cbn [_depth _width _height _firstCorner _orientation _orientationComplement
       set_orientationComplement set_orientation set_depth set_firstCorner].
  do 7 (split; [try reflexivity; try apply Rabs_pos|]).
  intros Hw Hu. rewrite (normalize_scale_unit o Hw Hu).
  split; [reflexivity|]. intros Hsame.
  unfold createPlane.
  cbn [map _depth _width _firstCorner _orientation _orientationComplement
       set_orientationComplement set_orientation set_depth set_firstCorner].
  injection Hsame as Hsame.
  rewrite Hm, Hsame. rewrite (Rabs_left _ Hd).
  f_equal. repeat (apply f_equal2; [apply v3_eq; simpl; ring|]). reflexivity.
Qed.

Lemma unit_x : length (mkV3 1 0 0) = 1.
Proof. apply length_of_square; [lra | unfold dot; simpl; ring]. Qed.

Lemma standardizePlane_effect_witness :
  standardizePlane scenarioBox = Returned tt scenarioBox /\
  exists c', standardizePlane backwardBox = Returned tt c' /\
             _depth c' = 3 /\
             _firstCorner c' = Some (mkV3 0 3 4) /\
             _orientation c' = Some (mkV3 1 0 0).
Proof.
  split.
  - apply (proj1 (standardizePlane_effect scenarioBox)). simpl. lra.
  - destruct (standardizePlane_effect backwardBox) as (_ & _ & H).
    assert (Hneg : _depth backwardBox < 0) by (simpl; lra).
    destruct (H plainMap (mkV3 0 0 4) (mkV3 1 0 0) (mkV3 0 (-1) 0)
                Hneg eq_refl eq_refl eq_refl eq_refl)
      as (c' & Hc & Hdepth & _ & _ & _ & Hp & _ & _ & Ho).
    exists c'. split; [exact Hc|]. split; [|split].
    + rewrite Hdepth. simpl. rewrite Rabs_left; lra.
    + rewrite Hp. f_equal. vec.
    + apply Ho; [simpl; lra | apply unit_x].
Defined.

(** C3, as stated, fails: after [standardizePlane] the base rectangle of
    [backwardBox] no longer has the old anchor among its corners; its far
    edge is tilted out of the old base plane. *)
Lemma standardizePlane_changes_solid :
  exists c',
    standardizePlane backwardBox = Returned tt c' /\
    createPlane backwardBox =
      Some [mkV3 0 0 4; mkV3 1 0 4; mkV3 1 3 4; mkV3 0 3 4] /\
    createPlane c' =
      Some [mkV3 0 3 4; mkV3 1 3 4; mkV3 1 (3/5) (29/5); mkV3 0 (3/5) (29/5)] /\
    (forall base', createPlane c' = Some base' -> ~ In (mkV3 0 0 4) base').
Proof.
  assert (Hneg : _depth backwardBox < 0) by (simpl; lra).
  pose proof (@standardizePlane_negative backwardBox plainMap
                (mkV3 0 0 4) (mkV3 1 0 0) (mkV3 0 (-1) 0)
                Hneg eq_refl eq_refl eq_refl eq_refl) as Hstd.
  cbv zeta in Hstd.
  assert (Ho : normalize (scale (mkV3 1 0 0) (_width backwardBox)) = mkV3 1 0 0).
  { apply normalize_scale_unit; [simpl; lra | apply unit_x]. }
  rewrite Ho in Hstd.
  assert (Hoc : normalize (cross (mkV3 1 0 0)
                  (add (mkV3 0 0 4) (scale (mkV3 0 (-1) 0) (_depth backwardBox))))
                = mkV3 0 (-4/5) (3/5)).
  { replace (cross _ _) with (mkV3 0 (-4) 3) by vec.
    unfold normalize. rewrite (@length_of_square _ 5); [vec | lra |].
    unfold dot; simpl; ring. }
  rewrite Hoc in Hstd.
  assert (Hplane : createPlane
            (set_orientationComplement (Some (mkV3 0 (-4/5) (3/5)))
              (set_orientation (Some (mkV3 1 0 0))
                (set_depth (Rabs (_depth backwardBox))
                  (set_firstCorner
                    (Some (add (mkV3 0 0 4)
                            (scale (mkV3 0 (-1) 0) (_depth backwardBox))))
                    backwardBox)))) =
          Some [mkV3 0 3 4; mkV3 1 3 4; mkV3 1 (3/5) (29/5); mkV3 0 (3/5) (29/5)]).
  { unfold createPlane. simpl. rewrite (Rabs_left (-3)) by lra.
    f_equal. repeat (apply f_equal2; [vec|]). reflexivity. }
  eexists. split; [exact Hstd|]. split; [|split].
  - unfold createPlane. simpl.
    f_equal. repeat (apply f_equal2; [vec|]). reflexivity.
  - exact Hplane.
  - intros base' Hb. rewrite Hplane in Hb. injection Hb as <-.
    simpl. intros [H|[H|[H|[H|[]]]]]; injection H; intros; lra.
Qed.

(** The base rectangle after standardizing a backward box whose anchor
    is [radius] away from the centre of the frame: the far edge leaves
    the old base plane by [d * d / hyp], where [hyp] is the distance of
    the new anchor from the centre. *)
Lemma standardizePlane_far_edge (radius d width height hyp : R) :
  0 < d -> 0 < width -> 0 < hyp -> hyp * hyp = radius * radius + d * d ->
  exists c',
    standardizePlane (backwardBoxAt radius d width height) = Returned tt c' /\
    createPlane c' =
      Some [ mkV3 0 d radius;
             mkV3 width d radius;
             mkV3 width (d - d * radius / hyp) (radius + d * d / hyp);
             mkV3 0 (d - d * radius / hyp) (radius + d * d / hyp) ].
Proof.
  intros Hd Hw Hh Hhyp.
  assert (Hneg : _depth (backwardBoxAt radius d width height) < 0)
    by (simpl; lra).
  pose proof (@standardizePlane_negative (backwardBoxAt radius d width height)
                plainMap (mkV3 0 0 radius) (mkV3 1 0 0) (mkV3 0 (-1) 0)
                Hneg eq_refl eq_refl eq_refl eq_refl) as Hstd.
  cbv zeta in Hstd.
  assert (Ho : normalize (scale (mkV3 1 0 0)
                 (_width (backwardBoxAt radius d width height))) = mkV3 1 0 0).
  { apply normalize_scale_unit; [simpl; lra | apply unit_x]. }
  rewrite Ho in Hstd.
  assert (Hoc : normalize (cross (mkV3 1 0 0)
                  (add (mkV3 0 0 radius)
                     (scale (mkV3 0 (-1) 0)
                        (_depth (backwardBoxAt radius d width height)))))
                = mkV3 0 (- radius / hyp) (d / hyp)).
  { replace (cross _ _) with (mkV3 0 (- radius) d) by vec.
    unfold normalize. rewrite (@length_of_square _ hyp); [vec | lra |].
    unfold dot; simpl. rewrite Hhyp. ring. }
  rewrite Hoc in Hstd.
  eexists. split; [exact Hstd|].
  unfold createPlane. simpl. rewrite (Rabs_left (- d)) by lra.
  f_equal. repeat (apply f_equal2; [vec|]). reflexivity.
Qed.

(** At the scale of the earth: a box anchored 6379100 m from the centre
    with its depth dragged backward by 9106.5 m has, once standardized,
    its far edge more than 12 m above the old anchor. *)
Lemma standardizePlane_far_edge_on_earth :
  exists c' near far,
    standardizePlane (backwardBoxAt 6379100 (18213 / 2) 10 5) = Returned tt c' /\
    _firstCorner (backwardBoxAt 6379100 (18213 / 2) 10 5)
      = Some (mkV3 0 0 6379100) /\
    createPlane c' = Some [near; add near (mkV3 10 0 0); add far (mkV3 10 0 0); far] /\
    x far = 0 /\ 6379100 + 12 < z far.
Proof.
  destruct (@standardizePlane_far_edge 6379100 (18213 / 2) 10 5 (12758213 / 2))
    as (c' & Hstd & Hplane); try lra.
  exists c', (mkV3 0 (18213 / 2) 6379100),
    (mkV3 0 (18213 / 2 - 18213 / 2 * 6379100 / (12758213 / 2))
            (6379100 + 18213 / 2 * (18213 / 2) / (12758213 / 2))).
  split; [exact Hstd|]. split; [reflexivity|].
  split; [rewrite Hplane; f_equal; repeat (apply f_equal2; [vec|]); reflexivity|].
  split; [reflexivity|]. simpl. lra.
Qed.

(** ** Face resizing *)

Lemma dimensionsChanged_returned (c c' : Controller) :
  dimensionsChanged c = Returned tt c' ->
  emptyVolumes c' = [] /\ emitted c' = emitted c.
Proof.
  unfold dimensionsChanged. intros H.
  repeat match type of H with
         | context [if ?b then _ else _] => destruct b
         | context [match createPlane ?k with _ => _ end] => destruct (createPlane k)
         end; try discriminate; injection H as <-; simpl; auto.
Qed.

(** What the four width and depth handlers share once the ray has hit
    the plane. *)
Lemma resized_then_notified (c c0 : Controller) (r : HandleEventResult) :
  (dimensionsChanged ;;; modify emitMeasurementUpdate ;;; ret EVENT_HANDLED) c0
    = Returned r c ->
  emptyVolumes c = [] /\ emitted c = emitted c0 ++ [VOLUME_MEASUREMENT_UPDATE].
Proof.
  unfold bind, modify, ret. intros H.
  destruct (dimensionsChanged c0) as [[] c1|c1] eqn:Hd; [|discriminate].
  injection H as _ <-. apply dimensionsChanged_returned in Hd as [He Hm].
  simpl. rewrite He, Hm. auto.
Qed.

(** A width or depth drag that returns either changed nothing (wrong
    state, or the ray missed the plane) or cleared the grid and emitted
    an update. *)
Lemma width_depth_resize_clears_grid (env : Collaborators)
    (viewPoint centre : V3) (direction : Z) (c c' : Controller)
    (r : HandleEventResult) :
  updateWidthFromFaceDragPrimary env viewPoint centre c = Returned r c' \/
  updateWidthFromFaceDragSecondary env viewPoint centre c = Returned r c' \/
  updateDepthFromFaceDragPrimary env viewPoint centre direction c = Returned r c' \/
  updateDepthFromFaceDragSecondary env viewPoint centre direction c = Returned r c' ->
  c' = c \/
  (emptyVolumes c' = [] /\
   emitted c' = emitted c ++ [VOLUME_MEASUREMENT_UPDATE]).
Proof.
  unfold updateWidthFromFaceDragPrimary, updateWidthFromFaceDragSecondary,
    updateDepthFromFaceDragPrimary, updateDepthFromFaceDragSecondary.
  intros [H|[H|[H|H]]];
    destruct (map c) as [m|]; try (injection H as _ <-; auto; fail);
    destruct (_firstCorner c) as [p|]; try (injection H as _ <-; auto; fail);
    destruct (_orientation c) as [o|]; try (injection H as _ <-; auto; fail);
    destruct (rayPlaneIntersection env _ _ _ _) as [worldPoint|];
    try (injection H as _ <-; auto; fail);
    try (destruct (_orientationComplement c) as [oc|]; [|discriminate]);
    right; apply resized_then_notified in H; simpl in H; exact H.
Qed.

(** The height drag never touches the grid. *)
Lemma height_resize_keeps_grid (env : Collaborators) (viewPoint centre : V3)
    (c : Controller) :
  emptyVolumes (stateAfter (updateHeightFromTopFaceDrag env viewPoint centre c))
    = emptyVolumes c.
Proof.
  unfold updateHeightFromTopFaceDrag.
  destruct (map c), (_firstCorner c), (_orientation c),
    (_orientationComplement c); try reflexivity.
  destruct (rayPlaneIntersection env _ _ _ _); reflexivity.
Qed.

(** C4 at the bottom face: dragging face 5 of [draggedTowerBox] is a
    successful resize (the height goes from 5 to 0 and an update is
    emitted), yet
    the 24 x 24 grid of the earlier refinement is still in place. *)
Theorem bottom_face_resize_keeps_grid :
  exists c',
    handleDrag plainCollaborators (mkV3 0 0 0) draggedTowerBox
      = Returned EVENT_HANDLED c' /\
    _height draggedTowerBox = 5 /\ _height c' = 0 /\
    emitted c' = emitted draggedTowerBox ++ [VOLUME_MEASUREMENT_UPDATE] /\
    emptyVolumes c' = repeat (repeat 1 RefinedGridSize) RefinedGridSize /\
    emptyVolumes c' <> [].
Proof.
  unfold handleDrag, updateFaceSize. cbn -[RefinedGridSize clamp].
  destruct (Rlt_dec 1 0); [lra|].
  eexists. split; [reflexivity|].
  cbn -[RefinedGridSize clamp].
  split; [reflexivity|split; [|split; [reflexivity|split; [reflexivity|]]]].
  - assert (Hlt : Rltb 5 0 = false)
      by (unfold Rltb; destruct (Rlt_dec 5 0); [lra|reflexivity]).
    rewrite Hlt. cbn [orb].
    replace (normalize (mkV3 0 0 4)) with (mkV3 0 0 1).
    2:{ unfold normalize. rewrite (@length_of_square _ 4); [vec | lra |].
        unfold dot; simpl; ring. }
    replace (dot _ _) with 0 by (unfold dot; simpl; field).
    unfold clamp, MAX_SIZE, Rmax, Rmin.
    destruct (Rle_dec 10000 0); [lra|]. destruct (Rle_dec 0 0); lra.
  - discriminate.
Qed.

(** ** Sampling *)

Lemma sample_bounds (env : Collaborators) (point : V3) (maxValue : R) (r : Run) :
  0 <= maxValue ->
  0 <= fst (moveCameraToPointAndSample env point maxValue r) <= maxValue.
Proof.
  intros Hmax. unfold moveCameraToPointAndSample. cbn [ctl logEvent].
  destruct (map (ctl r)) as [m|]; [|simpl; lra].
  destruct (closestSurfaceAtCentre m point) as [mapPoint|]; [|simpl; lra].
  cbn [fst]. pose proof (distance_nonneg point mapPoint).
  destruct (Rgt_dec (distance point mapPoint) maxValue); lra.
Qed.

(** The left-to-right loop keeps a property that every sample has. *)
Lemma scanLeftToRight_Forall (env : Collaborators) (P : R -> Prop) (maxValue : R)
    (row : list V3) :
  (forall point r, P (fst (moveCameraToPointAndSample env point maxValue r))) ->
  forall (dataRow : list R) (r : Run),
    Forall P dataRow ->
    Forall P (fst (scanLeftToRight env maxValue row dataRow r)).
Proof.
  intros HP. induction row as [|point rest IH]; intros dataRow r Hd; simpl.
  - exact Hd.
  - destruct (abort (ctl r)); [exact Hd|].
    specialize (HP point r).
    destruct (moveCameraToPointAndSample env point maxValue r) as [d r1].
    apply IH. apply Forall_app. split; [exact Hd|]. constructor; [exact HP|constructor].
Qed.

Lemma scanRightToLeft_Forall (env : Collaborators) (P : R -> Prop) (maxValue : R)
    (rowReversed : list V3) :
  (forall point r, P (fst (moveCameraToPointAndSample env point maxValue r))) ->
  forall (dataRow : list R) (r : Run),
    Forall P dataRow ->
    Forall P (fst (scanRightToLeft env maxValue rowReversed dataRow r)).
Proof.
  intros HP. induction rowReversed as [|point rest IH]; intros dataRow r Hd; simpl.
  - exact Hd.
  - specialize (HP point r).
    destruct (moveCameraToPointAndSample env point maxValue r) as [d r1].
    apply IH. constructor; assumption.
Qed.

Lemma scanRows_Forall (env : Collaborators) (P : R -> Prop) (maxValue : R)
    (rows : list (list V3)) :
  (forall point r, P (fst (moveCameraToPointAndSample env point maxValue r))) ->
  forall (i : nat) (data : list (list R)) (r : Run),
    Forall (Forall P) data ->
    Forall (Forall P) (fst (scanRows env maxValue i rows data r)).
Proof.
  intros HP. induction rows as [|row rest IH]; intros i data r Hd; simpl.
  - exact Hd.
  - destruct (abort (ctl r)); [constructor|].
    destruct (Nat.even i).
    + assert (Hrow : Forall P (fst (scanLeftToRight env maxValue row [] r)))
        by (apply scanLeftToRight_Forall; [exact HP | constructor]).
      destruct (scanLeftToRight env maxValue row [] r) as [dataRow r1].
      apply IH. apply Forall_app. split; [exact Hd|]. constructor; [exact Hrow|constructor].
    + assert (Hrow : Forall P (fst (scanRightToLeft env maxValue (rev row) [] r)))
        by (apply scanRightToLeft_Forall; [exact HP | constructor]).
      destruct (scanRightToLeft env maxValue (rev row) [] r) as [dataRow r1].
      apply IH. apply Forall_app. split; [exact Hd|]. constructor; [exact Hrow|constructor].
Qed.

Lemma towerBox_box :
  createBox plainCollaborators towerBox
    = Some (boxFrom (mkV3 0 0 4) (mkV3 1 0 0) (mkV3 0 1 0) (mkV3 0 0 5)).
Proof.
  unfold createBox, createBoxFromParameters. cbn.
  assert (Hlt : Rltb 5 0 = false)
    by (unfold Rltb; destruct (Rlt_dec 5 0); [lra|reflexivity]).
  rewrite Hlt. destruct (Rlt_dec 1 0); [lra|]. cbn [orb].
  rewrite !Rabs_pos_eq by lra.
  f_equal. f_equal. vec.
Qed.

(** ** The scan *)

Lemma set_abort_same (c : Controller) : set_abort (abort c) c = c.
Proof. destruct c; reflexivity. Qed.

Lemma set_abort_twice (a b : bool) (c : Controller) :
  set_abort a (set_abort b c) = set_abort a c.
Proof. reflexivity. Qed.

Lemma abortedDuring_app (env : Collaborators) (from n k : nat) :
  abortedDuring env from (n + k)
    = abortedDuring env from n || abortedDuring env (from + n) k.
Proof.
  unfold abortedDuring. rewrite seq_app, existsb_app. reflexivity.
Qed.

Lemma scanStep_refl (env : Collaborators) (r : Run) : scanStep env r r 0.
Proof.
  constructor.
  - symmetry. apply set_abort_same.
  - destruct (isSome _); lia.
  - destruct (isSome _); simpl; rewrite orb_false_r; reflexivity.
Qed.

Lemma scanStep_trans (env : Collaborators) (r1 r2 r3 : Run) (n k : nat) :
  scanStep env r1 r2 n -> scanStep env r2 r3 k -> scanStep env r1 r3 (n + k).
Proof.
  intros [Hc1 Hm1 Ha1] [Hc2 Hm2 Ha2].
  assert (Hmap : map (ctl r2) = map (ctl r1)) by (rewrite Hc1; reflexivity).
  rewrite Hmap in *.
  constructor.
  - rewrite Hc2, Hc1. reflexivity.
  - rewrite Hm2, Hm1. destruct (isSome _); lia.
  - rewrite Ha2, Ha1, Hm1. destruct (isSome (map (ctl r1))).
    + rewrite abortedDuring_app, orb_assoc. reflexivity.
    + simpl. rewrite !orb_false_r. reflexivity.
Qed.

Lemma scanStep_log (env : Collaborators) (r r' : Run) (n : nat) (e : ScanEvent) :
  scanStep env r r' n -> scanStep env r (logEvent e r') n.
Proof. intros [Hc Hm Ha]. constructor; assumption. Qed.

(** One sample: its value, its event, one camera move. *)
Lemma sample_spec (env : Collaborators) (point : V3) (maxValue : R) (r : Run) :
  let r' := snd (moveCameraToPointAndSample env point maxValue r) in
  fst (moveCameraToPointAndSample env point maxValue r)
    = sampleAt (map (ctl r)) maxValue point /\
  trace r' = trace r ++ [Sampled point] /\
  scanStep env r r' 1.
Proof.
  unfold moveCameraToPointAndSample, sampleAt. cbn [ctl logEvent].
  destruct (map (ctl r)) as [m|] eqn:Hm.
  - assert (Hs : scanStep env r (awaitCameraMove env (logEvent (Sampled point) r)) 1).
    { constructor; cbn; rewrite ?Hm; cbn.
      - reflexivity.
      - lia.
      - unfold abortedDuring. simpl. rewrite orb_false_r. reflexivity. }
    destruct (closestSurfaceAtCentre m point); cbn [fst snd];
      (split; [reflexivity|split; [reflexivity|exact Hs]]).
  - cbn [fst snd]. split; [reflexivity|split; [reflexivity|]].
    constructor; cbn; rewrite ?Hm; cbn.
    + symmetry. apply set_abort_same.
    + lia.
    + rewrite orb_false_r. reflexivity.
Qed.

(** The left-to-right loop samples the first [k] points left of the row
    in order, and stops short of the end only on an abort. *)
Lemma scanLeftToRight_spec (env : Collaborators) (maxValue : R) (row : list V3) :
  forall (dataRow : list R) (r : Run),
  exists k : nat,
    (k <= List.length row)%nat /\
    fst (scanLeftToRight env maxValue row dataRow r)
      = dataRow ++ List.map (sampleAt (map (ctl r)) maxValue) (firstn k row) /\
    trace (snd (scanLeftToRight env maxValue row dataRow r))
      = trace r ++ List.map Sampled (firstn k row) /\
    scanStep env r (snd (scanLeftToRight env maxValue row dataRow r)) k /\
    ((k < List.length row)%nat ->
     abort (ctl (snd (scanLeftToRight env maxValue row dataRow r))) = true).
Proof.
  induction row as [|point rest IH]; intros dataRow r; cbn [scanLeftToRight].
  - exists 0%nat. cbn. rewrite !app_nil_r.
    repeat (split; [try reflexivity; try lia|]); [apply scanStep_refl|lia].
  - destruct (abort (ctl r)) eqn:Ha.
    + exists 0%nat. cbn. rewrite !app_nil_r.
      repeat (split; [try reflexivity; try lia|]); [apply scanStep_refl|auto].
    + destruct (sample_spec env point maxValue r) as (Hv & Ht & Hs).
      destruct (moveCameraToPointAndSample env point maxValue r) as [d r1].
      cbn [fst snd] in Hv, Ht, Hs.
      destruct (IH (dataRow ++ [d]) r1) as (k & Hk & Hout & Htr & Hstep & Hstop).
      assert (Hmap : map (ctl r1) = map (ctl r))
        by (rewrite (step_ctl Hs); reflexivity).
      exists (S k). cbn [firstn List.map List.length].
      split; [lia|]. split; [|split; [|split]].
      * rewrite Hout, Hmap, Hv, <- app_assoc. reflexivity.
      * rewrite Htr, Ht, <- app_assoc. reflexivity.
      * apply (scanStep_trans Hs Hstep).
      * intros Hlt. apply Hstop. lia.
Qed.

(** The right-to-left loop samples every point it is given and puts each
    value in front. *)
Lemma scanRightToLeft_spec (env : Collaborators) (maxValue : R)
    (rowReversed : list V3) :
  forall (dataRow : list R) (r : Run),
    fst (scanRightToLeft env maxValue rowReversed dataRow r)
      = List.map (sampleAt (map (ctl r)) maxValue) (rev rowReversed) ++ dataRow /\
    trace (snd (scanRightToLeft env maxValue rowReversed dataRow r))
      = trace r ++ List.map Sampled rowReversed /\
    scanStep env r (snd (scanRightToLeft env maxValue rowReversed dataRow r))
      (List.length rowReversed).
Proof.
  induction rowReversed as [|point rest IH]; intros dataRow r;
    cbn [scanRightToLeft].
  - cbn. rewrite app_nil_r. split; [reflexivity|split; [reflexivity|]].
    apply scanStep_refl.
  - destruct (sample_spec env point maxValue r) as (Hv & Ht & Hs).
    destruct (moveCameraToPointAndSample env point maxValue r) as [d r1].
    cbn [fst snd] in Hv, Ht, Hs.
    destruct (IH (d :: dataRow) r1) as (Hout & Htr & Hstep).
    assert (Hmap : map (ctl r1) = map (ctl r))
      by (rewrite (step_ctl Hs); reflexivity).
    split; [|split].
    + rewrite Hout, Hmap, Hv. cbn [rev]. rewrite map_app, <- app_assoc.
      reflexivity.
    + rewrite Htr, Ht, <- app_assoc. reflexivity.
    + apply (scanStep_trans Hs Hstep).
Qed.

(** One turn of the loop over the rows. *)
Lemma scanRows_cons (env : Collaborators) (maxValue : R) (i : nat)
    (row : list V3) (rest : list (list V3)) (data : list (list R)) (r : Run) :
  scanRows env maxValue i (row :: rest) data r =
    if abort (ctl r) then ([], r)
    else
      let scanned :=
        if Nat.even i then scanLeftToRight env maxValue row [] r
        else scanRightToLeft env maxValue (rev row) [] r in
      scanRows env maxValue (S i) rest (data ++ [fst scanned])
        (updateBlockingBannerProgress (progressAfter (S i)) (snd scanned)).
Proof.
  cbn [scanRows]. destruct (abort (ctl r)); [reflexivity|].
  unfold progressAfter. rewrite S_INR.
  destruct (Nat.even i).
  - destruct (scanLeftToRight env maxValue row [] r); reflexivity.
  - destruct (scanRightToLeft env maxValue (rev row) [] r); reflexivity.
Qed.

(** Once the abort flag is up, the loop over the rows does nothing more:
    it returns the empty grid if a row is left, and never samples. *)
Lemma scanRows_aborted (env : Collaborators) (maxValue : R) (i : nat)
    (rows : list (list V3)) (data : list (list R)) (r : Run) :
  abort (ctl r) = true ->
  trace (snd (scanRows env maxValue i rows data r)) = trace r /\
  (rows <> [] -> scanRows env maxValue i rows data r = ([], r)).
Proof.
  intros Ha. destruct rows as [|row rest].
  - cbn. split; [reflexivity|congruence].
  - rewrite scanRows_cons, Ha. split; reflexivity.
Qed.

(** What one row does, whatever its direction. *)
Lemma scanRow_spec (env : Collaborators) (maxValue : R) (i : nat) (row : list V3)
    (r : Run) :
  let scanned :=
    if Nat.even i then scanLeftToRight env maxValue row [] r
    else scanRightToLeft env maxValue (rev row) [] r in
  exists k : nat,
    (k <= List.length row)%nat /\
    (Nat.even i = false -> k = List.length row) /\
    fst scanned = List.map (sampleAt (map (ctl r)) maxValue)
                    (if Nat.even i then firstn k row else row) /\
    trace (snd scanned) = trace r ++ List.map Sampled (firstn k (rowOrder i row)) /\
    scanStep env r (snd scanned) k /\
    ((k < List.length row)%nat -> abort (ctl (snd scanned)) = true).
Proof.
  unfold rowOrder. destruct (Nat.even i).
  - destruct (scanLeftToRight_spec env maxValue row [] r)
      as (k & Hk & Hout & Htr & Hstep & Hstop).
    exists k. split; [exact Hk|]. split; [discriminate|].
    split; [exact Hout|]. split; [exact Htr|]. split; [exact Hstep|exact Hstop].
  - destruct (scanRightToLeft_spec env maxValue (rev row) [] r)
      as (Hout & Htr & Hstep).
    exists (List.length row).
    rewrite rev_involutive, app_nil_r in Hout. rewrite length_rev in Hstep.
    rewrite firstn_all2 by (rewrite length_rev; lia).
    split; [lia|]. split; [reflexivity|].
    split; [exact Hout|]. split; [exact Htr|]. split; [exact Hstep|lia].
Qed.

(** The scan touches the abort flag and, at its very end, the success
    flag; nothing else of the controller. *)
Lemma scanRows_frame (env : Collaborators) (maxValue : R) (rows : list (list V3)) :
  forall (i : nat) (data : list (list R)) (r : Run),
    let r' := snd (scanRows env maxValue i rows data r) in
    ctl r' = set_success (success (ctl r')) (set_abort (abort (ctl r')) (ctl r)).
Proof.
  induction rows as [|row rest IH]; intros i data r.
  - cbn. destruct (ctl r); reflexivity.
  - cbv zeta. rewrite scanRows_cons. destruct (abort (ctl r)) eqn:Ha.
    + cbn. destruct (ctl r); reflexivity.
    + pose proof (scanRow_spec env maxValue i row r) as Hrow. cbv zeta in *.
      destruct Hrow as (k & _ & _ & _ & _ & Hstep & _).
      destruct (if Nat.even i then _ else _) as [dataRow r1].
      cbn [fst snd] in *.
      specialize (IH (S i) (data ++ [dataRow])
                     (updateBlockingBannerProgress (progressAfter (S i)) r1)).
      cbv zeta in IH. rewrite IH at 1. cbn [updateBlockingBannerProgress logEvent ctl].
      rewrite (step_ctl Hstep). reflexivity.
Qed.

Lemma rowOrder_length (i : nat) (row : list V3) :
  List.length (rowOrder i row) = List.length row.
Proof. unfold rowOrder. destruct (Nat.even i); [reflexivity|apply length_rev]. Qed.

(** A scan over an even number of rows (more generally, one whose last
    row is walked right to left) that ends with the success flag up has
    sampled every cell: the values are those of a plain scan and the
    events those of an undisturbed serpentine scan. *)
Lemma scanRows_success (env : Collaborators) (maxValue : R)
    (rows : list (list V3)) :
  forall (i : nat) (data : list (list R)) (r : Run),
    success (ctl r) = false ->
    Nat.even (i + List.length rows) = true ->
    success (ctl (snd (scanRows env maxValue i rows data r))) = true ->
    fst (scanRows env maxValue i rows data r)
      = data ++ plainScan (map (ctl r)) maxValue rows /\
    trace (snd (scanRows env maxValue i rows data r))
      = trace r ++ serpentineTrace i rows.
Proof.
  induction rows as [|row rest IH]; intros i data r Hs0 Hpar Hs.
  - cbn. rewrite !app_nil_r. split; reflexivity.
  - rewrite scanRows_cons in *. destruct (abort (ctl r)) eqn:Ha.
    + cbn in Hs. congruence.
    + pose proof (scanRow_spec env maxValue i row r) as Hrow. cbv zeta in *.
      destruct Hrow as (k & Hk & Hodd & Hout & Htr & Hstep & Hstop).
      destruct (if Nat.even i then _ else _) as [dataRow r1].
      cbn [fst snd] in *.
      set (r2 := updateBlockingBannerProgress (progressAfter (S i)) r1) in *.
      assert (Hctl : ctl r2 = set_abort (abort (ctl r1)) (ctl r))
        by (subst r2; cbn; apply (step_ctl Hstep)).
      assert (Hfull : k = List.length row).
      { destruct (Nat.even i) eqn:Hev; [|apply Hodd; reflexivity].
        destruct (Nat.eq_dec k (List.length row)) as [|Hne]; [assumption|].
        exfalso.
        assert (Hab : abort (ctl r2) = true)
          by (rewrite Hctl; cbn; apply Hstop; lia).
        destruct rest as [|row2 rest].
        - cbn [List.length] in Hpar. rewrite Nat.add_1_r, Nat.even_succ in Hpar.
          rewrite <- Nat.negb_even, Hev in Hpar. discriminate.
        - destruct (scanRows_aborted env maxValue (S i) (row2 :: rest)
                      (data ++ [dataRow]) r2 Hab) as [_ Hres].
          rewrite Hres in Hs by discriminate. cbn [snd] in Hs.
          rewrite Hctl in Hs. cbn in Hs. congruence. }
      subst k.
      assert (Hdata : dataRow = List.map (sampleAt (map (ctl r)) maxValue) row).
      { rewrite Hout. destruct (Nat.even i); [rewrite firstn_all|]; reflexivity. }
      rewrite firstn_all2 in Htr by (rewrite rowOrder_length; lia).
      destruct (IH (S i) (data ++ [dataRow]) r2) as [Hd Ht].
      * rewrite Hctl. cbn. exact Hs0.
      * cbn [List.length] in Hpar. rewrite Nat.add_succ_r in Hpar. exact Hpar.
      * exact Hs.
      * split.
        -- rewrite Hd, Hctl, Hdata, <- app_assoc. reflexivity.
        -- rewrite Ht. subst r2. cbn [updateBlockingBannerProgress logEvent trace].
           rewrite Htr. cbn [serpentineTrace]. rewrite <- !app_assoc. reflexivity.
Qed.

Lemma abortedDuring_never (env : Collaborators) (from count : nat) :
  (forall n, userAborts env n = false) -> abortedDuring env from count = false.
Proof.
  intros H. unfold abortedDuring. generalize (seq from count).
  induction l as [|n l IH]; cbn; [reflexivity|]. rewrite H, IH. reflexivity.
Qed.

(** A scan nobody aborts ends with the success flag up, having sampled
    every cell. *)
Lemma scanRows_undisturbed (env : Collaborators) (maxValue : R)
    (rows : list (list V3)) :
  (forall n, userAborts env n = false) ->
  forall (i : nat) (data : list (list R)) (r : Run),
    abort (ctl r) = false ->
    success (ctl (snd (scanRows env maxValue i rows data r))) = true /\
    fst (scanRows env maxValue i rows data r)
      = data ++ plainScan (map (ctl r)) maxValue rows /\
    trace (snd (scanRows env maxValue i rows data r))
      = trace r ++ serpentineTrace i rows.
Proof.
  intros Hnever.
  induction rows as [|row rest IH]; intros i data r Ha.
  - cbn. rewrite !app_nil_r. repeat split; reflexivity.
  - rewrite scanRows_cons, Ha.
    pose proof (scanRow_spec env maxValue i row r) as Hrow. cbv zeta in *.
    destruct Hrow as (k & Hk & Hodd & Hout & Htr & Hstep & Hstop).
    destruct (if Nat.even i then _ else _) as [dataRow r1].
    cbn [fst snd] in *.
    set (r2 := updateBlockingBannerProgress (progressAfter (S i)) r1) in *.
    assert (Hctl : ctl r2 = set_abort (abort (ctl r1)) (ctl r))
      by (subst r2; cbn; apply (step_ctl Hstep)).
    assert (Ha1 : abort (ctl r1) = false).
    { rewrite (step_abort Hstep), Ha, abortedDuring_never by assumption.
      reflexivity. }
    assert (Hfull : k = List.length row).
    { destruct (Nat.eq_dec k (List.length row)) as [|Hne]; [assumption|].
      rewrite Hstop in Ha1 by lia. discriminate. }
    subst k.
    assert (Hdata : dataRow = List.map (sampleAt (map (ctl r)) maxValue) row).
    { rewrite Hout. destruct (Nat.even i); [rewrite firstn_all|]; reflexivity. }
    rewrite firstn_all2 in Htr by (rewrite rowOrder_length; lia).
    destruct (IH (S i) (data ++ [dataRow]) r2) as (Hs & Hd & Ht).
    + rewrite Hctl. cbn. exact Ha1.
    + split; [exact Hs|]. split.
      * rewrite Hd, Hctl, Hdata, <- app_assoc. reflexivity.
      * rewrite Ht. subst r2. cbn [updateBlockingBannerProgress logEvent trace].
        rewrite Htr. cbn [serpentineTrace]. rewrite <- !app_assoc. reflexivity.
Qed.

Lemma sampledPoints_app (t u : list ScanEvent) :
  sampledPoints (t ++ u) = sampledPoints t ++ sampledPoints u.
Proof.
  induction t as [|[point|percent] t IH]; cbn; rewrite ?IH; reflexivity.
Qed.

Lemma sampledPoints_Sampled (l : list V3) :
  sampledPoints (List.map Sampled l) = l.
Proof. induction l as [|point l IH]; cbn; rewrite ?IH; reflexivity. Qed.

Lemma sampledPoints_serpentineTrace (i : nat) (rows : list (list V3)) :
  sampledPoints (serpentineTrace i rows) = serpentine i rows.
Proof.
  revert i. induction rows as [|row rest IH]; intros i; cbn; [reflexivity|].
  rewrite sampledPoints_app, sampledPoints_Sampled. cbn. rewrite IH. reflexivity.
Qed.

(** Whatever happens to a scan, the points it has sampled are the first
    so many points of the serpentine order. *)
Lemma scanRows_prefix (env : Collaborators) (maxValue : R)
    (rows : list (list V3)) :
  forall (i : nat) (data : list (list R)) (r : Run),
  exists n : nat,
    sampledPoints (trace (snd (scanRows env maxValue i rows data r)))
      = sampledPoints (trace r) ++ firstn n (serpentine i rows).
Proof.
  induction rows as [|row rest IH]; intros i data r.
  - exists 0%nat. cbn. rewrite app_nil_r. reflexivity.
  - rewrite scanRows_cons. destruct (abort (ctl r)) eqn:Ha.
    + exists 0%nat. cbn. rewrite app_nil_r. reflexivity.
    + pose proof (scanRow_spec env maxValue i row r) as Hrow. cbv zeta in *.
      destruct Hrow as (k & Hk & Hodd & Hout & Htr & Hstep & Hstop).
      destruct (if Nat.even i then _ else _) as [dataRow r1].
      cbn [fst snd] in *.
      set (r2 := updateBlockingBannerProgress (progressAfter (S i)) r1) in *.
      assert (Hctl : ctl r2 = set_abort (abort (ctl r1)) (ctl r))
        by (subst r2; cbn; apply (step_ctl Hstep)).
      assert (Hsp : sampledPoints (trace r2)
                    = sampledPoints (trace r) ++ firstn k (rowOrder i row)).
      { subst r2. cbn [updateBlockingBannerProgress logEvent trace].
        rewrite Htr, !sampledPoints_app, sampledPoints_Sampled. cbn.
        rewrite app_nil_r. reflexivity. }
      destruct (abort (ctl r1)) eqn:Ha1.
      * exists k.
        destruct (scanRows_aborted env maxValue (S i) rest (data ++ [dataRow]) r2)
          as [Ht _]; [rewrite Hctl; reflexivity|].
        rewrite Ht, Hsp. cbn [serpentine]. rewrite firstn_app.
        replace (k - List.length (rowOrder i row))%nat with 0%nat
          by (rewrite rowOrder_length; lia).
        cbn. rewrite app_nil_r. reflexivity.
      * assert (Hfull : k = List.length row).
        { destruct (Nat.eq_dec k (List.length row)) as [|Hne]; [assumption|].
          assert (Hlt : (k < List.length row)%nat) by lia.
          apply Hstop in Hlt. congruence. }
        subst k.
        destruct (IH (S i) (data ++ [dataRow]) r2) as [n Hn].
        exists (List.length (rowOrder i row) + n)%nat.
        rewrite Hn, Hsp. cbn [serpentine].
        rewrite firstn_app_2, <- app_assoc.
        rewrite firstn_all2 by (rewrite rowOrder_length; lia). reflexivity.
Qed.

Lemma abortedDuring_longer (env : Collaborators) (from k n : nat) :
  (k <= n)%nat -> abortedDuring env from k = true -> abortedDuring env from n = true.
Proof.
  intros Hle H. replace n with (k + (n - k))%nat by lia.
  rewrite abortedDuring_app, H. reflexivity.
Qed.

(** On a map, the scan ends with the success flag up exactly when nobody
    pressed abort while a row other than the last was being scanned. *)
Lemma scanRows_success_iff (env : Collaborators) (maxValue : R)
    (rows : list (list V3)) :
  forall (i : nat) (data : list (list R)) (r : Run) (m : Map),
    map (ctl r) = Some m ->
    abort (ctl r) = false ->
    success (ctl r) = false ->
    success (ctl (snd (scanRows env maxValue i rows data r)))
      = negb (abortedDuring env (moves r)
                (List.length (concat (removelast rows)))).
Proof.
  induction rows as [|row rest IH]; intros i data r m Hm Ha Hs0.
  - reflexivity.
  - rewrite scanRows_cons, Ha.
    pose proof (scanRow_spec env maxValue i row r) as Hrow. cbv zeta in *.
    destruct Hrow as (k & Hk & Hodd & Hout & Htr & Hstep & Hstop).
    destruct (if Nat.even i then _ else _) as [dataRow r1].
    cbn [fst snd] in *.
    set (r2 := updateBlockingBannerProgress (progressAfter (S i)) r1) in *.
    assert (Hctl : ctl r2 = set_abort (abort (ctl r1)) (ctl r))
      by (subst r2; cbn; apply (step_ctl Hstep)).
    pose proof (step_moves Hstep) as Hmoves.
    pose proof (step_abort Hstep) as Habort.
    rewrite Hm, Ha in *. cbn [isSome orb] in *.
    destruct rest as [|row2 rest].
    + reflexivity.
    + change (removelast (row :: row2 :: rest))
        with (row :: removelast (row2 :: rest)).
      cbn [concat]. rewrite length_app.
      destruct (abort (ctl r1)) eqn:Ha1.
      * destruct (scanRows_aborted env maxValue (S i) (row2 :: rest)
                    (data ++ [dataRow]) r2) as [_ Hres];
          [rewrite Hctl; reflexivity|].
        rewrite Hres by discriminate. cbn [snd]. rewrite Hctl. cbn.
        rewrite Hs0.
        rewrite (@abortedDuring_longer env (moves r) k) by (auto; lia).
        reflexivity.
      * assert (Hfull : k = List.length row).
        { destruct (Nat.eq_dec k (List.length row)) as [|Hne]; [assumption|].
          assert (Hlt : (k < List.length row)%nat) by lia.
          apply Hstop in Hlt. congruence. }
        subst k.
        rewrite (IH (S i) (data ++ [dataRow]) r2 m).
        -- rewrite abortedDuring_app, <- Habort. cbn [orb].
           subst r2. cbn [updateBlockingBannerProgress logEvent moves].
           rewrite Hmoves. reflexivity.
        -- rewrite Hctl. exact Hm.
        -- rewrite Hctl. reflexivity.
        -- rewrite Hctl. exact Hs0.
Qed.

(** *** The grid of a box *)

Lemma gridPointsOf_isGrid (box : OrientedBox) :
  isGrid RefinedGridSize (gridPointsOf box).
Proof.
  unfold isGrid, gridPointsOf. split.
  - rewrite length_map, length_seq. reflexivity.
  - apply Forall_forall. intros row Hin. apply in_map_iff in Hin as (i & <- & _).
    rewrite length_map, length_seq. reflexivity.
Qed.

Lemma plainScan_isGrid (m : option Map) (maxValue : R) (n : nat)
    (gridPoints : list (list V3)) :
  isGrid n gridPoints -> isGrid n (plainScan m maxValue gridPoints).
Proof.
  unfold isGrid, plainScan. intros [Hlen Hrows]. split.
  - rewrite length_map. exact Hlen.
  - apply Forall_forall. intros row Hin. apply in_map_iff in Hin as (pts & <- & Hin).
    rewrite length_map. rewrite Forall_forall in Hrows. apply Hrows. exact Hin.
Qed.

Lemma length_concat_removelast {A : Type} (n : nat) (rows : list (list A)) :
  Forall (fun row => List.length row = n) rows ->
  List.length (concat (removelast rows)) = (n * (List.length rows - 1))%nat.
Proof.
  induction rows as [|row rest IH]; intros H.
  - cbn. lia.
  - inversion H as [|? ? Hrow Hrest]; subst.
    destruct rest as [|row2 rest].
    + cbn. lia.
    + change (removelast (row :: row2 :: rest))
        with (row :: removelast (row2 :: rest)).
      cbn [concat]. rewrite length_app, (IH Hrest). cbn [List.length]. lia.
Qed.

(** ** A refinement run *)

(** The controller a run starts its scan from. *)
Lemma createBox_Some_map (env : Collaborators) (c : Controller) (box : OrientedBox) :
  createBox env c = Some box -> exists m, map c = Some m.
Proof.
  unfold createBox, createBoxFromParameters.
  destruct (map c) as [m|]; [eauto|discriminate].
Qed.

(** How a run on a finalized box settles. *)
Lemma refineCalculation_settles (env : Collaborators) (c : Controller)
    (box : OrientedBox) :
  canRefine c = true ->
  createBox env c = Some box ->
  exists (t : list ScanEvent) (c' : Controller),
    refineCalculation env c = Returned t c' /\
    success c' = negb (abortedDuring env 0
                         (RefinedGridSize * (RefinedGridSize - 1))) /\
    (exists n, sampledPoints t = firstn n (serpentine 0 (gridPointsOf box))) /\
    (success c' = false ->
     emptyVolumes c' = [] /\ refinedVolumeCalculation c' = 0 /\
     emitted c' = emitted c) /\
    (success c' = true ->
     emptyVolumes c'
       = plainScan (map c) (maxDistanceOf box) (gridPointsOf box) /\
     substractEmptyAreas c' = Some (refinedVolumeCalculation c') /\
     emitted c' = emitted c ++ [VOLUME_MEASUREMENT_UPDATE] /\
     t = serpentineTrace 0 (gridPointsOf box)) /\
    (_state c' = _state c /\ _firstCorner c' = _firstCorner c /\
     _orientation c' = _orientation c /\
     _orientationComplement c' = _orientationComplement c /\
     _width c' = _width c /\ _depth c' = _depth c /\ _height c' = _height c).
Proof.
  intros Hcan Hbox.
  destruct (createBox_Some_map env c Hbox) as [m Hm].
  unfold refineCalculation. rewrite Hcan. cbn [negb].
  change (createBox env (set_emptyVolumes [] c)) with (createBox env c).
  rewrite Hbox.
  set (c0 := set_success false
               (set_refinedVolumeCalculation 0
                  (set_abort false (set_emptyVolumes [] c)))).
  set (r0 := mkRun c0 0 []).
  unfold processGridPoints.
  pose proof (scanRows_frame env (maxDistanceOf box) (gridPointsOf box) 0 [] r0)
    as Hframe.
  pose proof (@scanRows_success_iff env (maxDistanceOf box) (gridPointsOf box)
                0%nat [] r0 m Hm eq_refl eq_refl) as Hiff.
  pose proof (scanRows_success env (maxDistanceOf box) (gridPointsOf box)
                0 [] r0 eq_refl) as Hfull.
  pose proof (scanRows_prefix env (maxDistanceOf box) (gridPointsOf box) 0 [] r0)
    as Hprefix.
  destruct (gridPointsOf_isGrid box) as [Hlen Hrows].
  rewrite (length_concat_removelast Hrows), Hlen in Hiff.
  rewrite Hlen in Hfull. specialize (Hfull eq_refl).
  cbv zeta in Hframe.
  destruct (scanRows env (maxDistanceOf box) 0 (gridPointsOf box) [] r0)
    as [data r1].
  cbn [fst snd ctl moves trace] in *.
  destruct (success (ctl r1)) eqn:Hs.
  - destruct (Hfull eq_refl) as [Hdata Htrace]. cbn [app] in Hdata, Htrace.
    assert (Hsub : substractEmptyAreas (set_emptyVolumes data (ctl r1))
                   = Some (Rmax 0 (grossVolume (set_emptyVolumes data (ctl r1))
                                   - emptySum (cellArea (set_emptyVolumes data (ctl r1))) data))).
    { apply substractEmptyAreas_grid.
      - rewrite Hframe. exact Hcan.
      - cbn. rewrite Hdata. apply plainScan_isGrid. split; assumption. }
    rewrite Hsub.
    eexists _, _. split; [reflexivity|].
    split; [cbn; rewrite Hs; exact Hiff|].
    split; [exact Hprefix|].
    split; [cbn; rewrite Hs; discriminate|].
    split.
    + intros _. split; [|split; [|split]].
      * cbn. rewrite Hdata. reflexivity.
      * exact Hsub.
      * cbn. rewrite Hframe. reflexivity.
      * exact Htrace.
    + cbn. rewrite Hframe. cbn. repeat split.
  - eexists _, _. split; [reflexivity|].
    split; [cbn; rewrite Hs; exact Hiff|].
    split; [exact Hprefix|].
    split.
    + intros _. cbn. rewrite Hframe. cbn. repeat split.
    + split; [cbn; rewrite Hs; discriminate|].
      cbn. rewrite Hframe. cbn. repeat split.
Qed.

(** C1 (as the code has it): a run on a finalized box always settles.  A
    run during which abort is pressed while one of the first 23 rows is
    being scanned is unsuccessful; an unsuccessful run leaves the grid of
    empty heights empty and the refined volume 0, whatever they were
    before, and emits nothing; a run nobody aborts is successful, and a
    successful run stores the scanned grid, the refined volume computed
    from it, and emits an update. *)
Theorem aborted_run_resets_refinement (env : Collaborators) (c : Controller)
    (box : OrientedBox) :
  canRefine c = true ->
  createBox env c = Some box ->
  exists (t : list ScanEvent) (c' : Controller),
    refineCalculation env c = Returned t c' /\
    (abortedDuring env 0 (RefinedGridSize * (RefinedGridSize - 1)) = true ->
     success c' = false) /\
    ((forall n, userAborts env n = false) -> success c' = true) /\
    (success c' = false ->
     emptyVolumes c' = [] /\ refinedVolumeCalculation c' = 0 /\
     emitted c' = emitted c) /\
    (success c' = true ->
     emptyVolumes c'
       = plainScan (map c) (maxDistanceOf box) (gridPointsOf box) /\
     substractEmptyAreas c' = Some (refinedVolumeCalculation c') /\
     emitted c' = emitted c ++ [VOLUME_MEASUREMENT_UPDATE]).
Proof.
  intros Hcan Hbox.
  destruct (refineCalculation_settles env c Hcan Hbox)
    as (t & c' & Hrun & Hiff & _ & Hfail & Hok & _).
  exists t, c'. split; [exact Hrun|].
  split; [intros Hab; rewrite Hiff, Hab; reflexivity|].
  split; [intros Hnever; rewrite Hiff, abortedDuring_never by assumption;
          reflexivity|].
  split; [exact Hfail|].
  intros Hs. destruct (Hok Hs) as (He & Hv & Hm & _). auto.
Qed.

Lemma aborted_run_resets_refinement_witness :
  exists (t : list ScanEvent) (c' : Controller),
    refineCalculation plainCollaborators towerBox = Returned t c' /\
    success c' = true.
Proof.
  destruct (@aborted_run_resets_refinement plainCollaborators towerBox _
              eq_refl towerBox_box) as (t & c' & Hrun & _ & Hok & _).
  exists t, c'. split; [exact Hrun|]. apply Hok. reflexivity.
Defined.

(** C1, as stated, fails: [refinedTowerBox] holds a 24 x 24 grid and a
    refined volume of 4; the user aborts the next run during its first
    camera move; the run is unsuccessful and leaves an empty grid and a
    refined volume of 0. *)
Lemma aborted_run_discards_previous_refinement :
  emptyVolumes refinedTowerBox = repeat (repeat 1 RefinedGridSize) RefinedGridSize /\
  refinedVolumeCalculation refinedTowerBox = 4 /\
  exists (t : list ScanEvent) (c' : Controller),
    refineCalculation impatientCollaborators refinedTowerBox = Returned t c' /\
    success c' = false /\
    emptyVolumes c' = [] /\ emptyVolumes c' <> emptyVolumes refinedTowerBox /\
    refinedVolumeCalculation c' = 0 /\
    refinedVolumeCalculation c' <> refinedVolumeCalculation refinedTowerBox.
Proof.
  split; [reflexivity|]. split; [reflexivity|].
  assert (Hbox : createBox impatientCollaborators refinedTowerBox
                 = Some (boxFrom (mkV3 0 0 4) (mkV3 1 0 0) (mkV3 0 1 0) (mkV3 0 0 5)))
    by exact towerBox_box.
  destruct (@refineCalculation_settles impatientCollaborators refinedTowerBox _
              eq_refl Hbox) as (t & c' & Hrun & Hiff & _ & Hfail & _).
  assert (Hs : success c' = false) by (rewrite Hiff; reflexivity).
  destruct (Hfail Hs) as (He & Hv & _).
  exists t, c'. split; [exact Hrun|]. split; [exact Hs|].
  split; [exact He|]. split; [rewrite He; discriminate|].
  split; [exact Hv|]. rewrite Hv. cbn. lra.
Qed.

Lemma serpentineTrace_at (rows : list (list V3)) :
  forall (s i : nat) (row : list V3),
    nth_error rows i = Some row ->
    serpentineTrace s rows
      = serpentineTrace s (firstn i rows)
        ++ List.map Sampled (rowOrder (s + i) row)
        ++ [Progress (progressAfter (S (s + i)))]
        ++ serpentineTrace (S (s + i)) (skipn (S i) rows).
Proof.
  induction rows as [|row0 rest IH]; intros s [|i] row H; cbn in H;
    try discriminate.
  - injection H as ->. cbn. rewrite Nat.add_0_r. reflexivity.
  - cbn [firstn skipn serpentineTrace]. rewrite (IH (S s) i row H).
    rewrite <- !app_assoc. cbn [app]. rewrite Nat.add_succ_r. reflexivity.
Qed.

(** C7: the scan samples the cells in serpentine order.  Whatever
    happens, the points sampled so far are the first so many of that
    order (even rows from the first column up, odd rows from the last
    column down, row after row); a run that ends successfully on a grid
    with an even number of rows, and any run nobody aborts, has the trace
    in which, for every row index i, the samples of row i in its
    direction are followed at once by the progress value
    100 * (i + 1) / 24; the grid of a refinement run has 24 rows. *)
Theorem serpentine_scan_order (env : Collaborators) (gridPoints : list (list V3))
    (maxValue : R) (r : Run) :
  let r' := snd (processGridPoints env gridPoints maxValue r) in
  (exists n : nat,
     sampledPoints (trace r')
       = sampledPoints (trace r) ++ firstn n (serpentine 0 gridPoints)) /\
  (success (ctl r) = false ->
   Nat.even (List.length gridPoints) = true ->
   success (ctl r') = true ->
   trace r' = trace r ++ serpentineTrace 0 gridPoints) /\
  ((forall n, userAborts env n = false) ->
   abort (ctl r) = false ->
   success (ctl r') = true /\
   trace r' = trace r ++ serpentineTrace 0 gridPoints) /\
  (forall (i : nat) (row : list V3),
     nth_error gridPoints i = Some row ->
     serpentineTrace 0 gridPoints
       = serpentineTrace 0 (firstn i gridPoints)
         ++ List.map Sampled (if Nat.even i then row else rev row)
         ++ [Progress (100 * (INR i + 1) / INR RefinedGridSize)]
         ++ serpentineTrace (S i) (skipn (S i) gridPoints)) /\
  (forall box : OrientedBox,
     List.length (gridPointsOf box) = RefinedGridSize /\
     Nat.even (List.length (gridPointsOf box)) = true).
Proof.
  cbv zeta. unfold processGridPoints.
  split; [apply scanRows_prefix|].
  split.
  { intros Hs0 Hpar Hs. apply scanRows_success; assumption. }
  split.
  { intros Hnever Ha.
    destruct (scanRows_undisturbed env maxValue gridPoints Hnever 0 [] r Ha)
      as (Hs & _ & Ht). split; assumption. }
  split.
  { intros i row Hrow.
    rewrite (serpentineTrace_at gridPoints 0 i Hrow). cbn [Nat.add].
    unfold rowOrder, progressAfter. rewrite S_INR. reflexivity. }
  intros box. destruct (gridPointsOf_isGrid box) as [Hlen _].
  rewrite Hlen. split; reflexivity.
Qed.

Lemma serpentine_scan_order_witness :
  trace (snd (processGridPoints plainCollaborators smallGrid 5
                (mkRun towerBox 0 [])))
    = [ Sampled (mkV3 0 0 4); Sampled (mkV3 1 0 4);
        Progress (progressAfter 1);
        Sampled (mkV3 1 1 4); Sampled (mkV3 0 1 4);
        Progress (progressAfter 2) ].
Proof.
  destruct (serpentine_scan_order plainCollaborators smallGrid 5
              (mkRun towerBox 0 []))
    as (_ & _ & H & _).
  destruct H as [_ Ht]; [reflexivity|reflexivity|].
  rewrite Ht. reflexivity.
Defined.

(** C9: the grid a completed scan returns is the grid of a plain
    row-major scan: entry (i, j) is the sample at grid point (i, j),
    whichever way row i was walked.  This holds for a run that ends
    successfully on a grid with an even number of rows (the grid of a
    refinement run has 24) and for any run nobody aborts. *)
Theorem serpentine_data_row_major (env : Collaborators)
    (gridPoints : list (list V3)) (maxValue : R) (r : Run) :
  let data := fst (processGridPoints env gridPoints maxValue r) in
  let r' := snd (processGridPoints env gridPoints maxValue r) in
  (success (ctl r) = false ->
   Nat.even (List.length gridPoints) = true ->
   success (ctl r') = true ->
   data = plainScan (map (ctl r)) maxValue gridPoints) /\
  ((forall n, userAborts env n = false) ->
   abort (ctl r) = false ->
   success (ctl r') = true /\
   data = plainScan (map (ctl r)) maxValue gridPoints) /\
  (forall (i j : nat) (row : list V3) (point : V3),
     nth_error gridPoints i = Some row ->
     nth_error row j = Some point ->
     exists dataRow : list R,
       nth_error (plainScan (map (ctl r)) maxValue gridPoints) i = Some dataRow /\
       nth_error dataRow j = Some (sampleAt (map (ctl r)) maxValue point) /\
       sampleAt (map (ctl r)) maxValue point
         = fst (moveCameraToPointAndSample env point maxValue r)).
Proof.
  cbv zeta. unfold processGridPoints.
  split.
  { intros Hs0 Hpar Hs.
    destruct (scanRows_success env maxValue gridPoints 0 [] r Hs0 Hpar Hs)
      as [Hd _]. exact Hd. }
  split.
  { intros Hnever Ha.
    destruct (scanRows_undisturbed env maxValue gridPoints Hnever 0 [] r Ha)
      as (Hs & Hd & _). split; assumption. }
  intros i j row point Hrow Hpoint.
  exists (List.map (sampleAt (map (ctl r)) maxValue) row).
  unfold plainScan. rewrite !nth_error_map, Hrow. cbn.
  rewrite Hpoint. cbn.
  split; [reflexivity|]. split; [reflexivity|].
  destruct (sample_spec env point maxValue r) as (Hv & _). symmetry. exact Hv.
Qed.

Lemma serpentine_data_row_major_witness :
  fst (processGridPoints plainCollaborators smallGrid 5 (mkRun towerBox 0 []))
    = plainScan (Some plainMap) 5 smallGrid.
Proof.
  destruct (serpentine_data_row_major plainCollaborators smallGrid 5
              (mkRun towerBox 0 []))
    as (_ & H & _).
  destruct H as [_ Hd]; [reflexivity|reflexivity|].
  exact Hd.
Defined.

(** ** The samples of a run *)

Lemma Forall2_map_self {A B : Type} (P : A -> B -> Prop) (f : A -> B)
    (l : list A) :
  (forall a, P a (f a)) -> Forall2 P l (List.map f l).
Proof. intros H. induction l; cbn; constructor; auto. Qed.

(** What a sample is, read off [sampleAt]. *)
Lemma sampleAt_spec (m : Map) (maxValue : R) (point : V3) :
  0 <= maxValue ->
  0 <= sampleAt (Some m) maxValue point <= maxValue /\
  (closestSurfaceAtCentre m point = None ->
   sampleAt (Some m) maxValue point = 0) /\
  (forall mapPoint,
     closestSurfaceAtCentre m point = Some mapPoint ->
     sampleAt (Some m) maxValue point = Rmin (distance point mapPoint) maxValue).
Proof.
  intros Hmax. unfold sampleAt.
  destruct (closestSurfaceAtCentre m point) as [mapPoint|].
  - pose proof (distance_nonneg point mapPoint).
    split; [destruct (Rgt_dec _ _); lra|]. split; [discriminate|].
    intros q E. injection E as <-.
    destruct (Rgt_dec _ _); [rewrite Rmin_right|rewrite Rmin_left]; lra.
  - split; [lra|]. split; [reflexivity|discriminate].
Qed.

(** C5 (as the code has it): the bound a refinement run hands to the
    sampler is the distance between corners 0 and 1 of the box, the edge
    that leaves the sampled face 0, 4, 2, 6.  A run on a finalized box
    whose box can be built returns, whichever surface queries fail; it is
    successful when nobody aborts; and the grid a successful run stores
    holds, for every grid point, a value between 0 and that distance: 0
    where the surface query fails, and the distance to the surface found,
    cut at the bound, elsewhere.  Every sample of every scan, kept or
    discarded, lies between 0 and the bound the scan was given, and a
    sample without a map or whose query fails is 0.  On a box given by a
    corner and three edges the bound is the length of the z edge. *)
Theorem sample_clamped (env : Collaborators) (c : Controller)
    (box : OrientedBox) :
  canRefine c = true ->
  createBox env c = Some box ->
  (exists (t : list ScanEvent) (c' : Controller) (m : Map),
     refineCalculation env c = Returned t c' /\
     map c = Some m /\
     ((forall n, userAborts env n = false) -> success c' = true) /\
     (success c' = true ->
      Forall2 (Forall2 (fun point d =>
                 0 <= d <= distance (c0 box) (c1 box) /\
                 (closestSurfaceAtCentre m point = None -> d = 0) /\
                 (forall mapPoint,
                    closestSurfaceAtCentre m point = Some mapPoint ->
                    d = Rmin (distance point mapPoint)
                             (distance (c0 box) (c1 box)))))
              (gridPointsOf box) (emptyVolumes c'))) /\
  (forall (point : V3) (maxValue : R) (r : Run),
     0 <= maxValue ->
     0 <= fst (moveCameraToPointAndSample env point maxValue r) <= maxValue) /\
  (forall (point : V3) (maxValue : R) (r : Run),
     map (ctl r) = None ->
     moveCameraToPointAndSample env point maxValue r
       = (0, logEvent (Sampled point) r)) /\
  (forall (point : V3) (maxValue : R) (r : Run) (m : Map),
     map (ctl r) = Some m ->
     snd (moveCameraToPointAndSample env point maxValue r)
       = awaitCameraMove env (logEvent (Sampled point) r) /\
     (closestSurfaceAtCentre m point = None ->
      fst (moveCameraToPointAndSample env point maxValue r) = 0)) /\
  (forall (gridPoints : list (list V3)) (maxValue : R) (r : Run),
     0 <= maxValue ->
     Forall (Forall (fun d => 0 <= d <= maxValue))
            (fst (processGridPoints env gridPoints maxValue r))) /\
  (forall origin ex ey ez : V3,
     distance (c0 (boxFrom origin ex ey ez)) (c1 (boxFrom origin ex ey ez))
     = length ez).
Proof.
  intros Hcan Hbox. split.
  { destruct (createBox_Some_map env c Hbox) as [m Hm].
    destruct (refineCalculation_settles env c Hcan Hbox)
      as (t & c' & Hrun & Hsucc & _ & _ & Hok & _).
    exists t, c', m. split; [exact Hrun|]. split; [exact Hm|]. split.
    - intros Hnever. rewrite Hsucc, abortedDuring_never by assumption.
      reflexivity.
    - intros Hs. destruct (Hok Hs) as (Hgrid & _). rewrite Hgrid, Hm.
      unfold plainScan, maxDistanceOf.
      apply Forall2_map_self. intros row.
      apply Forall2_map_self. intros point.
      apply sampleAt_spec. apply distance_nonneg. }
  split; [intros; apply sample_bounds; assumption|].
  split.
  { intros point maxValue r Hm. unfold moveCameraToPointAndSample.
    cbn [ctl logEvent]. rewrite Hm. reflexivity. }
  split.
  { intros point maxValue r m Hm. unfold moveCameraToPointAndSample.
    cbn [ctl logEvent]. rewrite Hm.
    destruct (closestSurfaceAtCentre m point); split; try reflexivity.
    discriminate. }
  split.
  { intros gridPoints maxValue r Hmax. unfold processGridPoints.
    apply scanRows_Forall; [|constructor].
    intros point r0. apply sample_bounds. exact Hmax. }
  intros origin ex ey ez. unfold distance, length. simpl.
  f_equal. unfold dot. simpl. ring.
Qed.

Lemma sample_clamped_witness :
  exists (t : list ScanEvent) (c' : Controller),
    refineCalculation plainCollaborators towerBox = Returned t c' /\
    success c' = true.
Proof.
  destruct (proj1 (@sample_clamped plainCollaborators towerBox _ eq_refl
                     towerBox_box))
    as (t & c' & m & Hrun & _ & Hsucc & _).
  exists t, c'. split; [exact Hrun|]. apply Hsucc. intros n. reflexivity.
Defined.

(** On [plainMap] the surface is three units away from every point. *)
Lemma plainMap_sample (point : V3) :
  sampleAt (Some plainMap) 5 point = 3.
Proof.
  unfold sampleAt. cbn [closestSurfaceAtCentre plainMap].
  replace (distance point (sub point (mkV3 0 0 3))) with 3.
  - destruct (Rgt_dec 3 5); [lra|reflexivity].
  - symmetry. unfold distance. apply length_of_square; [lra|].
    unfold dot; simpl; ring.
Qed.

(** C5, as stated, fails: the refinement run on [towerBox], whose
    sampled face has the diagonal [sqrt 2] and whose height is 5, is
    successful and stores 3 in every cell of its grid, the surface being
    three units away: every sample of the run is above the diagonal of the
    face. *)
Lemma sample_exceeds_face_diagonal :
  exists (box : OrientedBox) (t : list ScanEvent) (c' : Controller),
    createBox plainCollaborators towerBox = Some box /\
    refineCalculation plainCollaborators towerBox = Returned t c' /\
    success c' = true /\
    topFaceDiagonal box = sqrt 2 /\
    distance (c0 box) (c1 box) = 5 /\
    isGrid RefinedGridSize (emptyVolumes c') /\
    Forall (Forall (fun d => d = 3 /\ topFaceDiagonal box < d))
           (emptyVolumes c').
Proof.
  destruct (refineCalculation_settles plainCollaborators towerBox eq_refl
              towerBox_box)
    as (t & c' & Hrun & Hsucc & _ & _ & Hok & _).
  assert (Hs : success c' = true).
  { rewrite Hsucc, abortedDuring_never by (intros n; reflexivity).
    reflexivity. }
  destruct (Hok Hs) as (Hgrid & _).
  set (box := boxFrom (mkV3 0 0 4) (mkV3 1 0 0) (mkV3 0 1 0) (mkV3 0 0 5)) in *.
  assert (H5 : maxDistanceOf box = 5).
  { unfold maxDistanceOf, distance. apply length_of_square; [lra|].
    unfold dot; simpl; ring. }
  assert (Hdiag : topFaceDiagonal box = sqrt 2).
  { unfold topFaceDiagonal, distance, length. f_equal. unfold dot; simpl; ring. }
  assert (Hlt : sqrt 2 < 3).
  { replace 3 with (sqrt 9).
    - apply sqrt_lt_1; lra.
    - replace 9 with (3 * 3) by ring. apply sqrt_square. lra. }
  exists box, t, c'.
  split; [apply towerBox_box|]. split; [exact Hrun|]. split; [exact Hs|].
  split; [exact Hdiag|]. split; [exact H5|].
  rewrite Hgrid, H5. split.
  - apply plainScan_isGrid. apply gridPointsOf_isGrid.
  - unfold plainScan. apply Forall_forall. intros row Hrow.
    apply in_map_iff in Hrow as (points & <- & _).
    apply Forall_forall. intros d Hd.
    apply in_map_iff in Hd as (point & <- & _).
    cbn [map towerBox set_state set_height set_depth set_width
         set_orientationComplement set_orientation set_firstCorner newController].
    rewrite plainMap_sample, Hdiag. split; [reflexivity|exact Hlt].
Qed.

(** ** The refined volume of a run *)

Lemma plainScan_nonNegative (m : option Map) (maxValue : R)
    (gridPoints : list (list V3)) :
  0 <= maxValue -> nonNegativeCells (plainScan m maxValue gridPoints).
Proof.
  intros Hmax. unfold nonNegativeCells, plainScan.
  apply Forall_forall. intros row Hrow.
  apply in_map_iff in Hrow as (points & <- & _).
  apply Forall_forall. intros d Hd.
  apply in_map_iff in Hd as (point & <- & _).
  destruct m as [m|]; [|cbn; lra].
  apply (sampleAt_spec m point Hmax).
Qed.

(** C2 (as the code has it): on a finalized box whose grid is a 24 x 24
    matrix of non-negative heights, the refined volume that
    [substractEmptyAreas] computes is the gross volume minus the sum over
    all cells of cell area times empty height, floored at 0; it never
    exceeds the gross volume; it equals the gross volume when every cell
    is zero, and, on a box whose three extents are not zero, only then.
    With an empty grid it is the gross volume.  This is the value a
    successful refinement run stores and the snapshot reports: the grid
    such a run leaves is a 24 x 24 matrix of non-negative heights, and the
    refined volume of the snapshot after it is that floored difference,
    at most the volume of the snapshot. *)
Theorem refined_volume_formula (env : Collaborators) (c : Controller) :
  canRefine c = true ->
  (emptyVolumes c = [] -> substractEmptyAreas c = Some (grossVolume c)) /\
  (isGrid RefinedGridSize (emptyVolumes c) ->
   nonNegativeCells (emptyVolumes c) ->
   exists refined : R,
     substractEmptyAreas c = Some refined /\
     refined = Rmax 0 (grossVolume c - emptySum (cellArea c) (emptyVolumes c)) /\
     0 <= refined <= grossVolume c /\
     (allZeroCells (emptyVolumes c) -> refined = grossVolume c) /\
     (_width c <> 0 -> _depth c <> 0 -> _height c <> 0 ->
      refined = grossVolume c -> allZeroCells (emptyVolumes c))) /\
  (forall box : OrientedBox,
     createBox env c = Some box ->
     exists (t : list ScanEvent) (c' : Controller),
       refineCalculation env c = Returned t c' /\
       (success c' = true ->
        isGrid RefinedGridSize (emptyVolumes c') /\
        nonNegativeCells (emptyVolumes c') /\
        grossVolume c' = grossVolume c /\
        m_refinedVolume (calculateVolume c')
        = Rmax 0 (grossVolume c' - emptySum (cellArea c') (emptyVolumes c')) /\
        m_refinedVolume (calculateVolume c') <= m_volume (calculateVolume c'))).
Proof.
  intros Hcan. split; [|split].
  - intros He. unfold substractEmptyAreas. rewrite He. simpl.
    rewrite andb_false_r. reflexivity.
  - intros Hgrid Hpos.
    pose proof (grossVolume_nonneg c) as Hg.
    pose proof (emptySum_nonneg (cellArea_nonneg c) Hpos) as Hs.
    eexists. split; [apply substractEmptyAreas_grid; assumption|].
    split; [reflexivity|].
    split; [|split].
    + unfold Rmax. destruct (Rle_dec 0 _); lra.
    + intros Hz. rewrite (emptySum_zero _ Hz).
      unfold Rmax. destruct (Rle_dec 0 _); lra.
    + intros Hw Hd Hh Heq.
      assert (Ha : 0 < cellArea c).
      { unfold cellArea, RefinedGridSize.
        replace (INR 24) with 24 by (simpl; ring).
        pose proof (Rabs_pos_lt _ Hw). pose proof (Rabs_pos_lt _ Hd).
        apply Rmult_lt_0_compat; lra. }
      assert (Hv : 0 < grossVolume c).
      { unfold grossVolume.
        pose proof (Rabs_pos_lt _ Hw). pose proof (Rabs_pos_lt _ Hd).
        pose proof (Rabs_pos_lt _ Hh).
        apply Rmult_lt_0_compat; [apply Rmult_lt_0_compat|]; assumption. }
      apply emptySum_zero_inv with (cellArea c); auto.
      unfold Rmax in Heq. destruct (Rle_dec 0 _); lra.
  - intros box Hbox.
    destruct (refineCalculation_settles env c Hcan Hbox)
      as (t & c' & Hrun & _ & _ & _ & Hok & Hsame).
    exists t, c'. split; [exact Hrun|]. intros Hs.
    destruct (Hok Hs) as (Hdata & Hv & _).
    destruct Hsame as (Hstate & _ & _ & _ & Hw & Hd & Hh).
    assert (Hcan' : canRefine c' = true)
      by (unfold canRefine in *; rewrite Hstate; exact Hcan).
    assert (Hgrid : isGrid RefinedGridSize (emptyVolumes c')).
    { rewrite Hdata. apply plainScan_isGrid. apply gridPointsOf_isGrid. }
    assert (Hpos : nonNegativeCells (emptyVolumes c')).
    { rewrite Hdata. apply plainScan_nonNegative.
      unfold maxDistanceOf. apply distance_nonneg. }
    rewrite (substractEmptyAreas_grid c' Hcan' Hgrid) in Hv.
    injection Hv as Hv.
    split; [exact Hgrid|]. split; [exact Hpos|].
    split; [unfold grossVolume; rewrite Hw, Hd, Hh; reflexivity|].
    cbn [calculateVolume m_refinedVolume m_volume].
    fold (grossVolume c'). rewrite <- Hv. split; [reflexivity|].
    pose proof (grossVolume_nonneg c') as Hg.
    pose proof (emptySum_nonneg (cellArea_nonneg c') Hpos) as Hsum.
    unfold Rmax. destruct (Rle_dec 0 _); lra.
Qed.

Lemma refined_volume_formula_witness :
  exists refined : R,
    substractEmptyAreas refinedScenarioBox = Some refined /\
    0 <= refined <= grossVolume refinedScenarioBox.
Proof.
  destruct (@refined_volume_formula plainCollaborators refinedScenarioBox
              eq_refl) as (_ & H & _).
  destruct H as (refined & Hr & _ & Hb & _).
  - split; [apply repeat_length|].
    apply Forall_repeat. apply repeat_length.
  - apply Forall_repeat. apply Forall_repeat. lra.
  - exists refined. split; assumption.
Defined.

(** The bottom-face drag of [draggedTowerBox] brings the height to 0. *)
Lemma bottom_drag_state :
  handleDrag plainCollaborators (mkV3 0 0 0) draggedTowerBox
  = Returned EVENT_HANDLED (emitMeasurementUpdate (set_height 0 draggedTowerBox)).
Proof.
  unfold handleDrag, updateFaceSize. cbn -[RefinedGridSize clamp].
  destruct (Rlt_dec 1 0); [lra|].
  cbn -[RefinedGridSize clamp]. do 3 f_equal.
  assert (Hlt : Rltb 5 0 = false)
    by (unfold Rltb; destruct (Rlt_dec 5 0); [lra|reflexivity]).
  rewrite Hlt. cbn [orb].
  replace (normalize (mkV3 0 0 4)) with (mkV3 0 0 1).
  2:{ unfold normalize. rewrite (@length_of_square _ 4); [vec | lra |].
      unfold dot; simpl; ring. }
  replace (dot _ _) with 0 by (unfold dot; simpl; field).
  unfold clamp, MAX_SIZE, Rmax, Rmin.
  destruct (Rle_dec 10000 0); [lra|]. destruct (Rle_dec 0 0); lra.
Qed.

(** The drag of a width face of [widthDraggedTowerBox] brings the width
    to its lower limit and empties the grid. *)
Lemma width_drag_state :
  handleDrag plainCollaborators (mkV3 0 0 0) widthDraggedTowerBox
  = Returned EVENT_HANDLED
      (emitMeasurementUpdate
         (set_emptyVolumes [] (set_width (1 / 100) widthDraggedTowerBox))).
Proof.
  unfold handleDrag, updateFaceSize. cbn -[RefinedGridSize clamp].
  destruct (Rlt_dec 1 0); [lra|].
  cbn -[RefinedGridSize clamp].
  replace (clamp (dot _ _) (1 / 100) MAX_SIZE) with (1 / 100).
  - reflexivity.
  - replace (dot _ _) with 0 by (unfold dot; simpl; ring).
    unfold clamp, MAX_SIZE, Rmax, Rmin.
    destruct (Rle_dec 10000 0); [lra|]. destruct (Rle_dec (1 / 100) 0); lra.
Qed.

(** C2, as stated, fails.  The bottom-face drag of [draggedTowerBox]
    and the release after it leave a finalized box of height 0 that still
    holds the 24 x 24 grid of ones: its refined volume equals its gross
    volume, 0, although the grid is not empty and no cell is zero.  And
    the refined volume of the snapshot is not recomputed when a resize
    empties the grid: after the width drag of [widthDraggedTowerBox] the
    grid is empty, the snapshot still reports the refined volume 4, and
    the gross volume is 1/20. *)
Lemma degenerate_box_refined_equals_gross :
  (exists (c' : Controller) (s' : Session),
     handleDrag plainCollaborators (mkV3 0 0 0) draggedTowerBox
       = Returned EVENT_HANDLED c' /\
     handleButtonUp (newSession c') = Done EVENT_HANDLED s' /\
     canRefine (core s') = true /\
     isGrid RefinedGridSize (emptyVolumes (core s')) /\
     nonNegativeCells (emptyVolumes (core s')) /\
     substractEmptyAreas (core s') = Some (grossVolume (core s')) /\
     emptyVolumes (core s') <> [] /\
     ~ allZeroCells (emptyVolumes (core s'))) /\
  (exists c' : Controller,
     handleDrag plainCollaborators (mkV3 0 0 0) widthDraggedTowerBox
       = Returned EVENT_HANDLED c' /\
     emptyVolumes c' = [] /\
     m_refinedVolume (calculateVolume c') = 4 /\
     m_volume (calculateVolume c') = 1 / 20).
Proof.
  split.
  - eexists. eexists. split; [apply bottom_drag_state|].
    split; [reflexivity|]. cbn -[RefinedGridSize substractEmptyAreas grossVolume].
    assert (Hgrid : isGrid RefinedGridSize
                      (repeat (repeat 1 RefinedGridSize) RefinedGridSize)).
    { split; [apply repeat_length|].
      apply Forall_repeat. apply repeat_length. }
    split; [reflexivity|]. split; [exact Hgrid|].
    split; [apply Forall_repeat; apply Forall_repeat; lra|].
    split; [|split].
    + rewrite substractEmptyAreas_grid by (try reflexivity; exact Hgrid).
      f_equal.
      assert (Hg : forall c, _height c = 0 -> grossVolume c = 0).
      { intros c Hh. unfold grossVolume. rewrite Hh, Rabs_R0. ring. }
      rewrite Hg by reflexivity.
      apply Rmax_left.
      match goal with
      | |- 0 - emptySum ?a ?g <= 0 =>
          assert (0 <= emptySum a g)
            by (apply emptySum_nonneg;
                [apply cellArea_nonneg
                |apply Forall_repeat; apply Forall_repeat; lra]);
          lra
      end.
    + discriminate.
    + intros Hz. unfold RefinedGridSize in Hz. cbn [repeat] in Hz.
      inversion Hz as [|row rows Hrow _]. inversion Hrow as [|e es He _]. lra.
  - eexists. split; [apply width_drag_state|].
    split; [reflexivity|]. split; [reflexivity|].
    cbn [calculateVolume m_volume emitMeasurementUpdate emit set_emptyVolumes
         set_width widthDraggedTowerBox set_resizedFaceIndex set_state
         refinedTowerBox set_refinedVolumeCalculation towerBox set_height
         set_depth set_orientationComplement set_orientation set_firstCorner
         newController _width _depth _height].
    rewrite !Rabs_pos_eq by lra. field.
Qed.

(** * Further properties of the controller *)

(** ** Face resizing: what stays fixed *)

Lemma dimensionsChanged_state (c : Controller) :
  stateAfter (dimensionsChanged c) = set_emptyVolumes [] c.
Proof.
  unfold dimensionsChanged.
  repeat match goal with
         | |- context [if ?b then _ else _] => destruct b
         | |- context [match createPlane ?k with _ => _ end] => destruct (createPlane k)
         end; reflexivity.
Qed.

(** After the shared tail of the resize handlers only the grid and the
    log differ from the controller it started on. *)
Lemma resize_tail_state (c : Controller) :
  let c' := stateAfter ((dimensionsChanged ;;; modify emitMeasurementUpdate ;;;
                         ret EVENT_HANDLED) c) in
  map c' = map c /\ _state c' = _state c /\
  _firstCorner c' = _firstCorner c /\ _orientation c' = _orientation c /\
  _orientationComplement c' = _orientationComplement c /\
  _width c' = _width c /\ _depth c' = _depth c /\ _height c' = _height c.
Proof.
  cbv zeta. unfold bind, modify, ret.
  pose proof (dimensionsChanged_state c) as H.
  destruct (dimensionsChanged c) as [[] c1|c1]; cbn [stateAfter] in *; subst c1;
    repeat split.
Qed.



(** ** Face resizing: limits *)

Ltac split_positive :=
  repeat match goal with
         | |- context [match ?p with xH => _ | xO _ => _ | xI _ => _ end] =>
             destruct p
         end.

(** The direction [updateFaceSize] hands to the depth handlers. *)
Lemma updateFaceSize_cases (env : Collaborators) (viewPoint : V3) (c : Controller) :
  let direction := if Rlt_dec (_depth c) 0 then 1%Z else (-1)%Z in
  updateFaceSize env viewPoint c = Returned EVENT_IGNORED c \/
  updateFaceSize env viewPoint c = Thrown c \/
  exists centre : V3,
    updateFaceSize env viewPoint c
      = updateWidthFromFaceDragPrimary env viewPoint centre c \/
    updateFaceSize env viewPoint c
      = updateWidthFromFaceDragSecondary env viewPoint centre c \/
    updateFaceSize env viewPoint c
      = updateDepthFromFaceDragPrimary env viewPoint centre direction c \/
    updateFaceSize env viewPoint c
      = updateDepthFromFaceDragSecondary env viewPoint centre direction c \/
    updateFaceSize env viewPoint c
      = updateHeightFromTopFaceDrag env viewPoint centre c.
Proof.
  cbv zeta. unfold updateFaceSize.
  destruct (negb (isSome (map c)) || (resizedFaceIndex c <=? -1)%Z); [auto|].
  destruct (createBox env c) as [box|]; [|auto].
  destruct ((resizedFaceIndex c <? 0)%Z || (6 <=? resizedFaceIndex c)%Z); [auto|].
  destruct (Rlt_dec (_depth c) 0);
    destruct (resizedFaceIndex c) as [|idx|idx]; auto;
    try (right; right; eexists; eauto 6; fail);
    split_positive; auto; right; right; eexists; eauto 6.
Qed.

Lemma MINMAX_bounds (direction : Z) (v : R) :
  let d := clamp v (fst (MINMAX direction)) (snd (MINMAX direction)) in
  (direction = 1%Z -> - MAX_SIZE <= d <= - (1 / 100)) /\
  (direction <> 1%Z -> 1 / 100 <= d <= MAX_SIZE).
Proof.
  cbv zeta. unfold MINMAX. split; intros H.
  - subst. cbn. apply clamp_bounds. unfold MAX_SIZE. lra.
  - destruct (direction =? 1)%Z eqn:E; [apply Z.eqb_eq in E; contradiction|].
    cbn. apply clamp_bounds. unfold MAX_SIZE. lra.
Qed.

(** What a width handler leaves behind. *)
Lemma width_handlers_limits (env : Collaborators) (viewPoint centre : V3)
    (c : Controller) :
  forall c',
    c' = stateAfter (updateWidthFromFaceDragPrimary env viewPoint centre c) \/
    c' = stateAfter (updateWidthFromFaceDragSecondary env viewPoint centre c) ->
    _depth c' = _depth c /\ _height c' = _height c /\
    (_width c' = _width c \/ 1 / 100 <= _width c' <= MAX_SIZE).
Proof.
  unfold updateWidthFromFaceDragPrimary, updateWidthFromFaceDragSecondary.
  intros c' [H|H]; subst c';
    destruct (map c) as [m|]; try (cbn; auto; fail);
    destruct (_firstCorner c) as [p|]; try (cbn; auto; fail);
    destruct (_orientation c) as [o|]; try (cbn; auto; fail);
    destruct (rayPlaneIntersection env _ _ _ _) as [worldPoint|];
    try (cbn; auto; fail);
    match goal with
    | |- context [stateAfter (?tail ?k)] =>
        destruct (resize_tail_state k) as (_ & _ & _ & _ & _ & H2 & H3 & H4)
    end;
    rewrite H2, H3, H4; cbn; (split; [reflexivity|split; [reflexivity|right]]);
    apply clamp_bounds; unfold MAX_SIZE; lra.
Qed.

(** What a depth handler leaves behind. *)
Lemma depth_handlers_limits (env : Collaborators) (viewPoint centre : V3)
    (direction : Z) (c : Controller) :
  forall c',
    c' = stateAfter (updateDepthFromFaceDragPrimary env viewPoint centre direction c) \/
    c' = stateAfter (updateDepthFromFaceDragSecondary env viewPoint centre direction c) ->
    _width c' = _width c /\ _height c' = _height c /\
    (_depth c' = _depth c \/
     (direction = 1%Z /\ - MAX_SIZE <= _depth c' <= - (1 / 100)) \/
     (direction <> 1%Z /\ 1 / 100 <= _depth c' <= MAX_SIZE)).
Proof.
  unfold updateDepthFromFaceDragPrimary, updateDepthFromFaceDragSecondary.
  intros c' [H|H]; subst c';
    destruct (map c) as [m|]; try (cbn; auto; fail);
    destruct (_firstCorner c) as [p|]; try (cbn; auto; fail);
    destruct (_orientation c) as [o|]; try (cbn; auto; fail);
    destruct (rayPlaneIntersection env _ _ _ _) as [worldPoint|];
    try (cbn; auto; fail);
    (destruct (_orientationComplement c) as [oc|]; [|cbn; auto]);
    match goal with
    | |- context [stateAfter (?tail ?k)] =>
        destruct (resize_tail_state k) as (_ & _ & _ & _ & _ & H2 & H3 & H4)
    end;
    rewrite H2, H3, H4; cbn [_width _height _depth set_depth set_firstCorner];
    (split; [reflexivity|split; [reflexivity|right]]);
    match goal with
    | |- context [clamp ?v _ _] =>
        destruct (MINMAX_bounds direction v) as [Hone Hother]
    end;
    (destruct (Z.eq_dec direction 1) as [E|E]; [left|right]; split; auto).
Qed.

Lemma height_handler_limits (env : Collaborators) (viewPoint centre : V3)
    (c : Controller) :
  let c' := stateAfter (updateHeightFromTopFaceDrag env viewPoint centre c) in
  _width c' = _width c /\ _depth c' = _depth c /\
  (_height c' = _height c \/ 0 <= _height c' <= MAX_SIZE).
Proof.
  cbv zeta. unfold updateHeightFromTopFaceDrag.
  destruct (map c), (_firstCorner c), (_orientation c),
    (_orientationComplement c); try (cbn; auto; fail).
  destruct (rayPlaneIntersection env _ _ _ _); cbn; auto.
  split; [reflexivity|split; [reflexivity|right]].
  apply clamp_bounds. unfold MAX_SIZE. lra.
Qed.

(** X2: a face drag never flips the box: the depth is negative after
    [updateFaceSize] exactly when it was negative before; an extent the
    drag changed lies within its limits, width in [0.01, MAX_SIZE], depth
    at least 0.01 and at most MAX_SIZE in size, height in [0, MAX_SIZE]. *)
Theorem face_drag_keeps_depth_sign (env : Collaborators) (viewPoint : V3)
    (c : Controller) :
  let c' := stateAfter (updateFaceSize env viewPoint c) in
  (_depth c' < 0 <-> _depth c < 0) /\
  (_width c' = _width c \/ 1 / 100 <= _width c' <= MAX_SIZE) /\
  (_depth c' = _depth c \/ 1 / 100 <= Rabs (_depth c') <= MAX_SIZE) /\
  (_height c' = _height c \/ 0 <= _height c' <= MAX_SIZE).
Proof.
  cbv zeta.
  destruct (updateFaceSize_cases env viewPoint c)
    as [H|[H|(centre & [H|[H|[H|[H|H]]]])]]; rewrite H; clear H.
  - cbn. repeat split; auto.
  - cbn. repeat split; auto.
  - destruct (@width_handlers_limits env viewPoint centre c _ (or_introl eq_refl))
      as (Hd & Hh & Hw). rewrite Hd, Hh. repeat split; auto.
  - destruct (@width_handlers_limits env viewPoint centre c _ (or_intror eq_refl))
      as (Hd & Hh & Hw). rewrite Hd, Hh. repeat split; auto.
  - destruct (@depth_handlers_limits env viewPoint centre
                (if Rlt_dec (_depth c) 0 then 1%Z else (-1)%Z) c _ (or_introl eq_refl))
      as (Hw & Hh & Hd). rewrite Hw, Hh.
    destruct (Rlt_dec (_depth c) 0);
      destruct Hd as [Hd|[[E Hd]|[E Hd]]]; try discriminate; try congruence;
      try rewrite Hd; unfold MAX_SIZE in *;
      (split; [split; intros; lra|]);
      (split; [auto|split; [|auto]]); auto; right;
      try (rewrite Rabs_left by lra; lra); try (rewrite Rabs_pos_eq by lra; lra).
  - destruct (@depth_handlers_limits env viewPoint centre
                (if Rlt_dec (_depth c) 0 then 1%Z else (-1)%Z) c _ (or_intror eq_refl))
      as (Hw & Hh & Hd). rewrite Hw, Hh.
    destruct (Rlt_dec (_depth c) 0);
      destruct Hd as [Hd|[[E Hd]|[E Hd]]]; try discriminate; try congruence;
      try rewrite Hd; unfold MAX_SIZE in *;
      (split; [split; intros; lra|]);
      (split; [auto|split; [|auto]]); auto; right;
      try (rewrite Rabs_left by lra; lra); try (rewrite Rabs_pos_eq by lra; lra).
  - destruct (height_handler_limits env viewPoint centre c) as (Hw & Hd & Hh).
    rewrite Hw, Hd. repeat split; auto.
Qed.

(** ** Translation *)

Lemma set_firstCorner_same (c : Controller) (p : V3) :
  _firstCorner c = Some p -> set_firstCorner (Some p) c = c.
Proof. destruct c; cbn; intros ->; reflexivity. Qed.

Lemma agree_same (scale a : R) : 0 <= scale -> agree scale a a.
Proof.
  intros H. unfold agree. replace (a - a) with 0 by ring. rewrite Rabs_R0.
  apply Rmult_le_pos; [exact H|]. left. apply Rinv_0_lt_compat.
  apply pow_lt. lra.
Qed.

(** X3: on a controller with a map, an anchor and both directions, two
    translations in a row and the one translation by the sum of the two
    vectors both return and leave controllers that differ in the anchor
    only, and there by rounding at most: each coordinate agrees at the
    scale of the magnitudes added.  A translation followed by the
    opposite one returns and gives the controller back, the anchor up to
    rounding in the same sense. *)
Theorem translations_compose (c : Controller) (m : Map)
    (p o oc t1 t2 : V3) :
  map c = Some m -> _firstCorner c = Some p ->
  _orientation c = Some o -> _orientationComplement c = Some oc ->
  exists p12 p3 p0 : V3,
    (applyTranslation t1 ;;; applyTranslation t2) c
      = Returned tt (set_firstCorner (Some p12) c) /\
    applyTranslation (add t1 t2) c
      = Returned tt (set_firstCorner (Some p3) c) /\
    (applyTranslation t1 ;;; applyTranslation (scale t1 (-1))) c
      = Returned tt (set_firstCorner (Some p0) c) /\
    agree (Rabs (x p) + Rabs (x t1) + Rabs (x t2)) (x p12) (x p3) /\
    agree (Rabs (y p) + Rabs (y t1) + Rabs (y t2)) (y p12) (y p3) /\
    agree (Rabs (z p) + Rabs (z t1) + Rabs (z t2)) (z p12) (z p3) /\
    agree (Rabs (x p) + Rabs (x t1)) (x p0) (x p) /\
    agree (Rabs (y p) + Rabs (y t1)) (y p0) (y p) /\
    agree (Rabs (z p) + Rabs (z t1)) (z p0) (z p).
Proof.
  intros Hm Hp Ho Hoc. unfold bind, applyTranslation.
  rewrite Ho, Hoc, Hp. unfold createPlane. cbn.
  repeat (progress (rewrite ?Hm, ?Ho, ?Hoc; cbn)).
  eexists _, _, _.
  split; [reflexivity|]. split; [reflexivity|]. split; [reflexivity|].
  cbn [x y z add scale].
  pose proof (Rabs_pos (x p)). pose proof (Rabs_pos (y p)).
  pose proof (Rabs_pos (z p)). pose proof (Rabs_pos (x t1)).
  pose proof (Rabs_pos (y t1)). pose proof (Rabs_pos (z t1)).
  pose proof (Rabs_pos (x t2)). pose proof (Rabs_pos (y t2)).
  pose proof (Rabs_pos (z t2)).
  repeat split;
    match goal with
    | |- agree ?s ?a ?b =>
        replace a with b by ring; apply agree_same; lra
    end.
Qed.

Lemma translations_compose_witness :
  exists p12 p3 : V3,
    (applyTranslation (mkV3 1 2 3) ;;; applyTranslation (mkV3 4 5 6)) towerBox
      = Returned tt (set_firstCorner (Some p12) towerBox) /\
    applyTranslation (add (mkV3 1 2 3) (mkV3 4 5 6)) towerBox
      = Returned tt (set_firstCorner (Some p3) towerBox) /\
    agree (Rabs 4 + Rabs 3 + Rabs 6) (z p12) (z p3).
Proof.
  destruct (@translations_compose towerBox plainMap (mkV3 0 0 4) (mkV3 1 0 0)
              (mkV3 0 (-1) 0) (mkV3 1 2 3) (mkV3 4 5 6)
              eq_refl eq_refl eq_refl eq_refl)
    as (p12 & p3 & p0 & H12 & H3 & _ & _ & _ & Hz & _).
  exists p12, p3. repeat split; assumption.
Defined.

(** ** Standardization and the snapshot *)

(** X4: [standardizePlane] never changes what is measured: width, depth,
    height, area, volume and refined volume of the snapshot are the same
    after it as before, whether it returns or throws. *)
Theorem standardizePlane_keeps_snapshot (c : Controller) :
  calculateVolume (stateAfter (standardizePlane c)) = calculateVolume c.
Proof.
  unfold standardizePlane.
  destruct (Rlt_dec (_depth c) 0); [|reflexivity].
  destruct (map c), (_firstCorner c), (_orientationComplement c),
    (_orientation c); try reflexivity.
  unfold calculateVolume. cbn. rewrite Rabs_Rabsolu. reflexivity.
Qed.

(** ** Refined volume at the edges *)

Lemma sumRow_NaN (a : R) (row : list R) (n j : nat) :
  sumRow a row j n None = None.
Proof. revert j. induction n as [|n IH]; intros j; cbn; [reflexivity|apply IH]. Qed.

(** A row that ends before the loop does turns the sum into NaN. *)
Lemma sumRow_short (a : R) (row : list R) (n j : nat) (acc : option R) :
  (j <= List.length row)%nat -> (List.length row < j + n)%nat ->
  sumRow a row j n acc = None.
Proof.
  revert j acc. induction n as [|n IH]; intros j acc Hj H; cbn.
  - lia.
  - destruct (nth_error row j) as [e|] eqn:He.
    + apply IH; [|lia].
      assert (j < List.length row)%nat
        by (apply nth_error_Some; rewrite He; discriminate).
      lia.
    + destruct acc; apply sumRow_NaN.
Qed.

Lemma sumRows_missing_row (a : R) (grid : list (list R)) (n i : nat)
    (acc : option R) :
  (i <= List.length grid)%nat -> (List.length grid < i + n)%nat ->
  sumRows a grid i n acc = None.
Proof.
  revert i acc. induction n as [|n IH]; intros i acc Hi H; cbn [sumRows].
  - lia.
  - destruct (nth_error grid i) as [row|] eqn:Hrow; [|reflexivity].
    apply IH; [|lia].
    assert (i < List.length grid)%nat
      by (apply nth_error_Some; rewrite Hrow; discriminate).
    lia.
Qed.

Lemma sumRows_NaN (a : R) (grid : list (list R)) (n i : nat) :
  (i + n <= List.length grid)%nat -> sumRows a grid i n None = Some None.
Proof.
  revert i. induction n as [|n IH]; intros i H; cbn [sumRows]; [reflexivity|].
  destruct (nth_error grid i) as [row|] eqn:Hrow.
  - rewrite sumRow_NaN. apply IH. lia.
  - apply nth_error_None in Hrow. lia.
Qed.

Lemma sumRows_short_row (a : R) (grid : list (list R)) (n i k : nat)
    (row : list R) (acc : option R) :
  (i + n <= List.length grid)%nat ->
  (i <= k < i + n)%nat ->
  nth_error grid k = Some row ->
  (List.length row < RefinedGridSize)%nat ->
  sumRows a grid i n acc = Some None.
Proof.
  revert i acc. induction n as [|n IH]; intros i acc Hlen Hk Hrow Hshort;
    cbn [sumRows]; [lia|].
  destruct (nth_error grid i) as [row0|] eqn:Hrow0.
  - destruct (Nat.eq_dec i k) as [->|Hne].
    + rewrite Hrow in Hrow0. injection Hrow0 as <-.
      rewrite sumRow_short by lia. apply sumRows_NaN. lia.
    + apply IH; try assumption; lia.
  - apply nth_error_None in Hrow0. lia.
Qed.

(** X5: [substractEmptyAreas] at the edges.  Outside VOLUME_DEFINED it
    returns the gross volume whatever the grid holds.  On a finalized box
    a grid that is not empty but has fewer than 24 rows makes it throw,
    and a grid with at least 24 rows one of whose first 24 rows has fewer
    than 24 cells makes the sum NaN and the result 0. *)
Theorem substractEmptyAreas_edges (c : Controller) :
  (canRefine c = false -> substractEmptyAreas c = Some (grossVolume c)) /\
  (canRefine c = true ->
   (0 < List.length (emptyVolumes c) < RefinedGridSize)%nat ->
   substractEmptyAreas c = None) /\
  (canRefine c = true ->
   (RefinedGridSize <= List.length (emptyVolumes c))%nat ->
   forall (k : nat) (row : list R),
     (k < RefinedGridSize)%nat ->
     nth_error (emptyVolumes c) k = Some row ->
     (List.length row < RefinedGridSize)%nat ->
     substractEmptyAreas c = Some 0).
Proof.
  unfold substractEmptyAreas. split; [|split].
  - intros ->. reflexivity.
  - intros -> [Hpos Hlt].
    assert (E : (0 <? List.length (emptyVolumes c))%nat = true)
      by (apply Nat.ltb_lt; exact Hpos).
    rewrite E. cbn [andb].
    rewrite sumRows_missing_row by lia. reflexivity.
  - intros -> Hlen k row Hk Hrow Hshort.
    assert (E : (0 <? List.length (emptyVolumes c))%nat = true)
      by (apply Nat.ltb_lt; unfold RefinedGridSize in Hlen; lia).
    rewrite E. cbn [andb].
    rewrite (@sumRows_short_row _ (emptyVolumes c) RefinedGridSize 0 k row)
      by (assumption || lia).
    reflexivity.
Qed.

Lemma substractEmptyAreas_edges_witness :
  substractEmptyAreas (set_emptyVolumes [[1]] towerBox) = None /\
  substractEmptyAreas
    (set_emptyVolumes ([] :: repeat (repeat 1 RefinedGridSize) 23) towerBox)
    = Some 0.
Proof.
  split.
  - apply (proj1 (proj2 (substractEmptyAreas_edges
                           (set_emptyVolumes [[1]] towerBox)))).
    + reflexivity.
    + unfold RefinedGridSize. cbn [emptyVolumes set_emptyVolumes List.length]. lia.
  - apply (proj2 (proj2 (substractEmptyAreas_edges
             (set_emptyVolumes ([] :: repeat (repeat 1 RefinedGridSize) 23)
                towerBox))) eq_refl) with (k := 0%nat) (row := @nil R).
    + cbn [emptyVolumes set_emptyVolumes List.length]. rewrite repeat_length.
      unfold RefinedGridSize. lia.
    + unfold RefinedGridSize. lia.
    + reflexivity.
    + unfold RefinedGridSize. cbn [List.length]. lia.
Defined.

(** ** Refined volume and the grid *)

Lemma rowSum_le (a : R) (row1 row2 : list R) :
  0 <= a -> Forall2 Rle row1 row2 -> rowSum a row1 <= rowSum a row2.
Proof.
  intros Ha H. induction H as [|e1 e2 r1 r2 He _ IH]; unfold rowSum in *; cbn;
    [lra|nra].
Qed.

Lemma emptySum_le (a : R) (g1 g2 : list (list R)) :
  0 <= a -> cellsBelow g1 g2 -> emptySum a g1 <= emptySum a g2.
Proof.
  intros Ha H. induction H as [|r1 r2 g1 g2 Hr _ IH].
  - lra.
  - rewrite !emptySum_cons. pose proof (rowSum_le Ha Hr). lra.
Qed.

(** X6: on a finalized box the refined volume never grows when empty
    heights grow: if one full grid is cell by cell at most another, the
    refined volume of the second is at most that of the first. *)
Theorem refined_volume_monotone (c : Controller) (g1 g2 : list (list R)) :
  canRefine c = true ->
  isGrid RefinedGridSize g1 ->
  isGrid RefinedGridSize g2 ->
  cellsBelow g1 g2 ->
  exists v1 v2 : R,
    substractEmptyAreas (set_emptyVolumes g1 c) = Some v1 /\
    substractEmptyAreas (set_emptyVolumes g2 c) = Some v2 /\
    v2 <= v1.
Proof.
  intros Hcan H1 H2 Hle.
  pose proof (@substractEmptyAreas_grid (set_emptyVolumes g1 c) Hcan H1) as E1.
  pose proof (@substractEmptyAreas_grid (set_emptyVolumes g2 c) Hcan H2) as E2.
  change (grossVolume (set_emptyVolumes g1 c)) with (grossVolume c) in E1.
  change (grossVolume (set_emptyVolumes g2 c)) with (grossVolume c) in E2.
  change (cellArea (set_emptyVolumes g1 c)) with (cellArea c) in E1.
  change (cellArea (set_emptyVolumes g2 c)) with (cellArea c) in E2.
  cbn [emptyVolumes set_emptyVolumes] in E1, E2.
  eexists _, _. split; [exact E1|]. split; [exact E2|].
  pose proof (emptySum_le (cellArea_nonneg c) Hle).
  unfold Rmax. repeat destruct (Rle_dec _ _); lra.
Qed.

Lemma Forall2_repeat {A B : Type} (P : A -> B -> Prop) (a : A) (b : B)
    (n : nat) :
  P a b -> Forall2 P (repeat a n) (repeat b n).
Proof. intros H. induction n; cbn; constructor; assumption. Qed.

Lemma refined_volume_monotone_witness :
  exists v1 v2 : R,
    substractEmptyAreas
      (set_emptyVolumes (repeat (repeat 1 RefinedGridSize) RefinedGridSize)
                        towerBox) = Some v1 /\
    substractEmptyAreas
      (set_emptyVolumes (repeat (repeat 2 RefinedGridSize) RefinedGridSize)
                        towerBox) = Some v2 /\
    v2 <= v1.
Proof.
  apply (@refined_volume_monotone towerBox
           (repeat (repeat 1 RefinedGridSize) RefinedGridSize)
           (repeat (repeat 2 RefinedGridSize) RefinedGridSize) eq_refl).
  - split; [apply repeat_length|]. apply Forall_repeat. apply repeat_length.
  - split; [apply repeat_length|]. apply Forall_repeat. apply repeat_length.
  - apply Forall2_repeat. apply Forall2_repeat. lra.
Defined.

(** ** A refinement run, counted *)

Lemma progressReports_app (t u : list ScanEvent) :
  progressReports (t ++ u) = progressReports t ++ progressReports u.
Proof.
  induction t as [|[point|percent] t IH]; cbn; rewrite ?IH; reflexivity.
Qed.

Lemma progressReports_Sampled (l : list V3) :
  progressReports (List.map Sampled l) = [].
Proof. induction l as [|point l IH]; cbn; [reflexivity|exact IH]. Qed.

Lemma progressReports_serpentineTrace (rows : list (list V3)) (i : nat) :
  progressReports (serpentineTrace i rows)
    = List.map progressAfter (seq (S i) (List.length rows)).
Proof.
  revert i. induction rows as [|row rest IH]; intros i; cbn [serpentineTrace];
    [reflexivity|].
  rewrite !progressReports_app, progressReports_Sampled.
  cbn. rewrite IH. reflexivity.
Qed.

Lemma length_serpentine (n : nat) (rows : list (list V3)) (i : nat) :
  Forall (fun row => List.length row = n) rows ->
  List.length (serpentine i rows) = (n * List.length rows)%nat.
Proof.
  intros H. revert i. induction H as [|row rest Hrow _ IH]; intros i; cbn.
  - lia.
  - rewrite length_app, rowOrder_length, IH, Hrow. lia.
Qed.

(** X7: a refinement run that nobody aborts moves the camera to exactly
    576 points and reports progress 24 times, 100 * k / 24 for k = 1, ...,
    24 in this order, so that the last report is 100. *)
Theorem undisturbed_run_counts (env : Collaborators) (c : Controller)
    (box : OrientedBox) :
  canRefine c = true ->
  createBox env c = Some box ->
  (forall n, userAborts env n = false) ->
  exists (t : list ScanEvent) (c' : Controller),
    refineCalculation env c = Returned t c' /\
    List.length (sampledPoints t) = 576%nat /\
    progressReports t = List.map (fun k => 100 * INR k / 24) (seq 1 24) /\
    last (progressReports t) 0 = 100.
Proof.
  intros Hcan Hbox Hnever.
  destruct (refineCalculation_settles env c Hcan Hbox)
    as (t & c' & Hrun & Hiff & _ & _ & Hok & _).
  rewrite abortedDuring_never in Hiff by assumption.
  destruct (Hok Hiff) as (_ & _ & _ & Ht).
  destruct (gridPointsOf_isGrid box) as [Hlen Hrows].
  exists t, c'. split; [exact Hrun|]. subst t.
  rewrite sampledPoints_serpentineTrace, (length_serpentine 0 Hrows), Hlen.
  rewrite progressReports_serpentineTrace, Hlen.
  assert (E : List.map progressAfter (seq 1 RefinedGridSize)
              = List.map (fun k => 100 * INR k / 24) (seq 1 24)).
  { apply map_ext. intros k. unfold progressAfter, RefinedGridSize.
    replace (INR 24) with 24 by (simpl; ring). reflexivity. }
  rewrite E. split; [reflexivity|]. split; [reflexivity|].
  cbn [seq List.map last]. simpl INR. field.
Qed.

Lemma undisturbed_run_counts_witness :
  exists (t : list ScanEvent) (c' : Controller),
    refineCalculation plainCollaborators towerBox = Returned t c' /\
    List.length (sampledPoints t) = 576%nat.
Proof.
  destruct (@undisturbed_run_counts plainCollaborators towerBox _ eq_refl
              towerBox_box (fun _ => eq_refl)) as (t & c' & Hrun & Hn & _).
  exists t, c'. split; assumption.
Defined.

(** X8: a refinement run on a finalized box whose box can be built ends
    successful exactly when the abort button was not pressed during any
    of its first 552 camera moves, those of rows 0 to 22; a press during
    the last row goes unnoticed. *)
Theorem run_succeeds_iff_no_early_abort (env : Collaborators) (c : Controller)
    (box : OrientedBox) :
  canRefine c = true ->
  createBox env c = Some box ->
  exists (t : list ScanEvent) (c' : Controller),
    refineCalculation env c = Returned t c' /\
    (success c' = true <-> forall n, (n < 552)%nat -> userAborts env n = false).
Proof.
  intros Hcan Hbox.
  destruct (refineCalculation_settles env c Hcan Hbox)
    as (t & c' & Hrun & Hiff & _).
  exists t, c'. split; [exact Hrun|]. rewrite Hiff.
  change (RefinedGridSize * (RefinedGridSize - 1))%nat with 552%nat.
  unfold abortedDuring. rewrite negb_true_iff.
  split.
  - intros H n Hn.
    destruct (userAborts env n) eqn:E; [|reflexivity].
    assert (existsb (userAborts env) (seq 0 552) = true).
    { apply existsb_exists. exists n. split; [apply in_seq; lia|exact E]. }
    congruence.
  - intros H. destruct (existsb (userAborts env) (seq 0 552)) eqn:E; [|reflexivity].
    apply existsb_exists in E as (n & Hin & Hn). apply in_seq in Hin.
    rewrite H in Hn by lia. discriminate.
Qed.

(** A user who presses abort during camera move 560, in the last row. *)
Lemma run_succeeds_iff_no_early_abort_witness :
  exists (t : list ScanEvent) (c' : Controller),
    refineCalculation
      (mkCollaborators
         (rayPlaneIntersection plainCollaborators)
         (distanceAlongDirection plainCollaborators)
         (rotateAroundAxis plainCollaborators)
         (rotatePointAroundLine plainCollaborators)
         (angle plainCollaborators)
         (createOrientedBox plainCollaborators)
         (createFacePolygons plainCollaborators)
         (fun n => (n =? 560)%nat)) towerBox = Returned t c' /\
    success c' = true.
Proof.
  destruct (@run_succeeds_iff_no_early_abort
              (mkCollaborators
                 (rayPlaneIntersection plainCollaborators)
                 (distanceAlongDirection plainCollaborators)
                 (rotateAroundAxis plainCollaborators)
                 (rotatePointAroundLine plainCollaborators)
                 (angle plainCollaborators)
                 (createOrientedBox plainCollaborators)
                 (createFacePolygons plainCollaborators)
                 (fun n => (n =? 560)%nat)) towerBox _ eq_refl towerBox_box)
    as (t & c' & Hrun & Hiff).
  exists t, c'. split; [exact Hrun|]. apply Hiff.
  intros n Hn. cbn. apply Nat.eqb_neq. lia.
Defined.

(** ** The box that is drawn *)

(** X9: [createBox] throws exactly when the map, the anchor or one of
    the two directions is missing.  Otherwise the box handed to the shape
    factory sits at the anchor, is never offset upward, and has a
    footprint of width times |depth| and a height of |height|, doubled
    while shift is held. *)
Theorem createBox_extents (env : Collaborators) (c : Controller) :
  (createBox env c = None <->
   map c = None \/ _firstCorner c = None \/ _orientation c = None \/
   _orientationComplement c = None) /\
  (forall box : OrientedBox,
     createBox env c = Some box ->
     exists (p : V3) (azimuth : R) (offset size : V3),
       _firstCorner c = Some p /\
       box = createOrientedBox env p azimuth offset size /\
       x offset = 0 /\ y offset = 0 /\ z offset <= 0 /\
       x size * y size = _width c * Rabs (_depth c) /\
       z size = Rabs (_height c) * (if _shiftPressed c then 2 else 1)).
Proof.
  unfold createBox, createBoxFromParameters. split.
  - destruct (map c), (_firstCorner c), (_orientation c),
      (_orientationComplement c); split; intros H; try discriminate; auto;
      destruct H as [H|[H|[H|H]]]; discriminate.
  - intros box H.
    destruct (map c) as [m|]; [|discriminate].
    destruct (_firstCorner c) as [p|]; [|discriminate].
    destruct (_orientation c) as [o|]; [|discriminate].
    destruct (_orientationComplement c) as [oc|]; [|discriminate].
    injection H as <-. eexists p, _, _, _.
    split; [reflexivity|]. split; [reflexivity|]. cbn [x y z].
    split; [reflexivity|]. split; [reflexivity|].
    split; [|split].
    + pose proof (Rabs_pos (_height c)).
      destruct (Rltb (_height c) 0 || _shiftPressed c); lra.
    + destruct (Rlt_dec (_depth c) 0); ring.
    + destruct (_shiftPressed c).
      * rewrite Rabs_mult, (Rabs_pos_eq 2) by lra. reflexivity.
      * ring.
Qed.

(** ** The frame of the box *)












(** ** The construction steps *)

(** X11: each hover step of the construction changes one thing only and
    keeps it within limits.  [updateCorner] touches only the anchor;
    [updateWidth] leaves anchor, depth and height alone and sets a width
    in [0, MAX_SIZE]; [updatePlane] touches only the depth and sets it in
    [-MAX_SIZE, MAX_SIZE]; [updateHeight] touches only the height and
    sets it in [0, MAX_SIZE].  A step whose ray misses its plane, and a
    corner step whose surface lookup is out of bounds, return and change
    nothing.  A step whose ray hits sets its extent from the hit point,
    cut at its limits, and emits one update. *)
Theorem construction_steps_limits (env : Collaborators) (view : Pointing)
    (viewPoint : V3) (c : Controller) :
  (let c' := stateAfter (updateCorner view viewPoint c) in
   _width c' = _width c /\ _depth c' = _depth c /\ _height c' = _height c /\
   _orientation c' = _orientation c /\
   _orientationComplement c' = _orientationComplement c /\
   _state c' = _state c /\ emitted c' = emitted c) /\
  (let c' := stateAfter (updateWidth env viewPoint c) in
   _firstCorner c' = _firstCorner c /\ _depth c' = _depth c /\
   _height c' = _height c /\ _state c' = _state c /\
   (c' = c \/ 0 <= _width c' <= MAX_SIZE)) /\
  (let c' := stateAfter (updatePlane env viewPoint c) in
   _firstCorner c' = _firstCorner c /\ _width c' = _width c /\
   _height c' = _height c /\ _orientation c' = _orientation c /\
   _orientationComplement c' = _orientationComplement c /\
   _state c' = _state c /\
   (c' = c \/ - MAX_SIZE <= _depth c' <= MAX_SIZE)) /\
  (let c' := stateAfter (updateHeight env viewPoint c) in
   _firstCorner c' = _firstCorner c /\ _width c' = _width c /\
   _depth c' = _depth c /\ _orientation c' = _orientation c /\
   _orientationComplement c' = _orientationComplement c /\
   _state c' = _state c /\
   (c' = c \/ 0 <= _height c' <= MAX_SIZE)) /\
  (closestSurfaceUnder view viewPoint = OutOfBoundsError ->
   updateCorner view viewPoint c = Returned tt c) /\
  (forall (m : Map) (p : V3),
     map c = Some m -> _firstCorner c = Some p ->
     let hit := rayPlaneIntersection env (camera_eye m)
                  (calculatePointingDirection m viewPoint) p p in
     (hit = None -> updateWidth env viewPoint c = Returned tt c) /\
     (forall worldPoint, hit = Some worldPoint ->
        exists c', updateWidth env viewPoint c = Returned tt c' /\
                   _width c' = Rmin MAX_SIZE (Rabs (distance p worldPoint)) /\
                   emitted c' = emitted c ++ [VOLUME_MEASUREMENT_UPDATE]) /\
     forall o oc : V3,
       _orientation c = Some o -> _orientationComplement c = Some oc ->
       (hit = None -> updatePlane env viewPoint c = Returned tt c) /\
       (forall worldPoint, hit = Some worldPoint ->
          exists c', updatePlane env viewPoint c = Returned tt c' /\
                     _depth c' = clamp (distanceAlongDirection env worldPoint p oc)
                                       (- MAX_SIZE) MAX_SIZE /\
                     emitted c' = emitted c ++ [VOLUME_MEASUREMENT_UPDATE])) /\
  (forall (m : Map) (p o oc : V3),
     map c = Some m -> _firstCorner c = Some p ->
     _orientation c = Some o -> _orientationComplement c = Some oc ->
     let hit := rayPlaneIntersection env (camera_eye m)
                  (calculatePointingDirection m viewPoint)
                  (normalize (cross (cross (camera_forward m) (camera_up m)) p))
                  (add p (add (scale o (_width c)) (scale oc (_depth c)))) in
     (hit = None -> updateHeight env viewPoint c = Returned tt c) /\
     (forall worldPoint, hit = Some worldPoint ->
        exists c', updateHeight env viewPoint c = Returned tt c' /\
                   _height c' = clamp (distanceAlongDirection env worldPoint p p)
                                      0 MAX_SIZE /\
                   emitted c' = emitted c ++ [VOLUME_MEASUREMENT_UPDATE])).
Proof.
  cbv zeta. split; [|split; [|split; [|split; [|split; [|split]]]]].
  7:{ intros m p o oc Hm Hp Ho Hoc. unfold updateHeight.
      rewrite Hm, Hp, Ho, Hoc. split.
      - intros ->. reflexivity.
      - intros worldPoint ->. eexists. split; [reflexivity|].
        split; reflexivity. }
  6:{ intros m p Hm Hp. unfold updateWidth, updatePlane. rewrite Hm, Hp.
      split; [intros ->; reflexivity|]. split.
      - intros worldPoint ->. eexists. split; [reflexivity|].
        split; reflexivity.
      - intros o oc Ho Hoc. rewrite Ho, Hoc. split.
        + intros ->. reflexivity.
        + intros worldPoint ->. eexists. split; [reflexivity|].
          split; reflexivity. }
  5:{ intros Hmiss. unfold updateCorner. rewrite Hmiss. reflexivity. }
  - unfold updateCorner.
    destruct (closestSurfaceUnder view viewPoint); cbn; repeat split.
  - unfold updateWidth.
    destruct (map c) as [m|]; [|cbn; repeat split; auto].
    destruct (_firstCorner c) as [p|] eqn:Hp; [|cbn; repeat split; auto].
    destruct (rayPlaneIntersection env _ _ _ _) as [worldPoint|];
      [|cbn; repeat split; auto].
    cbn. split; [exact Hp|]. do 3 (split; [reflexivity|]). right.
    pose proof (Rabs_pos (distance p worldPoint)).
    unfold Rmin, MAX_SIZE. destruct (Rle_dec _ _); lra.
  - unfold updatePlane.
    destruct (map c) as [m|]; [|cbn; repeat split; auto].
    destruct (_firstCorner c) as [p|] eqn:Hp; [|cbn; repeat split; auto].
    destruct (_orientation c) as [o|] eqn:Ho; [|cbn; repeat split; auto].
    destruct (_orientationComplement c) as [oc|] eqn:Hoc;
      [|cbn; repeat split; auto].
    destruct (rayPlaneIntersection env _ _ _ _) as [worldPoint|];
      [|cbn; repeat split; auto].
    cbn. repeat (split; [congruence|]). right.
    apply clamp_bounds. unfold MAX_SIZE. lra.
  - unfold updateHeight.
    destruct (map c) as [m|]; [|cbn; repeat split; auto].
    destruct (_firstCorner c) as [p|] eqn:Hp; [|cbn; repeat split; auto].
    destruct (_orientation c) as [o|] eqn:Ho; [|cbn; repeat split; auto].
    destruct (_orientationComplement c) as [oc|] eqn:Hoc;
      [|cbn; repeat split; auto].
    destruct (rayPlaneIntersection env _ _ _ _) as [worldPoint|];
      [|cbn; repeat split; auto].
    cbn. repeat (split; [congruence|]). right.
    apply clamp_bounds. unfold MAX_SIZE. lra.
Qed.

Lemma construction_steps_limits_witness :
  updateWidth blindCollaborators (mkV3 0 0 0) towerBox = Returned tt towerBox.
Proof.
  apply (proj1 (proj1 (proj2 (proj2 (proj2 (proj2 (proj2
           (construction_steps_limits blindCollaborators quietPointing
              (mkV3 0 0 0) towerBox)))))) plainMap (mkV3 0 0 4)
           eq_refl eq_refl)).
  reflexivity.
Defined.

(** ** Hovering *)

Lemma hoverStep_nearest (env : Collaborators) (view : Pointing) (m : Map)
    (viewPoint : V3) (box : OrientedBox) (a : nat) (acc : R * Hover) :
  nearestSoFar env view m viewPoint box a acc ->
  nearestSoFar env view m viewPoint box (S a)
    (hoverStep env view m viewPoint box acc a).
Proof.
  intros Hinv. unfold hoverStep.
  destruct (rayRectangleIntersection view (camera_eye m)
              (calculatePointingDirection m viewPoint) box a) as [ip|] eqn:Hhit.
  - assert (Ha : hitDistance view m viewPoint box a
                 = Some (distance ip (camera_eye m)))
      by (unfold hitDistance; rewrite Hhit; reflexivity).
    cbv zeta. destruct (Rlt_dec (distance ip (camera_eye m)) (fst acc)) as [Hlt|Hge].
    + right. exists a. cbn [fst snd]. split; [lia|]. split; [reflexivity|].
      split; [exact Ha|].
      destruct Hinv as [[-> Hfar]|(k & Hk & Hh & Hd & Hmax & Hall)].
      * cbn [fst] in Hlt. split; [exact Hlt|]. intros j d' Hj Hjd.
        destruct (Nat.eq_dec j a) as [->|Hne].
        -- rewrite Ha in Hjd. injection Hjd as <-. split; [lra|lia].
        -- assert (Hj' : (j < a)%nat) by lia.
           pose proof (Hfar j d' Hj' Hjd). split; intros; lra.
      * split; [lra|]. intros j d' Hj Hjd.
        destruct (Nat.eq_dec j a) as [->|Hne].
        -- rewrite Ha in Hjd. injection Hjd as <-. split; [lra|lia].
        -- assert (Hj' : (j < a)%nat) by lia.
           destruct (Hall j d' Hj' Hjd) as [Hle _]. split; intros; lra.
    + destruct Hinv as [[-> Hfar]|(k & Hk & Hh & Hd & Hmax & Hall)].
      * left. split; [reflexivity|]. cbn [fst] in Hge. intros j d' Hj Hjd.
        destruct (Nat.eq_dec j a) as [->|Hne].
        -- rewrite Ha in Hjd. injection Hjd as <-. lra.
        -- apply (Hfar j d'); [lia|exact Hjd].
      * right. exists k. split; [lia|]. split; [exact Hh|]. split; [exact Hd|].
        split; [exact Hmax|]. intros j d' Hj Hjd.
        destruct (Nat.eq_dec j a) as [->|Hne].
        -- rewrite Ha in Hjd. injection Hjd as <-. split; [lra|lia].
        -- apply Hall; [lia|exact Hjd].
  - assert (Ha : hitDistance view m viewPoint box a = None)
      by (unfold hitDistance; rewrite Hhit; reflexivity).
    destruct Hinv as [[-> Hfar]|(k & Hk & Hh & Hd & Hmax & Hall)].
    + left. split; [reflexivity|]. intros j d' Hj Hjd.
      destruct (Nat.eq_dec j a) as [->|Hne]; [congruence|].
      apply (Hfar j d'); [lia|exact Hjd].
    + right. exists k. split; [lia|]. split; [exact Hh|]. split; [exact Hd|].
      split; [exact Hmax|]. intros j d' Hj Hjd.
      destruct (Nat.eq_dec j a) as [->|Hne]; [congruence|].
      apply Hall; [lia|exact Hjd].
Qed.

Lemma hover_loop_nearest (env : Collaborators) (view : Pointing) (m : Map)
    (viewPoint : V3) (box : OrientedBox) (n a : nat) (acc : R * Hover) :
  nearestSoFar env view m viewPoint box a acc ->
  nearestSoFar env view m viewPoint box (a + n)
    (fold_left (hoverStep env view m viewPoint box) (seq a n) acc).
Proof.
  revert a acc. induction n as [|n IH]; intros a acc H; cbn [seq fold_left].
  - rewrite Nat.add_0_r. exact H.
  - rewrite Nat.add_succ_r. apply (IH (S a)). apply hoverStep_nearest. exact H.
Qed.

(** X12: [isHovered] on a box that can be built finds the face the
    pointer ray hits nearest to the eye, among the hits closer than
    MAX_SAFE_INTEGER, and the lowest face index among equally near hits;
    it reports no hover, face -1 and no rectangle exactly when no face is
    hit that close. *)
Theorem isHovered_nearest_face (env : Collaborators) (view : Pointing)
    (viewPoint : V3) (c : Controller) (m : Map) (box : OrientedBox) :
  map c = Some m ->
  createBox env c = Some box ->
  exists h : Hover,
    isHovered env view viewPoint c = Some h /\
    ((h = mkHover None false (-1) /\
      forall j d', (j < 6)%nat ->
                   hitDistance view m viewPoint box j = Some d' ->
                   MAX_SAFE_INTEGER <= d') \/
     (exists (k : nat) (d : R),
        (k < 6)%nat /\
        h = mkHover (facePolygon (createFacePolygons env box) k) true
                    (Z.of_nat k) /\
        hitDistance view m viewPoint box k = Some d /\
        d < MAX_SAFE_INTEGER /\
        forall j d', (j < 6)%nat ->
                     hitDistance view m viewPoint box j = Some d' ->
                     d <= d' /\ ((j < k)%nat -> d < d'))).
Proof.
  intros Hm Hbox. unfold isHovered. rewrite Hm, Hbox.
  eexists. split; [reflexivity|].
  pose proof (@hover_loop_nearest env view m viewPoint box 6 0
                (MAX_SAFE_INTEGER, mkHover None false (-1))) as H.
  cbn [Nat.add] in H.
  destruct H as [[E Hfar]|(k & Hk & Hh & Hd & Hmax & Hall)].
  - left. split; [reflexivity|]. intros j d' Hj. lia.
  - left. split; [rewrite E; reflexivity|exact Hfar].
  - right. exists k, (fst (fold_left (hoverStep env view m viewPoint box) (seq 0 6)
                             (MAX_SAFE_INTEGER, mkHover None false (-1)))).
    repeat (split; [assumption|]). exact Hall.
Qed.

Lemma isHovered_nearest_face_witness :
  exists h : Hover,
    isHovered plainCollaborators
      quietPointing
      (mkV3 0 0 0) towerBox = Some h.
Proof.
  destruct (@isHovered_nearest_face plainCollaborators
              quietPointing
              (mkV3 0 0 0) towerBox plainMap _ eq_refl towerBox_box)
    as (h & Hh & _).
  exists h. exact Hh.
Defined.

(** ** Clicks *)

Lemma with_core_same (s : Session) : with_core (core s) s = s.
Proof. destruct s; reflexivity. Qed.

Lemma truthy_zero (a : R) : a = 0 -> truthy a = false.
Proof. intros ->. unfold truthy. destruct (Req_dec_T 0 0); congruence. Qed.

Lemma truthy_nonzero (a : R) : a <> 0 -> truthy a = true.
Proof. intros H. unfold truthy. destruct (Req_dec_T a 0); congruence. Qed.

(** What the click on a finished box does to the state. *)
Lemma moveRotateOrRestart_state (env : Collaborators) (view : Pointing)
    (viewPoint : V3) (s : Session) :
  _state (core s) = VOLUME_DEFINED ->
  clickAllowed VOLUME_DEFINED
    (_state (core (sessionAfter (moveRotateOrRestart env view viewPoint s)))) = true.
Proof.
  intros Hs. unfold moveRotateOrRestart.
  destruct (map (core s)); [|cbn; rewrite Hs; reflexivity].
  destruct (isHovered env view viewPoint (core s)) as [h|];
    [|cbn; rewrite Hs; reflexivity].
  assert (Hrestart : clickAllowed VOLUME_DEFINED
            (_state (core (sessionAfter (onCore (restart env) s)))) = true).
  { unfold onCore, restart, emitWithBox.
    destruct (createBox env (core s)); cbn; [reflexivity|rewrite Hs; reflexivity]. }
  destruct (h_hovered h); [|exact Hrestart].
  destruct (hoveredFace s) as [face|]; [|exact Hrestart].
  destruct (Rlt_dec _ _); [cbn; rewrite Hs; reflexivity|].
  unfold onCore, enterMoveRotate.
  pose proof (dimensionsChanged_state (set_geoHandleSupport true (core s))) as Hd.
  destruct (dimensionsChanged (set_geoHandleSupport true (core s))) as [[] c1|c1];
    cbn in *; [reflexivity|]. subst c1. cbn. rewrite Hs. reflexivity.
Qed.

(** X13: a click moves the construction on by one step at most and
    never back: the state after [handleClick] is the state before or its
    successor in IDLE, CORNER_DEFINED, WIDTH_DEFINED, PLANE_DEFINED,
    VOLUME_DEFINED, or a finished box enters RESIZE_ROTATE or restarts at
    IDLE.  A step whose quantity is missing or zero is refused and the
    click leaves everything as it was; so does any click during the
    construction that does not change the state. *)
Theorem click_advances_one_step (env : Collaborators) (view : Pointing)
    (viewPoint : V3) (s : Session) :
  let s' := sessionAfter (handleClick env view viewPoint s) in
  clickAllowed (_state (core s)) (_state (core s')) = true /\
  (_state (core s) <> VOLUME_DEFINED ->
   _state (core s') = _state (core s) -> s' = s) /\
  (_state (core s) = IDLE -> _firstCorner (core s) = None ->
   handleClick env view viewPoint s = Done EVENT_IGNORED s) /\
  (_state (core s) = CORNER_DEFINED ->
   _width (core s) = 0 \/ _orientation (core s) = None ->
   handleClick env view viewPoint s = Done EVENT_IGNORED s) /\
  (_state (core s) = WIDTH_DEFINED -> _depth (core s) = 0 ->
   handleClick env view viewPoint s = Done EVENT_IGNORED s) /\
  (_state (core s) = PLANE_DEFINED -> _height (core s) = 0 ->
   handleClick env view viewPoint s = Done EVENT_IGNORED s).
Proof.
  cbv zeta. split; [|split; [|split; [|split; [|split]]]].
  - unfold handleClick. destruct (_state (core s)) eqn:Hs.
    + destruct (isSome _); cbn; rewrite ?Hs; reflexivity.
    + destruct (truthy _ && isSome _); cbn; rewrite ?Hs; reflexivity.
    + destruct (truthy _); cbn; rewrite ?Hs; reflexivity.
    + destruct (truthy _); [|cbn; rewrite Hs; reflexivity].
      unfold onCore, bind, modify, ret, emitWithBox.
      destruct (standardizePlane (core s)) as [[] c1|c1] eqn:Hstd.
      * destruct (createBox env _); reflexivity.
      * assert (c1 = core s).
        { unfold standardizePlane in Hstd.
          destruct (Rlt_dec _ _); [|discriminate].
          destruct (map (core s)), (_firstCorner (core s)),
            (_orientationComplement (core s)), (_orientation (core s));
            try discriminate; injection Hstd as <-; reflexivity. }
        subst c1. cbn. rewrite Hs. reflexivity.
    + apply moveRotateOrRestart_state. exact Hs.
    + cbn. rewrite Hs. reflexivity.
    + cbn. rewrite Hs. reflexivity.
  - intros Hnv. unfold handleClick. destruct (_state (core s)) eqn:Hs;
      try congruence.
    + destruct (isSome _); cbn; rewrite ?Hs; intros; congruence.
    + destruct (truthy _ && isSome _); cbn; rewrite ?Hs; intros; congruence.
    + destruct (truthy _); cbn; rewrite ?Hs; intros; congruence.
    + destruct (truthy _); [|reflexivity].
      unfold onCore, bind, modify, ret, emitWithBox.
      destruct (standardizePlane (core s)) as [[] c1|c1] eqn:Hstd.
      * destruct (createBox env _); cbn; rewrite ?Hs; intros; congruence.
      * assert (c1 = core s).
        { unfold standardizePlane in Hstd.
          destruct (Rlt_dec _ _); [|discriminate].
          destruct (map (core s)), (_firstCorner (core s)),
            (_orientationComplement (core s)), (_orientation (core s));
            try discriminate; injection Hstd as <-; reflexivity. }
        subst c1. cbn. intros _. apply with_core_same.
    + reflexivity.
    + reflexivity.
  - intros Hs Hp. unfold handleClick. rewrite Hs, Hp. reflexivity.
  - intros Hs H. unfold handleClick. rewrite Hs.
    destruct H as [H|H].
    + rewrite (truthy_zero H). reflexivity.
    + rewrite H. rewrite andb_false_r. reflexivity.
  - intros Hs H. unfold handleClick. rewrite Hs, (truthy_zero H). reflexivity.
  - intros Hs H. unfold handleClick. rewrite Hs, (truthy_zero H). reflexivity.
Qed.

Lemma click_advances_one_step_witness :
  handleClick plainCollaborators quietPointing (mkV3 0 0 0)
    (newSession (newController (Some plainMap)))
    = Done EVENT_IGNORED (newSession (newController (Some plainMap))).
Proof.
  apply (proj1 (proj2 (proj2
           (@click_advances_one_step plainCollaborators quietPointing (mkV3 0 0 0)
              (newSession (newController (Some plainMap)))))));
    reflexivity.
Defined.

Lemma createBox_defined (env : Collaborators) (c : Controller) (m : Map)
    (p o oc : V3) :
  map c = Some m -> _firstCorner c = Some p ->
  _orientation c = Some o -> _orientationComplement c = Some oc ->
  exists box, createBox env c = Some box.
Proof.
  intros Hm Hp Ho Hoc. unfold createBox, createBoxFromParameters.
  rewrite Hm, Hp, Ho, Hoc. eauto.
Qed.

Lemma createPlane_defined (c : Controller) (m : Map) (p o oc : V3) :
  map c = Some m -> _firstCorner c = Some p ->
  _orientation c = Some o -> _orientationComplement c = Some oc ->
  exists plane, createPlane c = Some plane.
Proof.
  intros Hm Hp Ho Hoc. unfold createPlane. rewrite Hm, Hp, Ho, Hoc. eauto.
Qed.

(** The click in PLANE_DEFINED on a box with all its parts. *)
Lemma handleClick_plane_defined (env : Collaborators) (view : Pointing)
    (viewPoint : V3) (s : Session) (m : Map) (p o oc : V3) :
  _state (core s) = PLANE_DEFINED ->
  _height (core s) <> 0 ->
  map (core s) = Some m -> _firstCorner (core s) = Some p ->
  _orientation (core s) = Some o -> _orientationComplement (core s) = Some oc ->
  exists s' : Session,
    handleClick env view viewPoint s = Done EVENT_HANDLED s' /\
    _state (core s') = VOLUME_DEFINED /\
    canRefine (core s') = true /\
    _depth (core s') = Rabs (_depth (core s)) /\
    emitted (core s')
      = emitted (core s) ++ [VOLUME_MEASUREMENT_UPDATE; VOLUME_MEASUREMENT_READY] /\
    calculateVolume (core s') = calculateVolume (core s).
Proof.
  intros Hs Hh Hm Hp Ho Hoc. unfold handleClick.
  rewrite Hs, (truthy_nonzero Hh). unfold onCore, bind, modify, ret, emitWithBox.
  destruct (Rlt_dec (_depth (core s)) 0) as [Hneg|Hpos].
  - rewrite (standardizePlane_negative (core s) Hneg Hm Hp Ho Hoc). cbv zeta.
    match goal with
    | |- context [createBox env ?k] =>
        destruct (@createBox_defined env k m
                    (add p (scale oc (_depth (core s))))
                    (normalize (scale o (_width (core s))))
                    (normalize (cross (normalize (scale o (_width (core s))))
                                  (add p (scale oc (_depth (core s))))))
                    Hm eq_refl eq_refl eq_refl) as [box Hbox]
    end.
    rewrite Hbox. eexists. split; [reflexivity|]. cbn.
    split; [reflexivity|]. split; [reflexivity|]. split; [reflexivity|].
    split; [rewrite <- app_assoc; reflexivity|].
    unfold calculateVolume. cbn. rewrite Rabs_Rabsolu. reflexivity.
  - rewrite standardizePlane_nonneg by lra.
    match goal with
    | |- context [createBox env ?k] =>
        destruct (@createBox_defined env k m p o oc Hm Hp Ho Hoc) as [box Hbox]
    end.
    rewrite Hbox. eexists. split; [reflexivity|]. cbn.
    split; [reflexivity|]. split; [reflexivity|].
    split; [rewrite Rabs_pos_eq by lra; reflexivity|].
    split; [rewrite <- app_assoc; reflexivity|]. reflexivity.
Qed.

(** X14: the click that ends the construction.  On a box with a map, an
    anchor, both directions and a non-zero height, the click in
    PLANE_DEFINED is handled, leads to VOLUME_DEFINED with a depth that is
    the absolute value of the old one, makes the box refinable, emits
    one update followed by one ready notification, and leaves every
    measured quantity as it was. *)
Theorem finishing_click (env : Collaborators) (view : Pointing)
    (viewPoint : V3) (s : Session) (m : Map) (p o oc : V3) :
  _state (core s) = PLANE_DEFINED ->
  _height (core s) <> 0 ->
  map (core s) = Some m -> _firstCorner (core s) = Some p ->
  _orientation (core s) = Some o -> _orientationComplement (core s) = Some oc ->
  exists s' : Session,
    handleClick env view viewPoint s = Done EVENT_HANDLED s' /\
    _state (core s') = VOLUME_DEFINED /\
    canRefine (core s') = true /\
    _depth (core s') = Rabs (_depth (core s)) /\
    emitted (core s')
      = emitted (core s) ++ [VOLUME_MEASUREMENT_UPDATE; VOLUME_MEASUREMENT_READY] /\
    calculateVolume (core s') = calculateVolume (core s).
Proof.
  intros Hs Hh Hm Hp Ho Hoc.
  exact (handleClick_plane_defined env view viewPoint s Hs Hh Hm Hp Ho Hoc).
Qed.

Lemma finishing_click_witness :
  exists s' : Session,
    handleClick plainCollaborators quietPointing (mkV3 0 0 0)
      (newSession risingBox) = Done EVENT_HANDLED s' /\
    _state (core s') = VOLUME_DEFINED.
Proof.
  assert (Hh : _height (core (newSession risingBox)) <> 0) by (cbn; lra).
  destruct (@finishing_click plainCollaborators quietPointing (mkV3 0 0 0)
              (newSession risingBox) plainMap (mkV3 0 0 4) (mkV3 1 0 0)
              (mkV3 0 (-1) 0) eq_refl Hh eq_refl eq_refl eq_refl eq_refl)
    as (s' & Hrun & Hstate & _).
  exists s'. split; assumption.
Defined.

(** ** Gestures never throw *)

Lemma wellFormed_shape (c c' : Controller) :
  shape c' = shape c -> wellFormed c' = wellFormed c.
Proof.
  unfold shape, wellFormed. intros H. injection H as -> -> -> -> ->. reflexivity.
Qed.

Lemma defined_shape (c c' : Controller) :
  shape c' = shape c -> defined c -> defined c'.
Proof.
  unfold shape. intros H (m & p & o & oc & Hm & Hp & Ho & Hoc).
  injection H as H1 _ H3 H4 H5.
  rewrite Hm in H1. rewrite Hp in H3. rewrite Ho in H4. rewrite Hoc in H5.
  unfold defined.
  destruct (map c') as [m'|]; [|discriminate H1].
  destruct (_firstCorner c') as [p'|]; [|discriminate H3].
  destruct (_orientation c') as [o'|]; [|discriminate H4].
  destruct (_orientationComplement c') as [oc'|]; [|discriminate H5].
  exists m', p', o', oc'. auto.
Qed.

Lemma wellFormed_defined (c : Controller) :
  wellFormed c = true ->
  _state c <> IDLE -> _state c <> CORNER_DEFINED ->
  defined c.
Proof.
  unfold wellFormed, defined. intros H H1 H2.
  destruct (map c) as [m|]; [|discriminate].
  destruct (_state c); try congruence;
    destruct (_firstCorner c) as [p|]; try discriminate;
    destruct (_orientation c) as [o|]; try discriminate;
    destruct (_orientationComplement c) as [oc|]; try discriminate;
    exists m, p, o, oc; auto.
Qed.

Lemma defined_wellFormed (c : Controller) : defined c -> wellFormed c = true.
Proof.
  unfold wellFormed. intros (m & p & o & oc & -> & -> & -> & ->).
  destruct (_state c); reflexivity.
Qed.

Lemma isHovered_defined (env : Collaborators) (view : Pointing) (viewPoint : V3)
    (c : Controller) :
  defined c -> exists h, isHovered env view viewPoint c = Some h.
Proof.
  intros (m & p & o & oc & Hm & Hp & Ho & Hoc). unfold isHovered.
  destruct (createBox_defined env c Hm Hp Ho Hoc) as [box Hbox].
  rewrite Hm, Hbox. eauto.
Qed.

Lemma dimensionsChanged_defined (c : Controller) :
  defined c -> dimensionsChanged c = Returned tt (set_emptyVolumes [] c).
Proof.
  intros (m & p & o & oc & Hm & Hp & Ho & Hoc). unfold dimensionsChanged.
  assert (Hplane : exists plane, createPlane (set_emptyVolumes [] c) = Some plane)
    by (apply (@createPlane_defined _ m p o oc); assumption).
  destruct Hplane as [plane ->].
  repeat match goal with |- context [if ?b then _ else _] => destruct b end;
    reflexivity.
Qed.

Lemma resize_tail_defined (c : Controller) :
  defined c ->
  (dimensionsChanged ;;; modify emitMeasurementUpdate ;;; ret EVENT_HANDLED) c
    = Returned EVENT_HANDLED (emitMeasurementUpdate (set_emptyVolumes [] c)).
Proof.
  intros H. unfold bind, modify, ret. rewrite (dimensionsChanged_defined H).
  reflexivity.
Qed.

(** On a controller with all its parts a face drag returns and leaves
    the shape alone. *)
Lemma updateFaceSize_defined (env : Collaborators) (viewPoint : V3)
    (c : Controller) :
  defined c ->
  exists r c', updateFaceSize env viewPoint c = Returned r c' /\
               shape c' = shape c.
Proof.
  intros Hdef. pose proof Hdef as (m & p & o & oc & Hm & Hp & Ho & Hoc).
  assert (Hwp : forall centre,
            exists r c', updateWidthFromFaceDragPrimary env viewPoint centre c
                         = Returned r c' /\ shape c' = shape c).
  { intros centre. unfold updateWidthFromFaceDragPrimary. rewrite Hm, Hp, Ho.
    destruct (rayPlaneIntersection env _ _ _ _); [|eauto].
    rewrite resize_tail_defined.
    - eexists _, _. split; [reflexivity|]. unfold shape. cbn. rewrite Hp. reflexivity.
    - exists m, (add p (scale o (_width c - clamp
               (distanceAlongDirection env centre v o) (1 / 100) MAX_SIZE))), o, oc.
      cbn. auto. }
  assert (Hws : forall centre,
            exists r c', updateWidthFromFaceDragSecondary env viewPoint centre c
                         = Returned r c' /\ shape c' = shape c).
  { intros centre. unfold updateWidthFromFaceDragSecondary. rewrite Hm, Hp, Ho.
    destruct (rayPlaneIntersection env _ _ _ _); [|eauto].
    rewrite resize_tail_defined.
    - eexists _, _. split; [reflexivity|]. reflexivity.
    - exists m, p, o, oc. cbn. auto. }
  assert (Hdp : forall centre direction,
            exists r c', updateDepthFromFaceDragPrimary env viewPoint centre direction c
                         = Returned r c' /\ shape c' = shape c).
  { intros centre direction. unfold updateDepthFromFaceDragPrimary.
    rewrite Hm, Hp, Ho, Hoc.
    destruct (rayPlaneIntersection env _ _ _ _); [|eauto].
    rewrite resize_tail_defined.
    - eexists _, _. split; [reflexivity|]. unfold shape. cbn. rewrite Hp. reflexivity.
    - eexists m, _, o, oc. cbn. split; [exact Hm|]. split; [reflexivity|]. auto. }
  assert (Hds : forall centre direction,
            exists r c', updateDepthFromFaceDragSecondary env viewPoint centre direction c
                         = Returned r c' /\ shape c' = shape c).
  { intros centre direction. unfold updateDepthFromFaceDragSecondary.
    rewrite Hm, Hp, Ho, Hoc.
    destruct (rayPlaneIntersection env _ _ _ _); [|eauto].
    rewrite resize_tail_defined.
    - eexists _, _. split; [reflexivity|]. reflexivity.
    - exists m, p, o, oc. cbn. auto. }
  assert (Hh : forall centre,
            exists r c', updateHeightFromTopFaceDrag env viewPoint centre c
                         = Returned r c' /\ shape c' = shape c).
  { intros centre. unfold updateHeightFromTopFaceDrag. rewrite Hm, Hp, Ho, Hoc.
    destruct (rayPlaneIntersection env _ _ _ _); eauto. }
  destruct (createBox_defined env c Hm Hp Ho Hoc) as [box Hbox].
  unfold updateFaceSize. rewrite Hbox.
  destruct (negb (isSome (map c)) || (resizedFaceIndex c <=? -1)%Z); [eauto|].
  destruct ((resizedFaceIndex c <? 0)%Z || (6 <=? resizedFaceIndex c)%Z); [eauto|].
  destruct (Rlt_dec (_depth c) 0);
    destruct (resizedFaceIndex c) as [|idx|idx]; eauto;
    split_positive; eauto.
Qed.

Lemma applyRotation_defined (env : Collaborators) (a : R) (c : Controller) :
  defined c ->
  exists c', applyRotation env a c = Returned tt c' /\ shape c' = shape c.
Proof.
  intros (m & p & o & oc & Hm & Hp & Ho & Hoc). unfold applyRotation.
  rewrite Ho, Hoc, Hp.
  assert (Hplane : exists plane,
            createPlane (if _rotating c then c
                         else set_lastRotation 0 (set_rotating true c))
            = Some plane).
  { destruct (_rotating c); apply (@createPlane_defined _ m p o oc); assumption. }
  destruct Hplane as [plane ->].
  eexists. split; [reflexivity|].
  unfold shape. destruct (_rotating c); cbn; rewrite ?Hm, ?Hp, ?Ho, ?Hoc;
    reflexivity.
Qed.

Lemma applyTranslation_defined (t : V3) (c : Controller) :
  defined c ->
  exists c', applyTranslation t c = Returned tt c' /\ shape c' = shape c.
Proof.
  intros (m & p & o & oc & Hm & Hp & Ho & Hoc). unfold applyTranslation.
  rewrite Ho, Hoc, Hp.
  match goal with
  | |- context [createPlane ?k] =>
      destruct (@createPlane_defined k m
                  (mkV3 (x p + x t) (y p + y t) (z p + z t)) o oc
                  Hm eq_refl Ho Hoc) as [plane ->]
  end.
  eexists. split; [reflexivity|]. unfold shape. cbn.
  rewrite ?Hm, ?Hp, ?Ho, ?Hoc. reflexivity.
Qed.

Lemma runCallbacks_defined (env : Collaborators) (cbs : list HandleCallback) :
  forall c, defined c ->
  exists c', runCallbacks env cbs c = Returned tt c' /\ shape c' = shape c.
Proof.
  induction cbs as [|cb rest IH]; intros c Hdef; cbn [runCallbacks].
  - exists c. split; reflexivity.
  - assert (Hcb : exists c1, runCallback env cb c = Returned tt c1 /\
                             shape c1 = shape c).
    { destruct cb; cbn [runCallback].
      - exists c. split; reflexivity.
      - apply applyRotation_defined. exact Hdef.
      - apply applyTranslation_defined. exact Hdef.
      - apply applyTranslation_defined. exact Hdef. }
    destruct Hcb as (c1 & Hrun & Hshape). unfold bind. rewrite Hrun.
    destruct (IH c1 (defined_shape Hshape Hdef)) as (c2 & Hrest & Hshape2).
    exists c2. split; [exact Hrest|congruence].
Qed.

Lemma handleMove_safe (env : Collaborators) (view : Pointing) (viewPoint : V3)
    (s : Session) :
  wellFormed (core s) = true ->
  (forall vp, closestSurfaceUnder view vp <> OtherError) ->
  goesOn (handleMove env view viewPoint s).
Proof.
  intros Hwf Hview. unfold goesOn, handleMove.
  destruct (_state (core s)) eqn:Hs.
  - unfold onCore, updateCorner.
    destruct (closestSurfaceUnder view viewPoint) eqn:E.
    + eexists _, _. split; [reflexivity|]. cbn.
      unfold wellFormed in *. cbn. rewrite Hs in *. exact Hwf.
    + eexists _, _. split; [reflexivity|]. cbn. exact Hwf.
    + exfalso. apply (Hview viewPoint). exact E.
  - unfold onCore, updateWidth.
    assert (Hparts : exists m p, map (core s) = Some m /\
                                 _firstCorner (core s) = Some p).
    { unfold wellFormed in Hwf. rewrite Hs in Hwf.
      destruct (map (core s)) as [m|]; [|discriminate].
      destruct (_firstCorner (core s)) as [p|]; [|discriminate]. eauto. }
    destruct Hparts as (m & p & Hm & Hp). rewrite Hm, Hp.
    destruct (rayPlaneIntersection env _ _ _ _).
    + eexists _, _. split; [reflexivity|]. cbn.
      unfold wellFormed. cbn. rewrite Hm, Hp, Hs. reflexivity.
    + eexists _, _. split; [reflexivity|]. cbn. exact Hwf.
  - assert (Hdef : defined (core s))
      by (apply wellFormed_defined; [assumption|congruence|congruence]).
    destruct Hdef as (m & p & o & oc & Hm & Hp & Ho & Hoc).
    unfold onCore, updatePlane. rewrite Hm, Hp, Ho, Hoc.
    destruct (rayPlaneIntersection env _ _ _ _).
    + eexists _, _. split; [reflexivity|]. cbn.
      unfold wellFormed. cbn. rewrite Hm, Hp, Ho, Hoc, Hs. reflexivity.
    + eexists _, _. split; [reflexivity|]. cbn. exact Hwf.
  - assert (Hdef : defined (core s))
      by (apply wellFormed_defined; [assumption|congruence|congruence]).
    destruct Hdef as (m & p & o & oc & Hm & Hp & Ho & Hoc).
    unfold onCore, updateHeight. rewrite Hm, Hp, Ho, Hoc.
    destruct (rayPlaneIntersection env _ _ _ _).
    + eexists _, _. split; [reflexivity|]. cbn.
      unfold wellFormed. cbn. rewrite Hm, Hp, Ho, Hoc, Hs. reflexivity.
    + eexists _, _. split; [reflexivity|]. cbn. exact Hwf.
  - assert (Hdef : defined (core s))
      by (apply wellFormed_defined; [assumption|congruence|congruence]).
    destruct (isHovered_defined env view viewPoint Hdef) as [h Hh].
    destruct Hdef as (m & _ & _ & _ & Hm & _).
    unfold hoverDetect. rewrite Hm, Hh.
    destruct (h_hovered h); [destruct (h_rectangle h)|];
      eexists _, _; (split; [reflexivity|]); cbn; exact Hwf.
  - eexists _, _. split; [reflexivity|]. exact Hwf.
  - eexists _, _. split; [reflexivity|]. exact Hwf.
Qed.

Lemma handleClick_safe (env : Collaborators) (view : Pointing) (viewPoint : V3)
    (s : Session) :
  wellFormed (core s) = true ->
  goesOn (handleClick env view viewPoint s).
Proof.
  intros Hwf. unfold goesOn, handleClick.
  destruct (_state (core s)) eqn:Hs.
  - destruct (isSome (_firstCorner (core s))) eqn:Hp.
    + eexists _, _. split; [reflexivity|]. cbn.
      unfold wellFormed in *. cbn. rewrite Hs in Hwf. rewrite Hp.
      destruct (isSome (map (core s))); [|discriminate]. exact Hwf.
    + eexists _, _. split; [reflexivity|]. exact Hwf.
  - destruct (truthy (_width (core s)) && isSome (_orientation (core s))) eqn:E.
    + apply andb_prop in E as [_ Ho].
      eexists _, _. split; [reflexivity|]. cbn.
      unfold wellFormed in *. cbn. rewrite Hs in Hwf. rewrite Ho in *.
      exact Hwf.
    + eexists _, _. split; [reflexivity|]. exact Hwf.
  - destruct (truthy (_depth (core s))).
    + eexists _, _. split; [reflexivity|]. cbn.
      unfold wellFormed in *. cbn. rewrite Hs in Hwf. exact Hwf.
    + eexists _, _. split; [reflexivity|]. exact Hwf.
  - destruct (truthy (_height (core s))) eqn:Hh.
    + assert (Hdef : defined (core s))
        by (apply wellFormed_defined; [assumption|congruence|congruence]).
      destruct Hdef as (m & p & o & oc & Hm & Hp & Ho & Hoc).
      assert (Hne : _height (core s) <> 0).
      { intros E. rewrite (truthy_zero E) in Hh. discriminate. }
      destruct (handleClick_plane_defined env view viewPoint s Hs Hne Hm Hp Ho Hoc)
        as (s' & Hrun & Hst & _).
      unfold handleClick in Hrun. rewrite Hs, Hh in Hrun.
      exists EVENT_HANDLED, s'. split; [exact Hrun|].
      (* the finished box has all its parts *)
      unfold onCore, bind, modify, ret, emitWithBox in Hrun.
      destruct (Rlt_dec (_depth (core s)) 0) as [Hneg|Hpos].
      * rewrite (standardizePlane_negative (core s) Hneg Hm Hp Ho Hoc) in Hrun.
        cbv zeta in Hrun.
        destruct (createBox env _); [|discriminate].
        injection Hrun as <-. cbn. unfold wellFormed. cbn. rewrite Hm. reflexivity.
      * rewrite standardizePlane_nonneg in Hrun by lra.
        destruct (createBox env _); [|discriminate].
        injection Hrun as <-. cbn. unfold wellFormed. cbn.
        rewrite Hm, Hp, Ho, Hoc. reflexivity.
    + eexists _, _. split; [reflexivity|]. exact Hwf.
  - assert (Hdef : defined (core s))
      by (apply wellFormed_defined; [assumption|congruence|congruence]).
    destruct (isHovered_defined env view viewPoint Hdef) as [h Hh].
    pose proof Hdef as (m & p & o & oc & Hm & Hp & Ho & Hoc).
    unfold moveRotateOrRestart. rewrite Hm, Hh.
    assert (Hrestart : exists a s',
              onCore (restart env) s = Done a s' /\
              wellFormed (core s') = true).
    { unfold onCore, restart, emitWithBox.
      destruct (createBox_defined env (core s) Hm Hp Ho Hoc) as [box ->].
      eexists _, _. split; [reflexivity|]. cbn.
      unfold wellFormed. cbn. rewrite Hm, Ho, Hoc. reflexivity. }
    destruct (h_hovered h); [|exact Hrestart].
    destruct (hoveredFace s) as [face|]; [|exact Hrestart].
    destruct (Rlt_dec _ _).
    + eexists _, _. split; [reflexivity|]. exact Hwf.
    + unfold onCore, enterMoveRotate.
      rewrite dimensionsChanged_defined
        by (exists m, p, o, oc; cbn; auto).
      eexists _, _. split; [reflexivity|]. cbn.
      unfold wellFormed. cbn. rewrite Hm, Hp, Ho, Hoc. reflexivity.
  - eexists _, _. split; [reflexivity|]. exact Hwf.
  - eexists _, _. split; [reflexivity|]. exact Hwf.
Qed.

Lemma handleDragInSession_safe (env : Collaborators) (viewPoint : V3)
    (s : Session) :
  wellFormed (core s) = true ->
  goesOn (handleDragInSession env viewPoint s).
Proof.
  intros Hwf. unfold goesOn, handleDragInSession.
  destruct (_state (core s)) eqn:Hs; cbn [CreationState_eqb];
    try (eexists _, _; split; [reflexivity|exact Hwf]).
  assert (Hdef : defined (core s))
    by (apply wellFormed_defined; [assumption|congruence|congruence]).
  pose proof Hdef as (m & p & o & oc & Hm & Hp & Ho & Hoc).
  unfold updateFaceSizeInSession.
  destruct (createBox_defined env (core s) Hm Hp Ho Hoc) as [box ->].
  destruct (negb (isSome (map (core s))) || (resizedFaceIndex (core s) <=? -1)%Z).
  { eexists _, _. split; [reflexivity|exact Hwf]. }
  destruct ((resizedFaceIndex (core s) <? 0)%Z || (6 <=? resizedFaceIndex (core s))%Z).
  { eexists _, _. split; [reflexivity|exact Hwf]. }
  unfold onCore. cbn [core set_hoveredFace set_resizedFace].
  destruct (updateFaceSize_defined env viewPoint Hdef) as (r & c' & Hrun & Hshape).
  rewrite Hrun. eexists _, _. split; [reflexivity|]. cbn.
  rewrite (wellFormed_shape Hshape). exact Hwf.
Qed.

Lemma handleButtonDown_safe (env : Collaborators) (view : Pointing)
    (viewPoint : V3) (s : Session) :
  wellFormed (core s) = true ->
  goesOn (handleButtonDown env view viewPoint s).
Proof.
  intros Hwf. unfold goesOn, handleButtonDown.
  destruct (map (core s)) as [m|] eqn:Hm;
    [|eexists _, _; split; [reflexivity|exact Hwf]].
  destruct (_state (core s)) eqn:Hs; cbn [CreationState_eqb];
    try (eexists _, _; split; [reflexivity|exact Hwf]).
  assert (Hdef : defined (core s))
    by (apply wellFormed_defined; [assumption|congruence|congruence]).
  destruct (isHovered_defined env view viewPoint Hdef) as [h ->].
  destruct (h_hovered h); [|eexists _, _; split; [reflexivity|exact Hwf]].
  destruct (h_rectangle h); [|eexists _, _; split; [reflexivity|exact Hwf]].
  destruct ((0 <=? h_face h)%Z && _);
    [|eexists _, _; split; [reflexivity|exact Hwf]].
  eexists _, _. split; [reflexivity|]. cbn.
  apply defined_wellFormed.
  destruct Hdef as (m' & p & o & oc & Hm' & Hp & Ho & Hoc).
  exists m', p, o, oc. cbn. auto.
Qed.

Lemma handleButtonUp_safe (s : Session) :
  wellFormed (core s) = true -> goesOn (handleButtonUp s).
Proof.
  intros Hwf. unfold goesOn, handleButtonUp.
  destruct (_state (core s)) eqn:Hs; cbn [CreationState_eqb];
    try (eexists _, _; split; [reflexivity|exact Hwf]).
  assert (Hdef : defined (core s))
    by (apply wellFormed_defined; [assumption|congruence|congruence]).
  eexists _, _. split; [reflexivity|]. cbn.
  apply defined_wellFormed.
  destruct Hdef as (m' & p & o & oc & Hm' & Hp & Ho & Hoc).
  exists m', p, o, oc. cbn. auto.
Qed.

Lemma shouldEndMoveRotate_safe (env : Collaborators) (view : Pointing)
    (event : GestureEvent) (s : Session) :
  defined (core s) ->
  goesOn (shouldEndMoveRotate env view event s).
Proof.
  intros Hdef. unfold goesOn, shouldEndMoveRotate.
  destruct (isLeftClick event);
    [|eexists _, _; split; [reflexivity|apply defined_wellFormed; exact Hdef]].
  destruct (isHovered_defined env view (g_viewPoint event) Hdef) as [h ->].
  destruct (h_hovered h && (-1 <? h_face h)%Z);
    [|eexists _, _; split; [reflexivity|apply defined_wellFormed; exact Hdef]].
  eexists _, _. split; [reflexivity|]. cbn.
  apply defined_wellFormed.
  destruct Hdef as (m' & p & o & oc & Hm' & Hp & Ho & Hoc).
  exists m', p, o, oc. cbn. auto.
Qed.

(** One gesture on a well-formed controller is dealt with without a
    throw and leaves a well-formed controller. *)
Lemma onGestureEvent_safe (env : Collaborators) (view : Pointing)
    (event : GestureEvent) (s : Session) :
  wellFormed (core s) = true ->
  (forall vp, closestSurfaceUnder view vp <> OtherError) ->
  goesOn (onGestureEvent env view event s).
Proof.
  intros Hwf Hview. unfold onGestureEvent.
  destruct (map (core s)) as [m|] eqn:Hm;
    [|eexists _, _; split; [reflexivity|exact Hwf]].
  destruct (CreationState_eqb (_state (core s)) RESIZE_ROTATE
            && _geoHandleSupport (core s)) eqn:Hmode.
  - apply andb_prop in Hmode as [Hst _].
    assert (Hs : _state (core s) = RESIZE_ROTATE)
      by (destruct (_state (core s)); try discriminate; reflexivity).
    assert (Hdef : defined (core s))
      by (apply wellFormed_defined; [assumption|congruence|congruence]).
    set (s1 := match g_type event with
               | DRAG_END =>
                   if _rotating (core s)
                   then with_core (set_rotating false (core s)) s else s
               | _ => s
               end).
    assert (Hdef1 : defined (core s1)).
    { subst s1. destruct (g_type event); try exact Hdef.
      destruct (_rotating (core s)); [|exact Hdef].
      destruct Hdef as (m' & p & o & oc & Hm' & Hp & Ho & Hoc).
      exists m', p, o, oc. cbn. auto. }
    pose proof Hdef1 as (m1 & p & o & oc & Hm1 & Hp & Ho & Hoc).
    destruct (createPlane_defined (core s1) Hm1 Hp Ho Hoc) as [plane ->].
    unfold onCore.
    destruct (runCallbacks_defined env
                (fst (handleGestureEvent view event plane)) Hdef1)
      as (c2 & Hrun & Hshape).
    rewrite Hrun.
    assert (Hdef2 : defined (core (with_core c2 s1)))
      by (cbn; apply (defined_shape Hshape Hdef1)).
    destruct (snd (handleGestureEvent view event plane)).
    + apply shouldEndMoveRotate_safe. exact Hdef2.
    + eexists _, _. split; [reflexivity|]. apply defined_wellFormed. exact Hdef2.
  - set (s1 := with_core (set_shiftPressed (g_shift event) (core s)) s).
    assert (Hwf1 : wellFormed (core s1) = true) by (subst s1; cbn; exact Hwf).
    destruct (g_type event).
    + apply handleDragInSession_safe. exact Hwf1.
    + apply handleMove_safe; assumption.
    + destruct (g_button event =? 0)%Z;
        [|eexists _, _; split; [reflexivity|exact Hwf1]].
      destruct (handleClick_safe env view (g_viewPoint event) s1 Hwf1)
        as (a & s' & -> & Hwf'). eexists _, _. split; [reflexivity|exact Hwf'].
    + eexists _, _. split; [reflexivity|exact Hwf1].
    + destruct (g_button event =? 0)%Z;
        [apply handleButtonDown_safe; exact Hwf1
        |eexists _, _; split; [reflexivity|exact Hwf1]].
    + destruct (g_button event =? 0)%Z;
        [apply handleButtonUp_safe; exact Hwf1
        |eexists _, _; split; [reflexivity|exact Hwf1]].
    + eexists _, _. split; [reflexivity|exact Hwf1].
    + eexists _, _. split; [reflexivity|exact Hwf1].
Qed.

(** *** Drawing a box, gesture by gesture *)

Lemma width_three : Rmin MAX_SIZE (Rabs (distance (mkV3 0 0 4) (add (mkV3 0 0 4) (mkV3 3 0 0)))) = 3.
Proof.
  replace (distance _ _) with 3.
  - rewrite Rabs_pos_eq by lra. unfold MAX_SIZE. apply Rmin_right. lra.
  - symmetry. unfold distance. apply length_of_square; [lra|].
    unfold dot; simpl; ring.
Qed.

Lemma clamp_inside (v lo hi : R) : lo <= v <= hi -> clamp v lo hi = v.
Proof.
  intros [H1 H2]. unfold clamp. rewrite Rmin_right by exact H2.
  apply Rmax_right. exact H1.
Qed.

Ltac run_gesture H :=
  unfold onGestureEvent, handleMove, handleClick, onCore;
  cbn [core with_core map set_map set_shiftPressed _state g_type g_button
       g_shift g_viewPoint CreationState_eqb andb Z.eqb];
  rewrite H;
  cbn [CreationState_eqb andb].

Lemma construction_move_corner (s : Session) :
  _state (core s) = IDLE ->
  exists s',
    onGestureEvent buildingCollaborators findingPointing
      (mkGestureEvent MOVE 0 false (mkV3 0 0 0))
      (with_core (set_map (Some plainMap) (core s)) s) = Done EVENT_HANDLED s' /\
    _state (core s') = IDLE /\ _firstCorner (core s') = Some (mkV3 0 0 4).
Proof.
  intros Hs. run_gesture Hs. unfold updateCorner. cbn.
  eexists. split; [reflexivity|]. cbn. repeat split; auto.
Qed.

Lemma construction_click_corner (s : Session) :
  _state (core s) = IDLE -> _firstCorner (core s) = Some (mkV3 0 0 4) ->
  exists s',
    onGestureEvent buildingCollaborators findingPointing
      (mkGestureEvent SINGLE_CLICK_UP 0 false (mkV3 0 0 0))
      (with_core (set_map (Some plainMap) (core s)) s) = Done EVENT_IGNORED s' /\
    _state (core s') = CORNER_DEFINED /\
    _firstCorner (core s') = Some (mkV3 0 0 4).
Proof.
  intros Hs Hp. run_gesture Hs. cbn. rewrite Hp. cbn.
  eexists. split; [reflexivity|]. cbn. repeat split; auto.
Qed.

Lemma construction_move_width (s : Session) :
  _state (core s) = CORNER_DEFINED ->
  _firstCorner (core s) = Some (mkV3 0 0 4) ->
  exists (s' : Session) (o oc : V3),
    onGestureEvent buildingCollaborators findingPointing
      (mkGestureEvent MOVE 0 false (mkV3 0 0 0))
      (with_core (set_map (Some plainMap) (core s)) s) = Done EVENT_HANDLED s' /\
    _state (core s') = CORNER_DEFINED /\
    _firstCorner (core s') = Some (mkV3 0 0 4) /\
    _width (core s') = 3 /\
    _orientation (core s') = Some o /\
    _orientationComplement (core s') = Some oc.
Proof.
  intros Hs Hp. run_gesture Hs. unfold updateWidth.
  cbn -[Rmin Rabs distance normalize cross]. rewrite Hp.
  cbn -[Rmin Rabs distance normalize cross]. rewrite width_three.
  eexists _, _, _. split; [reflexivity|].
  cbn -[normalize cross]. rewrite Hs. auto.
Qed.

Lemma construction_click_width (s : Session) (o oc : V3) :
  _state (core s) = CORNER_DEFINED ->
  _firstCorner (core s) = Some (mkV3 0 0 4) ->
  _width (core s) = 3 ->
  _orientation (core s) = Some o -> _orientationComplement (core s) = Some oc ->
  exists s',
    onGestureEvent buildingCollaborators findingPointing
      (mkGestureEvent SINGLE_CLICK_UP 0 false (mkV3 0 0 0))
      (with_core (set_map (Some plainMap) (core s)) s) = Done EVENT_IGNORED s' /\
    _state (core s') = WIDTH_DEFINED /\
    _firstCorner (core s') = Some (mkV3 0 0 4) /\
    _orientation (core s') = Some o /\
    _orientationComplement (core s') = Some oc.
Proof.
  intros Hs Hp Hw Ho Hoc. run_gesture Hs. cbn -[truthy].
  rewrite Hw, Ho, (@truthy_nonzero 3) by lra. cbn.
  eexists. split; [reflexivity|]. cbn. repeat split; auto.
Qed.

Lemma construction_move_plane (s : Session) (o oc : V3) :
  _state (core s) = WIDTH_DEFINED ->
  _firstCorner (core s) = Some (mkV3 0 0 4) ->
  _orientation (core s) = Some o -> _orientationComplement (core s) = Some oc ->
  exists s',
    onGestureEvent buildingCollaborators findingPointing
      (mkGestureEvent MOVE 0 false (mkV3 0 0 0))
      (with_core (set_map (Some plainMap) (core s)) s) = Done EVENT_HANDLED s' /\
    _state (core s') = WIDTH_DEFINED /\
    _firstCorner (core s') = Some (mkV3 0 0 4) /\
    _orientation (core s') = Some o /\
    _orientationComplement (core s') = Some oc /\
    _depth (core s') = 2.
Proof.
  intros Hs Hp Ho Hoc. run_gesture Hs. unfold updatePlane.
  cbn -[clamp MAX_SIZE]. rewrite Hp, Ho, Hoc. cbn -[clamp MAX_SIZE].
  rewrite (@clamp_inside 2 (- MAX_SIZE) MAX_SIZE) by (unfold MAX_SIZE; lra).
  eexists. split; [reflexivity|]. cbn. repeat split; auto.
Qed.

Lemma construction_click_plane (s : Session) (o oc : V3) :
  _state (core s) = WIDTH_DEFINED ->
  _firstCorner (core s) = Some (mkV3 0 0 4) ->
  _orientation (core s) = Some o -> _orientationComplement (core s) = Some oc ->
  _depth (core s) = 2 ->
  exists s',
    onGestureEvent buildingCollaborators findingPointing
      (mkGestureEvent SINGLE_CLICK_UP 0 false (mkV3 0 0 0))
      (with_core (set_map (Some plainMap) (core s)) s) = Done EVENT_IGNORED s' /\
    _state (core s') = PLANE_DEFINED /\
    _firstCorner (core s') = Some (mkV3 0 0 4) /\
    _orientation (core s') = Some o /\
    _orientationComplement (core s') = Some oc.
Proof.
  intros Hs Hp Ho Hoc Hd. run_gesture Hs. cbn -[truthy].
  rewrite Hd, (@truthy_nonzero 2) by lra.
  eexists. split; [reflexivity|]. cbn. repeat split; auto.
Qed.

Lemma construction_move_height (s : Session) (o oc : V3) :
  _state (core s) = PLANE_DEFINED ->
  _firstCorner (core s) = Some (mkV3 0 0 4) ->
  _orientation (core s) = Some o -> _orientationComplement (core s) = Some oc ->
  exists s',
    onGestureEvent buildingCollaborators findingPointing
      (mkGestureEvent MOVE 0 false (mkV3 0 0 0))
      (with_core (set_map (Some plainMap) (core s)) s) = Done EVENT_HANDLED s' /\
    _state (core s') = PLANE_DEFINED /\
    map (core s') = Some plainMap /\
    _firstCorner (core s') = Some (mkV3 0 0 4) /\
    _orientation (core s') = Some o /\
    _orientationComplement (core s') = Some oc /\
    _height (core s') = 2.
Proof.
  intros Hs Hp Ho Hoc. run_gesture Hs. unfold updateHeight.
  cbn -[clamp MAX_SIZE normalize cross add scale]. rewrite Hp, Ho, Hoc.
  cbn -[clamp MAX_SIZE normalize cross add scale].
  rewrite (@clamp_inside 2 0 MAX_SIZE) by (unfold MAX_SIZE; lra).
  eexists. split; [reflexivity|]. cbn. repeat split; auto.
Qed.

Lemma construction_click_height (s : Session) (o oc : V3) :
  _state (core s) = PLANE_DEFINED ->
  _firstCorner (core s) = Some (mkV3 0 0 4) ->
  _orientation (core s) = Some o -> _orientationComplement (core s) = Some oc ->
  _height (core s) = 2 ->
  exists s',
    onGestureEvent buildingCollaborators findingPointing
      (mkGestureEvent SINGLE_CLICK_UP 0 false (mkV3 0 0 0))
      (with_core (set_map (Some plainMap) (core s)) s) = Done EVENT_IGNORED s' /\
    _state (core s') = VOLUME_DEFINED.
Proof.
  intros Hs Hp Ho Hoc Hh.
  set (s0 := with_core (set_shiftPressed false (set_map (Some plainMap) (core s)))
                       (with_core (set_map (Some plainMap) (core s)) s)).
  destruct (@handleClick_plane_defined buildingCollaborators findingPointing
              (mkV3 0 0 0) s0 plainMap (mkV3 0 0 4) o oc)
    as (s' & Hrun & Hst & _);
    try (subst s0; cbn; assumption); try reflexivity.
  { subst s0. cbn. rewrite Hh. lra. }
  exists s'. split; [|exact Hst].
  unfold onGestureEvent.
  cbn [core with_core map set_map set_shiftPressed _state g_type g_button
       g_shift g_viewPoint CreationState_eqb andb Z.eqb].
  rewrite Hs. cbn [CreationState_eqb andb]. fold s0. rewrite Hrun. reflexivity.
Qed.

Lemma construction_reaches_volume :
  exists s',
    onGestureEvents buildingCollaborators constructionGestures
      (newSession (newController (Some plainMap))) = Done tt s' /\
    _state (core s') = VOLUME_DEFINED.
Proof.
  unfold constructionGestures. cbv zeta.
  cbn [onGestureEvents scene_map scene_view scene_event].
  destruct (@construction_move_corner (newSession (newController (Some plainMap)))
              eq_refl) as (s1 & -> & Hs1 & Hp1).
  destruct (construction_click_corner s1 Hs1 Hp1) as (s2 & -> & Hs2 & Hp2).
  destruct (construction_move_width s2 Hs2 Hp2)
    as (s3 & o & oc & -> & Hs3 & Hp3 & Hw3 & Ho3 & Hoc3).
  destruct (construction_click_width s3 Hs3 Hp3 Hw3 Ho3 Hoc3)
    as (s4 & -> & Hs4 & Hp4 & Ho4 & Hoc4).
  destruct (construction_move_plane s4 Hs4 Hp4 Ho4 Hoc4)
    as (s5 & -> & Hs5 & Hp5 & Ho5 & Hoc5 & Hd5).
  destruct (construction_click_plane s5 Hs5 Hp5 Ho5 Hoc5 Hd5)
    as (s6 & -> & Hs6 & Hp6 & Ho6 & Hoc6).
  destruct (construction_move_height s6 Hs6 Hp6 Ho6 Hoc6)
    as (s7 & -> & Hs7 & _ & Hp7 & Ho7 & Hoc7 & Hh7).
  destruct (construction_click_height s7 Hs7 Hp7 Ho7 Hoc7 Hh7)
    as (s8 & -> & Hs8).
  exists s8. split; [reflexivity|exact Hs8].
Qed.

(** X15: no series of gestures brings the controller to raise one of
    its own errors, those of [createPlane] and [createBoxFromParameters]
    when the map, the anchor or a direction is missing.  Starting from a
    fresh controller on a map, or from one seeded with a box, every
    gesture of every series is dealt with and the controller stays well
    formed: it has an anchor from CORNER_DEFINED on and both directions
    from WIDTH_DEFINED on.  The services of the host are taken to answer
    (see [Pointing]); the one failure of theirs that the controller
    handles, that of the surface lookup under the pointer, is supposed to
    be the out-of-bounds failure it catches and not one it throws
    again. *)
Theorem gestures_never_throw (env : Collaborators) (scenes : list Scene)
    (m : Map) (c0 : Controller) :
  (c0 = newController (Some m) \/
   exists box, c0 = initializeBox box (newController (Some m))) ->
  Forall (fun scene =>
            forall vp, closestSurfaceUnder (scene_view scene) vp <> OtherError)
         scenes ->
  exists s' : Session,
    onGestureEvents env scenes (newSession c0) = Done tt s' /\
    wellFormed (core s') = true.
Proof.
  intros Hstart Hscenes.
  assert (Hwf0 : wellFormed (core (newSession c0)) = true).
  { destruct Hstart as [->|[box ->]]; reflexivity. }
  revert Hwf0. generalize (newSession c0). clear Hstart.
  induction Hscenes as [|scene rest Hscene _ IH]; intros s Hwf;
    cbn [onGestureEvents].
  - exists s. split; [reflexivity|exact Hwf].
  - set (s1 := with_core (set_map (Some (scene_map scene)) (core s)) s).
    assert (Hwf1 : wellFormed (core s1) = true).
    { subst s1. cbn. unfold wellFormed in *. cbn.
      destruct (isSome (map (core s))); [exact Hwf|discriminate]. }
    destruct (@onGestureEvent_safe env (scene_view scene) (scene_event scene)
                s1 Hwf1 Hscene) as (a & s2 & -> & Hwf2).
    apply IH. exact Hwf2.
Qed.

Lemma gestures_never_throw_witness :
  exists s' : Session,
    onGestureEvents buildingCollaborators constructionGestures
      (newSession (newController (Some plainMap))) = Done tt s' /\
    wellFormed (core s') = true /\
    _state (core s') = VOLUME_DEFINED.
Proof.
  destruct (@gestures_never_throw buildingCollaborators constructionGestures
              plainMap (newController (Some plainMap)) (or_introl eq_refl))
    as (s' & Hrun & Hwf).
  - repeat constructor; intros vp; discriminate.
  - destruct construction_reaches_volume as (s'' & Hrun' & Hst).
    rewrite Hrun in Hrun'. injection Hrun' as <-.
    exists s'. repeat split; assumption.
Defined.

(** ** Clicking a finished box *)

(** X16: the click on a finished box with all its parts.  Off the box,
    or with no face remembered from hovering, the controller emits the
    end notification, resets to IDLE with zero extents, zero refined
    volume, an empty grid and no anchor, and emits an update.  On the
    remembered face within 20 pixels of its handle nothing happens.
    Elsewhere on the box the controller enters RESIZE_ROTATE: the grid is
    emptied, the extents and the refined volume stay, an update is
    emitted. *)
Theorem click_on_finished_box (env : Collaborators) (view : Pointing)
    (viewPoint : V3) (s : Session) (h : Hover) :
  defined (core s) ->
  isHovered env view viewPoint (core s) = Some h ->
  (h_hovered h = false \/ hoveredFace s = None ->
   exists s',
     moveRotateOrRestart env view viewPoint s = Done EVENT_HANDLED s' /\
     _state (core s') = IDLE /\ _firstCorner (core s') = None /\
     _width (core s') = 0 /\ _depth (core s') = 0 /\ _height (core s') = 0 /\
     refinedVolumeCalculation (core s') = 0 /\ emptyVolumes (core s') = [] /\
     emitted (core s')
       = emitted (core s) ++ [VOLUME_MEASUREMENT_END; VOLUME_MEASUREMENT_UPDATE]) /\
  (forall face,
     h_hovered h = true -> hoveredFace s = Some face ->
     (distance (mapToView view face) viewPoint < ResizeHandleIconSize ->
      moveRotateOrRestart env view viewPoint s = Done EVENT_IGNORED s) /\
     (ResizeHandleIconSize <= distance (mapToView view face) viewPoint ->
      exists s',
        moveRotateOrRestart env view viewPoint s = Done EVENT_IGNORED s' /\
        _state (core s') = RESIZE_ROTATE /\
        _geoHandleSupport (core s') = true /\
        emptyVolumes (core s') = [] /\
        _width (core s') = _width (core s) /\
        _depth (core s') = _depth (core s) /\
        _height (core s') = _height (core s) /\
        _firstCorner (core s') = _firstCorner (core s) /\
        refinedVolumeCalculation (core s') = refinedVolumeCalculation (core s) /\
        emitted (core s') = emitted (core s) ++ [VOLUME_MEASUREMENT_UPDATE])).
Proof.
  intros Hdef Hh. pose proof Hdef as (m & p & o & oc & Hm & Hp & Ho & Hoc).
  unfold moveRotateOrRestart. rewrite Hm, Hh.
  assert (Hrestart : exists s',
            onCore (restart env) s = Done EVENT_HANDLED s' /\
            _state (core s') = IDLE /\ _firstCorner (core s') = None /\
            _width (core s') = 0 /\ _depth (core s') = 0 /\
            _height (core s') = 0 /\
            refinedVolumeCalculation (core s') = 0 /\
            emptyVolumes (core s') = [] /\
            emitted (core s')
              = emitted (core s)
                ++ [VOLUME_MEASUREMENT_END; VOLUME_MEASUREMENT_UPDATE]).
  { unfold onCore, restart, emitWithBox.
    destruct (createBox_defined env (core s) Hm Hp Ho Hoc) as [box ->].
    eexists. split; [reflexivity|]. cbn.
    repeat (split; [reflexivity|]). rewrite <- app_assoc. reflexivity. }
  split.
  - intros [Hno|Hno]; rewrite Hno; [exact Hrestart|].
    destruct (h_hovered h); exact Hrestart.
  - intros face Hyes Hface. rewrite Hyes, Hface. split.
    + intros Hnear. destruct (Rlt_dec _ _); [reflexivity|lra].
    + intros Hfar. destruct (Rlt_dec _ _); [lra|].
      unfold onCore, enterMoveRotate.
      rewrite dimensionsChanged_defined by (exists m, p, o, oc; cbn; auto).
      eexists. split; [reflexivity|]. cbn. repeat split.
Qed.

Lemma click_on_finished_box_witness :
  exists s',
    moveRotateOrRestart plainCollaborators quietPointing (mkV3 0 0 0)
      (newSession towerBox) = Done EVENT_HANDLED s' /\
    _state (core s') = IDLE.
Proof.
  assert (Hdef : defined (core (newSession towerBox))).
  { exists plainMap, (mkV3 0 0 4), (mkV3 1 0 0), (mkV3 0 (-1) 0). cbn. auto. }
  destruct (isHovered_defined plainCollaborators quietPointing (mkV3 0 0 0) Hdef)
    as [h Hh].
  destruct (proj1 (@click_on_finished_box plainCollaborators quietPointing
                     (mkV3 0 0 0) (newSession towerBox) h Hdef Hh)
              (or_intror eq_refl)) as (s' & Hrun & Hst & _).
  exists s'. split; assumption.
Defined.

(** ** Pressing and releasing on a handle *)

Lemma hover_loop_face (env : Collaborators) (view : Pointing) (m : Map)
    (viewPoint : V3) (box : OrientedBox) (n a : nat) (acc : R * Hover) :
  (-1 <= h_face (snd acc) < Z.of_nat (a + n))%Z ->
  (-1 <= h_face (snd (fold_left (hoverStep env view m viewPoint box)
                         (seq a n) acc)) < Z.of_nat (a + n))%Z.
Proof.
  revert a acc. induction n as [|n IH]; intros a acc H; cbn [seq fold_left].
  - exact H.
  - replace (a + S n)%nat with (S a + n)%nat in * by lia.
    apply IH. unfold hoverStep.
    destruct (rayRectangleIntersection view _ _ box a); [|exact H].
    cbv zeta. destruct (Rlt_dec _ _); [cbn; lia|exact H].
Qed.

(** X17: a press starts a face drag only on a finished box, and then on
    one of the six faces: when [handleButtonDown] reports the event
    handled, the box was in VOLUME_DEFINED, is now in FACE_RESIZING, and
    the face index is between 0 and 5.  The release that follows brings
    the box back to VOLUME_DEFINED with face index -1, the anchor and the
    three extents as they were before the press, and one update emitted. *)
Theorem press_then_release (env : Collaborators) (view : Pointing)
    (viewPoint : V3) (s s1 : Session) :
  handleButtonDown env view viewPoint s = Done EVENT_HANDLED s1 ->
  _state (core s) = VOLUME_DEFINED /\
  _state (core s1) = FACE_RESIZING /\
  (0 <= resizedFaceIndex (core s1) < 6)%Z /\
  exists s2,
    handleButtonUp s1 = Done EVENT_HANDLED s2 /\
    _state (core s2) = VOLUME_DEFINED /\
    resizedFaceIndex (core s2) = (-1)%Z /\
    _firstCorner (core s2) = _firstCorner (core s) /\
    _width (core s2) = _width (core s) /\
    _depth (core s2) = _depth (core s) /\
    _height (core s2) = _height (core s) /\
    emptyVolumes (core s2) = emptyVolumes (core s) /\
    emitted (core s2) = emitted (core s) ++ [VOLUME_MEASUREMENT_UPDATE].
Proof.
  unfold handleButtonDown. intros H.
  destruct (map (core s)) as [m|] eqn:Hm; [|discriminate].
  destruct (_state (core s)) eqn:Hs; cbn [CreationState_eqb] in H;
    try discriminate.
  destruct (isHovered env view viewPoint (core s)) as [h|] eqn:Hh;
    [|discriminate].
  destruct (h_hovered h); [|discriminate].
  destruct (h_rectangle h) as [rectangle|]; [|discriminate].
  destruct ((0 <=? h_face h)%Z && _) eqn:Hnear; [|discriminate].
  injection H as <-.
  apply andb_prop in Hnear as [Hface _]. apply Z.leb_le in Hface.
  assert (Hrange : (-1 <= h_face h < 6)%Z).
  { unfold isHovered in Hh. rewrite Hm in Hh.
    destruct (createBox env (core s)) as [box|]; [|discriminate].
    injection Hh as <-.
    apply (@hover_loop_face env view m viewPoint box 6 0). cbn. lia. }
  split; [reflexivity|]. split; [reflexivity|].
  split; [cbn; lia|].
  unfold handleButtonUp. cbn [core with_core set_resizedFace set_state
    set_resizedFaceIndex _state CreationState_eqb].
  eexists. split; [reflexivity|]. cbn. repeat split.
Qed.

Lemma touching_distance : distance (mkV3 0 0 5) (mkV3 0 0 10) = 5.
Proof.
  unfold distance. apply length_of_square; [lra|]. unfold dot. simpl. ring.
Qed.

Lemma press_then_release_witness :
  exists s1,
    handleButtonDown plainCollaborators touchingPointing (mkV3 0 0 0)
      (newSession towerBox) = Done EVENT_HANDLED s1 /\
    resizedFaceIndex (core s1) = 2%Z.
Proof.
  assert (Hdown : exists s1,
            handleButtonDown plainCollaborators touchingPointing (mkV3 0 0 0)
              (newSession towerBox) = Done EVENT_HANDLED s1 /\
            resizedFaceIndex (core s1) = 2%Z).
  { unfold handleButtonDown, isHovered.
    cbn [core newSession map towerBox set_state set_height set_depth set_width
         set_orientationComplement set_orientation set_firstCorner newController
         _state CreationState_eqb].
    rewrite towerBox_box.
    cbn [seq fold_left hoverStep touchingPointing rayRectangleIntersection
         Nat.eqb fst snd camera_eye plainMap].
    rewrite touching_distance.
    unfold MAX_SAFE_INTEGER.
    destruct (Rlt_dec 5 9007199254740991); [|lra].
    cbn [snd h_hovered h_rectangle h_face facePolygon Z.of_nat Z.leb andb
         Pos.of_succ_nat Pos.succ Z.compare mapToView].
    assert (Hd : Rltb (distance (mkV3 0 0 0) (mkV3 0 0 0)) ResizeHandleIconSize = true).
    { replace (distance (mkV3 0 0 0) (mkV3 0 0 0)) with 0.
      - unfold Rltb, ResizeHandleIconSize. destruct (Rlt_dec 0 20); [reflexivity|lra].
      - symmetry. unfold distance. apply length_of_square; [lra|].
        unfold dot. simpl. ring. }
    change (mapToView touchingPointing
              (f2 (createFacePolygons plainCollaborators
                     (boxFrom (mkV3 0 0 4) (mkV3 1 0 0) (mkV3 0 1 0) (mkV3 0 0 5)))))
      with (mkV3 0 0 0).
    rewrite Hd. eexists. split; reflexivity. }
  destruct Hdown as (s1 & Hrun & Hidx).
  destruct (@press_then_release plainCollaborators touchingPointing (mkV3 0 0 0)
              (newSession towerBox) s1 Hrun) as (_ & _ & _ & s2 & _).
  exists s1. split; assumption.
Defined.

(** ** Painting the refined volume *)

Lemma Math_round_near (v : R) :
  v - 1 / 2 < Math_round v <= v + 1 / 2.
Proof.
  unfold Math_round. destruct (base_Int_part (v + 1 / 2)) as [Hle Hgt]. lra.
Qed.

Lemma Math_round_positive (v : R) :
  0 <= v -> Math_round v <> 0 -> 1 <= Math_round v.
Proof.
  intros Hv Hnz. pose proof (Math_round_near v) as [Hlo _].
  unfold Math_round in *.
  assert (Hz : (0 < Int_part (v + 1 / 2) + 1)%Z).
  { apply lt_IZR. rewrite plus_IZR. lra. }
  assert (Hne : Int_part (v + 1 / 2) <> 0%Z).
  { intros E. apply Hnz. rewrite E. reflexivity. }
  apply IZR_le. lia.
Qed.

Lemma targetHeight_bounds (height e : R) :
  exists t, targetHeight height (Some e) = Some t /\
            1 / 1000 <= t /\
            (height < e -> t = 1 / 1000) /\
            (e <= height -> Rabs (t - (height - e)) <= 1 / 200).
Proof.
  unfold targetHeight. eexists. split; [reflexivity|].
  destruct (Rlt_dec (height - e) 0) as [Hneg|Hpos].
  - destruct (Req_dec_T 0 0) as [_|Hne]; [|contradiction Hne; reflexivity].
    split; [lra|]. split; [reflexivity|]. intros. lra.
  - pose proof (Math_round_near ((height - e) * 100)) as [Hlo Hhi].
    destruct (Req_dec_T (Math_round ((height - e) * 100) / 100) 0) as [Hz|Hnz].
    + assert (Hr : Math_round ((height - e) * 100) = 0) by lra.
      rewrite Hr in *. split; [lra|]. split; [intros; lra|].
      intros _. apply Rabs_le. lra.
    + assert (Hr : Math_round ((height - e) * 100) <> 0).
      { intros E. apply Hnz. rewrite E. lra. }
      pose proof (@Math_round_positive ((height - e) * 100) ltac:(lra) Hr).
      split; [lra|]. split; [intros; lra|].
      intros _. apply Rabs_le. lra.
Qed.

(** X18: the height of a painted column is never below one millimetre;
    it is one millimetre where the empty height exceeds the box height;
    elsewhere it is within half a centimetre of box height minus empty
    height. *)
Theorem painted_column_height (height e : R) :
  exists t, targetHeight (Rabs height) (Some e) = Some t /\
            1 / 1000 <= t /\
            (Rabs height < e -> t = 1 / 1000) /\
            (e <= Rabs height -> Rabs (t - (Rabs height - e)) <= 1 / 200).
Proof.
  set (H := Rabs height). unfold targetHeight.
  eexists. split; [reflexivity|].
  destruct (Rlt_dec (H - e) 0) as [Hneg|Hpos].
  - destruct (Req_dec_T 0 0) as [_|Hne]; [|contradiction Hne; reflexivity].
    split; [lra|]. split; [reflexivity|]. intros. lra.
  - pose proof (Math_round_near ((H - e) * 100)) as [Hlo Hhi].
    destruct (Req_dec_T (Math_round ((H - e) * 100) / 100) 0) as [Hz|Hnz].
    + assert (Hr : Math_round ((H - e) * 100) = 0) by lra.
      rewrite Hr in *. split; [lra|]. split; [intros; lra|].
      intros _. apply Rabs_le. lra.
    + assert (Hr : Math_round ((H - e) * 100) <> 0).
      { intros E. apply Hnz. rewrite E. lra. }
      pose proof (@Math_round_positive ((H - e) * 100) ltac:(lra) Hr).
      split; [lra|]. split; [intros; lra|].
      intros _. apply Rabs_le. lra.
Qed.

Lemma map_nth_error_seq {A : Type} (l : list A) :
  List.map (nth_error l) (seq 0 (List.length l)) = List.map Some l.
Proof.
  induction l as [|a l IH]; [reflexivity|].
  cbn [List.length seq List.map nth_error]. f_equal.
  rewrite <- seq_shift, map_map. exact IH.
Qed.

Lemma paintRows_full (box : OrientedBox) (grid : list (list R))
    (width depth height azimuth : R) (gridSize : nat) (rows : list (list R))
    (i : nat) (canvas : list Icon3D) :
  skipn i grid = rows ++ skipn (i + List.length rows) grid ->
  paintRows box grid width depth height gridSize azimuth i (List.length rows) canvas
  = Painted
      (canvas ++
       concat (List.map
                 (fun ir =>
                    let t := 1 / INR gridSize * INR (fst ir) + (1 / 2) / INR gridSize in
                    paintRow width depth height gridSize azimuth
                             (interpolate (c1 box) (c5 box) t)
                             (interpolate (c3 box) (c7 box) t) (snd ir))
                 (combine (seq i (List.length rows)) rows))).
Proof.
  revert i canvas. induction rows as [|row rows IH]; intros i canvas H.
  - cbn. rewrite app_nil_r. reflexivity.
  - cbn [List.length paintRows seq combine List.map concat].
    assert (Hrow : nth_error grid i = Some row).
    { rewrite <- (Nat.add_0_r i), <- nth_error_skipn, H. reflexivity. }
    rewrite Hrow. rewrite IH.
    + rewrite <- app_assoc. reflexivity.
    + assert (E : skipn (S i) grid = skipn 1 (skipn i grid))
        by (rewrite skipn_skipn; f_equal; lia).
      rewrite E, H. cbn [app skipn List.length].
      replace (i + S (List.length rows))%nat with (S i + List.length rows)%nat by lia.
      reflexivity.
Qed.

Lemma map_fst_combine {A B : Type} (l : list A) (l' : list B) :
  List.length l = List.length l' -> List.map fst (combine l l') = l.
Proof.
  revert l'. induction l as [|a l IH]; intros [|b l'] H;
    try discriminate; [reflexivity|].
  cbn. f_equal. apply IH. injection H as H. exact H.
Qed.

Lemma map_snd_combine {A B : Type} (l : list A) (l' : list B) :
  List.length l = List.length l' -> List.map snd (combine l l') = l'.
Proof.
  revert l'. induction l as [|a l IH]; intros [|b l'] H;
    try discriminate; [reflexivity|].
  cbn. f_equal. apply IH. injection H as H. exact H.
Qed.

Lemma interpolate_shift (a b v : V3) (t : R) :
  interpolate (add a v) (add b v) t = add (interpolate a b t) v.
Proof. apply v3_eq; simpl; ring. Qed.

(** What [paintRefinedVolume] puts on the canvas for a full grid. *)
Lemma paintRefinedVolume_full (geo : Geodesy) (box : OrientedBox)
    (grid : list (list R)) (width depth height : R) (gridSize : nat)
    (canvas : list Icon3D) :
  isGrid gridSize grid ->
  paintRefinedVolume geo box grid width depth height gridSize canvas
  = Painted
      (canvas ++
       concat (List.map
                 (fun ir =>
                    let t := 1 / INR gridSize * INR (fst ir) + (1 / 2) / INR gridSize in
                    paintRow width depth height gridSize
                             (getAzimuth geo (c1 box) (c5 box) depth)
                             (interpolate (c1 box) (c5 box) t)
                             (interpolate (c3 box) (c7 box) t) (snd ir))
                 (combine (seq 0 gridSize) grid))).
Proof.
  intros [Hlen _]. unfold paintRefinedVolume.
  destruct (List.length grid =? 0)%nat eqn:E.
  - apply Nat.eqb_eq in E. rewrite <- Hlen, E.
    destruct grid; [|discriminate]. cbn. rewrite app_nil_r. reflexivity.
  - cbv zeta. rewrite <- Hlen. apply paintRows_full.
    cbn [skipn Nat.add]. rewrite skipn_all, app_nil_r. reflexivity.
Qed.

Lemma concat_length_grid {A : Type} (n : nat) (grid : list (list A)) :
  isGrid n grid -> List.length (concat grid) = (n * n)%nat.
Proof.
  intros [Hlen Hrows]. rewrite <- Hlen at 1. clear Hlen.
  induction Hrows as [|row grid Hrow _ IH]; cbn; [lia|].
  rewrite length_app, IH, Hrow. lia.
Qed.

(** X19: on a box whose corners form a parallelepiped, with a full 24 x
    24 grid, [paintRefinedVolume] returns after drawing 576 columns, row
    by row: the column of cell (i, j) is centred at sample point (i, j) of
    the refinement moved by the edge from corner 0 to corner 1, its height
    is the target height of the cell, its footprint is |width| / 24 by
    |depth| / 24, it is lifted by half its height and turned by the one
    azimuth of the edge from corner 1 to corner 5. *)
Theorem painted_columns_follow_samples (geo : Geodesy) (box : OrientedBox)
    (grid : list (list R)) (width depth height : R) (v : V3)
    (canvas : list Icon3D) :
  isGrid RefinedGridSize grid ->
  heightEdge box v ->
  exists icons,
    paintRefinedVolume geo box grid width depth height RefinedGridSize canvas
      = Painted (canvas ++ icons) /\
    List.length icons = 576%nat /\
    List.map icon_point icons
      = List.map (fun p => add p v) (concat (gridPointsOf box)) /\
    List.map scale_z icons
      = List.map (fun e => targetHeight (Rabs height) (Some e)) (concat grid) /\
    Forall (fun icon =>
              scale_x icon = Rabs width / 24 /\
              scale_y icon = Rabs depth / 24 /\
              translation_z icon = option_map (fun t => t / 2) (scale_z icon) /\
              rotation_z icon = getAzimuth geo (c1 box) (c5 box) depth)
           icons.
Proof.
  intros Hgrid (H1 & H3 & H5 & H7).
  eexists. split; [apply paintRefinedVolume_full; exact Hgrid|].
  destruct Hgrid as [Hlen Hrows].
  assert (Hcomb : List.length (seq 0 RefinedGridSize) = List.length grid)
    by (rewrite length_seq; auto).
  assert (Hheights :
    List.map scale_z
      (concat (List.map
         (fun ir =>
            let t := 1 / INR RefinedGridSize * INR (fst ir)
                     + (1 / 2) / INR RefinedGridSize in
            paintRow width depth height RefinedGridSize
                     (getAzimuth geo (c1 box) (c5 box) depth)
                     (interpolate (c1 box) (c5 box) t)
                     (interpolate (c3 box) (c7 box) t) (snd ir))
         (combine (seq 0 RefinedGridSize) grid)))
    = List.map (fun e => targetHeight (Rabs height) (Some e)) (concat grid)).
  { rewrite !concat_map, map_map.
    set (rows := combine (seq 0 RefinedGridSize) grid).
    assert (Hs : grid = List.map snd rows)
      by (symmetry; apply map_snd_combine; exact Hcomb).
    rewrite Hs, map_map.
    f_equal. apply map_ext_in. intros [i row] Hin. cbn [fst snd].
    assert (Hrow : List.length row = RefinedGridSize).
    { unfold rows in Hin. apply in_combine_r in Hin.
      exact (proj1 (Forall_forall _ _) Hrows row Hin). }
    unfold paintRow. rewrite map_map. cbn [scale_z].
    rewrite <- Hrow.
    rewrite <- (map_map (nth_error row)
                        (fun cell => targetHeight (Rabs height) cell)).
    rewrite map_nth_error_seq, map_map. reflexivity. }
  split; [|split; [|split]].
  - rewrite <- (length_map scale_z), Hheights, length_map.
    rewrite (@concat_length_grid _ RefinedGridSize grid (conj Hlen Hrows)).
    reflexivity.
  - rewrite !concat_map, map_map. unfold gridPointsOf. rewrite map_map.
    f_equal.
    rewrite <- (map_fst_combine (seq 0 RefinedGridSize) grid Hcomb) at 2.
    rewrite map_map.
    apply map_ext. intros [i row]. cbn [fst snd].
    unfold paintRow. rewrite !map_map. cbn [icon_point].
    apply map_ext. intros j.
    rewrite H1, H3, H5, H7, !interpolate_shift.
    f_equal; f_equal; ring.
  - exact Hheights.
  - apply Forall_forall. intros icon Hin.
    apply in_concat in Hin as (icons & Hicons & Hin).
    apply in_map_iff in Hicons as ([i row] & <- & _).
    unfold paintRow in Hin. apply in_map_iff in Hin as (j & <- & _).
    cbn [scale_x scale_y scale_z translation_z rotation_z].
    unfold RefinedGridSize. replace (INR 24) with 24 by (simpl; ring).
    auto.
Qed.

Lemma painted_columns_follow_samples_witness :
  exists icons,
    paintRefinedVolume noGeodesy
      (boxFrom (mkV3 0 0 0) (mkV3 10 0 0) (mkV3 0 10 0) (mkV3 0 0 5))
      (repeat (repeat 1 RefinedGridSize) RefinedGridSize) 10 10 5
      RefinedGridSize []
      = Painted icons /\
    List.length icons = 576%nat.
Proof.
  destruct (@painted_columns_follow_samples noGeodesy
              (boxFrom (mkV3 0 0 0) (mkV3 10 0 0) (mkV3 0 10 0) (mkV3 0 0 5))
              (repeat (repeat 1 RefinedGridSize) RefinedGridSize) 10 10 5
              (mkV3 0 0 5) [])
    as (icons & Hrun & Hlen & _).
  - split; [apply repeat_length|].
    apply Forall_repeat. apply repeat_length.
  - repeat split.
  - exists icons. split; assumption.
Defined.

(** X20: with an empty grid [paintRefinedVolume] draws nothing; with a
    grid of fewer rows than the grid size it throws, after the columns of
    the rows that are there have been drawn. *)
Theorem paintRefinedVolume_short_grid (geo : Geodesy) (box : OrientedBox)
    (grid : list (list R)) (width depth height : R) (gridSize : nat)
    (canvas : list Icon3D) :
  (grid = [] ->
   paintRefinedVolume geo box grid width depth height gridSize canvas
   = Painted canvas) /\
  ((0 < List.length grid < gridSize)%nat ->
   exists icons,
     paintRefinedVolume geo box grid width depth height gridSize canvas
     = PaintFailed (canvas ++ icons) /\
     List.length icons = (gridSize * List.length grid)%nat).
Proof.
  split.
  - intros ->. reflexivity.
  - intros [Hpos Hshort]. unfold paintRefinedVolume.
    destruct (List.length grid =? 0)%nat eqn:E;
      [apply Nat.eqb_eq in E; lia|]. cbv zeta.
    set (azimuth := getAzimuth geo (c1 box) (c5 box) depth).
    assert (Hgen : forall n i canvas0,
              (i <= List.length grid)%nat ->
              (List.length grid < i + n)%nat ->
              exists icons,
                paintRows box grid width depth height gridSize azimuth i n canvas0
                = PaintFailed (canvas0 ++ icons) /\
                List.length icons = (gridSize * (List.length grid - i))%nat).
    { induction n as [|n IH]; intros i canvas0 Hi Hn; [lia|].
      cbn [paintRows].
      destruct (nth_error grid i) as [row|] eqn:Hrow.
      - assert (i < List.length grid)%nat
          by (apply nth_error_Some; congruence).
        destruct (IH (S i)
                     (canvas0 ++
                      paintRow width depth height gridSize azimuth
                        (interpolate (c1 box) (c5 box)
                           (1 / INR gridSize * INR i + 1 / 2 / INR gridSize))
                        (interpolate (c3 box) (c7 box)
                           (1 / INR gridSize * INR i + 1 / 2 / INR gridSize))
                        row))
          as (icons & Hrun & Hlen); [lia|lia|].
        eexists. split.
        + rewrite Hrun, <- app_assoc. reflexivity.
        + rewrite length_app, Hlen. unfold paintRow.
          rewrite length_map, length_seq. nia.
      - apply nth_error_None in Hrow.
        exists []. rewrite app_nil_r. split; [reflexivity|].
        cbn. replace (List.length grid - i)%nat with 0%nat by lia. lia. }
    destruct (Hgen gridSize 0%nat canvas) as (icons & Hrun & Hlen); [lia|lia|].
    exists icons. split; [exact Hrun|]. rewrite Hlen. f_equal. lia.
Qed.

Lemma paintRefinedVolume_short_grid_witness :
  exists icons,
    paintRefinedVolume noGeodesy
      (boxFrom (mkV3 0 0 0) (mkV3 10 0 0) (mkV3 0 10 0) (mkV3 0 0 5))
      [repeat 1 RefinedGridSize] 10 10 5 RefinedGridSize []
      = PaintFailed icons /\
    List.length icons = 24%nat.
Proof.
  destruct (proj2 (@paintRefinedVolume_short_grid noGeodesy
              (boxFrom (mkV3 0 0 0) (mkV3 10 0 0) (mkV3 0 10 0) (mkV3 0 0 5))
              [repeat 1 RefinedGridSize] 10 10 5 RefinedGridSize []))
    as (icons & Hrun & Hlen).
  - unfold RefinedGridSize. cbn. lia.
  - exists icons. split; [exact Hrun|]. rewrite Hlen. reflexivity.
Defined.

Lemma paintedVolume_sum (sx sy : R) (T : R -> R) (cells : list R)
    (icons : list Icon3D) :
  Forall (fun icon => scale_x icon = sx /\ scale_y icon = sy) icons ->
  List.map scale_z icons = List.map (fun e => Some (T e)) cells ->
  paintedVolume icons
  = Some (fold_right Rplus 0 (List.map (fun e => sx * sy * T e) cells)).
Proof.
  intros Hfoot. revert cells.
  induction Hfoot as [|icon icons [Hx Hy] _ IH]; intros [|e cells] Hz;
    try discriminate; [reflexivity|].
  cbn in Hz. injection Hz as Hz Hrest.
  cbn [paintedVolume fold_right List.map].
  fold (paintedVolume icons). rewrite (IH _ Hrest), Hz, Hx, Hy. reflexivity.
Qed.

Lemma column_sum (a H delta : R) (T : R -> R) (cells : list R) :
  0 <= a ->
  Forall (fun e => e <= H /\ - delta <= T e - (H - e) <= delta) cells ->
  let painted := fold_right Rplus 0 (List.map (fun e => a * T e) cells) in
  let empty := fold_right Rplus 0 (List.map (fun e => a * e) cells) in
  let n := INR (List.length cells) in
  - (a * delta * n) <= painted - (a * H * n - empty) <= a * delta * n /\
  empty <= a * H * n.
Proof.
  intros Ha Hcells. cbv zeta.
  induction Hcells as [|e cells [He Hd] _ IH].
  - cbn. lra.
  - cbn [List.length List.map fold_right]. rewrite S_INR.
    destruct IH as [IH1 IH2].
    set (P := fold_right Rplus 0 (List.map (fun e => a * T e) cells)) in *.
    set (E := fold_right Rplus 0 (List.map (fun e => a * e) cells)) in *.
    set (n := INR (List.length cells)) in *.
    assert (- (a * delta) <= a * T e - a * (H - e) <= a * delta) by nra.
    assert (a * e <= a * H) by nra.
    split; [split|]; nra.
Qed.

Lemma Rabs_le_inv' (v b : R) : Rabs v <= b -> - b <= v <= b.
Proof. unfold Rabs. destruct (Rcase_abs v); lra. Qed.

(** X21: the picture agrees with the number.  On a finalized box with a
    full grid whose cells lie between 0 and the box height, the volumes of
    the painted columns add up to the refined volume of
    [substractEmptyAreas], to within |width| * |depth| / 200, which is
    half a centimetre of height over the base. *)
Theorem painted_volume_matches_refined (geo : Geodesy) (box : OrientedBox)
    (c : Controller) (canvas : list Icon3D) :
  canRefine c = true ->
  isGrid RefinedGridSize (emptyVolumes c) ->
  Forall (Forall (fun e => 0 <= e <= Rabs (_height c))) (emptyVolumes c) ->
  exists (icons : list Icon3D) (painted refined : R),
    paintRefinedVolume geo box (emptyVolumes c) (_width c) (_depth c)
                       (_height c) RefinedGridSize canvas
      = Painted (canvas ++ icons) /\
    paintedVolume icons = Some painted /\
    substractEmptyAreas c = Some refined /\
    Rabs (painted - refined) <= Rabs (_width c) * Rabs (_depth c) / 200.
Proof.
  intros Hcan Hgrid Hcells.
  set (H := Rabs (_height c)).
  set (T := fun e => match targetHeight H (Some e) with
                     | Some t => t
                     | None => 0
                     end).
  assert (HT : forall e, targetHeight H (Some e) = Some (T e)) by reflexivity.
  set (icons :=
    concat (List.map
      (fun ir =>
         let t := 1 / INR RefinedGridSize * INR (fst ir)
                  + (1 / 2) / INR RefinedGridSize in
         paintRow (_width c) (_depth c) (_height c) RefinedGridSize
                  (getAzimuth geo (c1 box) (c5 box) (_depth c))
                  (interpolate (c1 box) (c5 box) t)
                  (interpolate (c3 box) (c7 box) t) (snd ir))
      (combine (seq 0 RefinedGridSize) (emptyVolumes c)))).
  assert (Hcomb : List.length (seq 0 RefinedGridSize)
                  = List.length (emptyVolumes c))
    by (rewrite length_seq; symmetry; apply Hgrid).
  assert (Hfoot : Forall (fun icon =>
                            scale_x icon = Rabs (_width c) / INR RefinedGridSize /\
                            scale_y icon = Rabs (_depth c) / INR RefinedGridSize)
                         icons).
  { apply Forall_forall. intros icon Hin.
    apply in_concat in Hin as (row & Hrow & Hin).
    apply in_map_iff in Hrow as ([i r] & <- & _).
    unfold paintRow in Hin. apply in_map_iff in Hin as (j & <- & _).
    split; reflexivity. }
  assert (Hheights : List.map scale_z icons
                     = List.map (fun e => Some (T e)) (concat (emptyVolumes c))).
  { unfold icons. rewrite !concat_map, map_map.
    set (rows := combine (seq 0 RefinedGridSize) (emptyVolumes c)).
    assert (Hs : emptyVolumes c = List.map snd rows)
      by (symmetry; apply map_snd_combine; exact Hcomb).
    rewrite Hs, map_map.
    f_equal. apply map_ext_in. intros [i row] Hin. cbn [fst snd].
    assert (Hrow : List.length row = RefinedGridSize).
    { unfold rows in Hin. apply in_combine_r in Hin.
      exact (proj1 (Forall_forall _ _) (proj2 Hgrid) row Hin). }
    unfold paintRow. rewrite map_map. cbn [scale_z].
    rewrite <- Hrow.
    rewrite <- (map_map (nth_error row) (fun cell => targetHeight H cell)).
    rewrite map_nth_error_seq, map_map. reflexivity. }
  assert (Hbounds : Forall (fun e => e <= H /\
                                     - (1 / 200) <= T e - (H - e) <= 1 / 200)
                           (concat (emptyVolumes c))).
  { apply Forall_concat. revert Hcells. apply Forall_impl. intros row.
    apply Forall_impl. intros e [He0 HeH]. split; [exact HeH|].
    destruct (targetHeight_bounds H e) as (t & Ht & _ & _ & Hnear).
    rewrite HT in Ht. injection Ht as <-.
    apply Rabs_le_inv'. apply Hnear. exact HeH. }
  pose proof (cellArea_nonneg c) as Ha.
  destruct (@column_sum (cellArea c) H (1 / 200) T (concat (emptyVolumes c))
              Ha Hbounds) as [Hnear Hle].
  rewrite (@concat_length_grid _ RefinedGridSize _ Hgrid) in Hnear, Hle.
  fold (emptySum (cellArea c) (emptyVolumes c)) in Hnear, Hle.
  assert (Hgross : cellArea c * H * INR (RefinedGridSize * RefinedGridSize)
                   = grossVolume c).
  { unfold cellArea, grossVolume, H, RefinedGridSize.
    replace (INR (24 * 24)) with 576 by (simpl; ring).
    replace (INR 24) with 24 by (simpl; ring). field. }
  rewrite Hgross in Hnear, Hle.
  exists icons. eexists. eexists.
  split; [apply paintRefinedVolume_full; exact Hgrid|].
  split; [apply (paintedVolume_sum T _ Hfoot Hheights)|].
  split; [apply substractEmptyAreas_grid; assumption|].
  fold (cellArea c).
  replace (Rmax 0 (grossVolume c - emptySum (cellArea c) (emptyVolumes c)))
    with (grossVolume c - emptySum (cellArea c) (emptyVolumes c))
    by (symmetry; apply Rmax_right; lra).
  assert (Harea : cellArea c * (1 / 200)
                  * INR (RefinedGridSize * RefinedGridSize)
                  = Rabs (_width c) * Rabs (_depth c) / 200).
  { unfold cellArea, RefinedGridSize.
    replace (INR (24 * 24)) with 576 by (simpl; ring).
    replace (INR 24) with 24 by (simpl; ring). field. }
  rewrite Harea in Hnear.
  apply Rabs_le. exact Hnear.
Qed.

Lemma painted_volume_matches_refined_witness :
  exists (icons : list Icon3D) (painted refined : R),
    paintRefinedVolume noGeodesy
      (boxFrom (mkV3 0 0 0) (mkV3 10 0 0) (mkV3 0 10 0) (mkV3 0 0 5))
      (emptyVolumes refinedScenarioBox) 10 10 5 RefinedGridSize []
      = Painted icons /\
    paintedVolume icons = Some painted /\
    substractEmptyAreas refinedScenarioBox = Some refined /\
    Rabs (painted - refined) <= Rabs 10 * Rabs 10 / 200.
Proof.
  apply (@painted_volume_matches_refined noGeodesy
           (boxFrom (mkV3 0 0 0) (mkV3 10 0 0) (mkV3 0 10 0) (mkV3 0 0 5))
           refinedScenarioBox []).
  - reflexivity.
  - split; [apply repeat_length|].
    apply Forall_repeat. apply repeat_length.
  - apply Forall_repeat. apply Forall_repeat.
    change (_height refinedScenarioBox) with 5.
    rewrite Rabs_right by lra. lra.
Defined.

(** ** Units of measure *)

Ltac unit_cases :=
  repeat match goal with
         | |- context [Rlt_dec ?a ?b] => destruct (Rlt_dec a b); try lra
         | H : context [Rlt_dec ?a ?b] |- _ => destruct (Rlt_dec a b); try lra
         end.

(** X22: for a measure that is not negative the text methods answer
    after at most one call to the smaller unit.  The unit shown is the
    unit asked for when the measure reaches its minimum (the minimum
    length, its square for areas, its cube for volumes) and its smaller
    unit otherwise; the value is the measure divided by the factor of
    the unit shown (squared, cubed). *)
Theorem text_unit_choice (u : ENUM_DISTANCE_UNIT) (v : R) (fuel : nat) :
  0 <= v -> (2 <= fuel)%nat ->
  (let shown := shownUnit u 1 v in
   getDistanceText fuel u v
   = Some (v / toMetreFactor (DistanceUnit shown), shown)) /\
  (let shown := shownUnit u 2 v in
   getAreaText fuel u v
   = Some (v / (toMetreFactor (DistanceUnit shown)
                * toMetreFactor (DistanceUnit shown)), shown)) /\
  (let shown := shownUnit u 3 v in
   getVolumeText fuel u v
   = Some (v / toMetreFactor (DistanceUnit shown) ^ 3, shown)).
Proof.
  intros Hv Hfuel. destruct fuel as [|[|fuel]]; try lia.
  unfold shownUnit.
  split; [|split].
  - destruct u; cbn; unit_cases; reflexivity.
  - destruct u; cbn; unit_cases; reflexivity.
  - destruct u; cbn; unit_cases; reflexivity.
Qed.

Lemma text_unit_choice_witness :
  getVolumeText 2 KM 1000
  = Some (1000 / toMetreFactor (DistanceUnit (shownUnit KM 3 1000)) ^ 3,
          shownUnit KM 3 1000).
Proof.
  apply (proj2 (proj2 (@text_unit_choice KM 1000 2 ltac:(lra) ltac:(lia)))).
Defined.

(** X23: for a negative measure no text method ever answers: whatever
    the unit, the call ends in a unit that is its own smaller unit and
    calls itself again, at every depth. *)
Theorem negative_measure_no_text (u : ENUM_DISTANCE_UNIT) (v : R)
    (fuel : nat) :
  v < 0 ->
  getDistanceText fuel u v = None /\
  getAreaText fuel u v = None /\
  getVolumeText fuel u v = None.
Proof.
  intros Hv. revert u. induction fuel as [|fuel IH]; intros u.
  - repeat split.
  - cbn [getDistanceText getAreaText getVolumeText]. cbv zeta.
    destruct (IH (smallerUnit (DistanceUnit u))) as (Hd & Ha & Hvol).
    rewrite Hd, Ha, Hvol.
    destruct u; cbn; unit_cases; repeat split.
Qed.

Lemma negative_measure_no_text_witness :
  getVolumeText 1000 KM (-1) = None.
Proof.
  apply (proj2 (proj2 (@negative_measure_no_text KM (-1) 1000 ltac:(lra)))).
Defined.

(** ** The cube mesh *)

Lemma fold_pair {A B C : Type} (V : C -> list A) (I : C -> list B)
    (l : list C) (acc : list A * list B) :
  fold_left (fun '(vs, ks) i => (vs ++ V i, ks ++ I i)) l acc
  = (fst acc ++ flat_map V l, snd acc ++ flat_map I l).
Proof.
  revert acc. induction l as [|i l IH]; intros [vs ks].
  - cbn. rewrite !app_nil_r. reflexivity.
  - cbn [fold_left flat_map]. rewrite IH. cbn [fst snd].
    rewrite <- !app_assoc. reflexivity.
Qed.

Lemma length_flat_map_const {A B : Type} (f : A -> list B) (k : nat)
    (l : list A) :
  (forall a, List.length (f a) = k) ->
  List.length (flat_map f l) = (k * List.length l)%nat.
Proof.
  intros H. induction l as [|a l IH]; cbn; [lia|].
  rewrite length_app, H, IH. lia.
Qed.

(** The buffer after a call of [createVertices]: what was there, then
    the indices of the three surfaces, each surface starting at the
    length the buffer had when its loop began. *)
Lemma createVertices_buffer (m : Cube3DMesh.t) :
  Cube3DMesh._indices (snd (Cube3DMesh.createVertices m))
  = Cube3DMesh._indices m
    ++ flat_map (fun i => [0 + 2 * i; 0 + 2 * i + 1]%nat)
                (seq 0 (S (Cube3DMesh._sliceCount m)))
    ++ flat_map (fun i =>
                   [List.length (Cube3DMesh._indices m)
                    + 2 * S (Cube3DMesh._sliceCount m) + 2 * i;
                    List.length (Cube3DMesh._indices m)
                    + 2 * S (Cube3DMesh._sliceCount m) + 2 * i + 1]%nat)
                (seq 0 (S (Cube3DMesh._sliceCount m)))
    ++ flat_map (fun i =>
                   [List.length (Cube3DMesh._indices m)
                    + 4 * S (Cube3DMesh._sliceCount m) + 2 * i;
                    List.length (Cube3DMesh._indices m)
                    + 4 * S (Cube3DMesh._sliceCount m) + 2 * i + 1]%nat)
                (seq 0 (S (Cube3DMesh._sliceCount m))).
Proof.
  unfold Cube3DMesh.createVertices. cbv zeta.
  rewrite !fold_pair. cbn [fst snd Cube3DMesh.set_indices Cube3DMesh._indices].
  rewrite !length_app.
  rewrite !(@length_flat_map_const _ _ _ 2%nat) by reflexivity.
  rewrite !length_seq. rewrite <- !app_assoc.
  do 3 f_equal.
  apply flat_map_ext. intros i.
  replace (2 * S (Cube3DMesh._sliceCount m) + 2 * S (Cube3DMesh._sliceCount m))%nat
    with (4 * S (Cube3DMesh._sliceCount m))%nat by lia.
  rewrite <- !Nat.add_assoc.
  replace (2 * S (Cube3DMesh._sliceCount m)
           + (2 * S (Cube3DMesh._sliceCount m) + 2 * i))%nat
    with (4 * S (Cube3DMesh._sliceCount m) + 2 * i)%nat by lia.
  replace (2 * S (Cube3DMesh._sliceCount m)
           + (2 * S (Cube3DMesh._sliceCount m) + (2 * i + 1)))%nat
    with (4 * S (Cube3DMesh._sliceCount m) + (2 * i + 1))%nat by lia.
  reflexivity.
Qed.

(** The coordinates a call of [createVertices] returns: they do not
    depend on the buffer. *)
Lemma createVertices_positions (m : Cube3DMesh.t) :
  let baseZ := - (1 / 2) * Cube3DMesh._height m + Cube3DMesh._zOffset m in
  let topZ := 1 / 2 * Cube3DMesh._height m + Cube3DMesh._zOffset m in
  let px := fun i => Cube3DMesh._radius m * cos (Cube3DMesh.phiOf m i) in
  let py := fun i => Cube3DMesh._radius m * sin (Cube3DMesh.phiOf m i) in
  let slices := seq 0 (S (Cube3DMesh._sliceCount m)) in
  fst (Cube3DMesh.createVertices m)
  = flat_map (fun i => [px i; py i; baseZ] ++ [px i; py i; topZ]) slices
    ++ flat_map (fun i => [0; 0; baseZ] ++ [px i; py i; baseZ]) slices
    ++ flat_map (fun i => [0; 0; topZ] ++ [px i; py i; topZ]) slices.
Proof.
  unfold Cube3DMesh.createVertices. cbv zeta.
  rewrite !fold_pair. cbn [fst snd app]. rewrite <- !app_assoc. reflexivity.
Qed.

Lemma createVertices_keeps_shape (m : Cube3DMesh.t) :
  Cube3DMesh._sliceCount (snd (Cube3DMesh.createVertices m))
  = Cube3DMesh._sliceCount m /\
  Cube3DMesh._height (snd (Cube3DMesh.createVertices m))
  = Cube3DMesh._height m /\
  Cube3DMesh._radius (snd (Cube3DMesh.createVertices m))
  = Cube3DMesh._radius m /\
  Cube3DMesh._zOffset (snd (Cube3DMesh.createVertices m))
  = Cube3DMesh._zOffset m.
Proof. repeat split. Qed.

Lemma createVerticesTimes_sliceCount (n : nat) (size : R) :
  Cube3DMesh._sliceCount (createVerticesTimes n (Cube3DMesh.new size)) = 4%nat.
Proof. induction n as [|n IH]; [reflexivity|exact IH]. Qed.

(** The buffer holds 30 indices for every call of [createVertices] the
    mesh has seen: its length is a multiple of three. *)
Lemma buffer_length (n : nat) (size : R) :
  List.length (Cube3DMesh._indices (createVerticesTimes n (Cube3DMesh.new size)))
  = (30 * n)%nat.
Proof.
  induction n as [|n IH]; [reflexivity|].
  cbn [createVerticesTimes]. rewrite createVertices_buffer.
  rewrite createVerticesTimes_sliceCount.
  rewrite !length_app, IH.
  rewrite !(@length_flat_map_const _ _ _ 2%nat) by reflexivity.
  cbn [List.length seq]. lia.
Qed.

Lemma first_buffer (size : R) :
  Cube3DMesh._indices (snd (Cube3DMesh.createVertices (Cube3DMesh.new size)))
  = seq 0 30.
Proof. rewrite createVertices_buffer. reflexivity. Qed.

Lemma second_buffer (size : R) :
  Cube3DMesh._indices (createVerticesTimes 2 (Cube3DMesh.new size))
  = seq 0 30 ++ seq 0 10 ++ seq 40 20.
Proof.
  cbn [createVerticesTimes]. rewrite createVertices_buffer, first_buffer.
  reflexivity.
Qed.

(** X24: the arrays [create3DCube] hands over fit together: 30 vertices
    (90 coordinates), 30 normals, 24 triangles (72 indices), and every
    index was found in the buffer and names one of the 30 vertices; there
    are 30 pairs of texture coordinates when a texture is given and none
    otherwise. *)
Theorem create3DCube_arrays_fit (size : R) (texture : bool) :
  let mesh := create3DCube size texture in
  List.length (positions mesh) = 90%nat /\
  List.length (normals mesh) = 90%nat /\
  List.length (indices mesh) = 72%nat /\
  Forall (fun k => exists n : nat,
                     k = Some n /\ (3 * n + 2 < List.length (positions mesh))%nat)
         (indices mesh) /\
  match texCoords mesh with
  | Some tc => texture = true /\ List.length tc = 60%nat
  | None => texture = false
  end.
Proof.
  cbv zeta.
  assert (Hpos : List.length (positions (create3DCube size texture)) = 90%nat).
  { unfold create3DCube. cbn [positions].
    rewrite createVertices_positions. reflexivity. }
  assert (Hidx : indices (create3DCube size texture)
                 = List.map Some
                     (flat_map (fun i =>
                                  flat_map (fun j => [j - 1 + i * 10; j + i * 10;
                                                      j + 1 + i * 10]%nat)
                                           (seq 1 8))
                               (seq 0 3))).
  { unfold create3DCube. cbn [indices]. unfold Cube3DMesh.createIndices.
    rewrite first_buffer. reflexivity. }
  split; [exact Hpos|].
  split; [reflexivity|].
  split; [rewrite Hidx; reflexivity|].
  split.
  - rewrite Hidx, Hpos. apply Forall_forall. intros k Hin.
    apply in_map_iff in Hin as (n & <- & Hin). exists n. split; [reflexivity|].
    apply in_flat_map in Hin as (i & Hi & Hin).
    apply in_flat_map in Hin as (j & Hj & Hin).
    apply in_seq in Hi. apply in_seq in Hj.
    cbn [In] in Hin. lia.
  - destruct texture; cbn; auto.
Qed.

Lemma slice_angles :
  let phi := Cube3DMesh.phiOf (Cube3DMesh.new 1) in
  (cos (phi 0%nat) = 1 / sqrt 2 /\ sin (phi 0%nat) = 1 / sqrt 2) /\
  (cos (phi 1%nat) = -1 / sqrt 2 /\ sin (phi 1%nat) = 1 / sqrt 2) /\
  (cos (phi 2%nat) = -1 / sqrt 2 /\ sin (phi 2%nat) = -1 / sqrt 2) /\
  (cos (phi 3%nat) = 1 / sqrt 2 /\ sin (phi 3%nat) = -1 / sqrt 2) /\
  (cos (phi 4%nat) = 1 / sqrt 2 /\ sin (phi 4%nat) = 1 / sqrt 2).
Proof.
  cbv zeta. unfold Cube3DMesh.phiOf, Cube3DMesh.PHI_OFFSET. cbn [Cube3DMesh._sliceCount Cube3DMesh.new].
  replace (INR 4) with 4 by (simpl; ring).
  replace (INR 0) with 0 by reflexivity.
  replace (INR 1) with 1 by reflexivity.
  replace (INR 2) with 2 by (simpl; ring).
  replace (INR 3) with 3 by (simpl; ring).
  replace (0 * (2 * PI / 4) + PI / 4) with (PI / 4) by field.
  replace (1 * (2 * PI / 4) + PI / 4) with (3 * (PI / 4)) by field.
  replace (2 * (2 * PI / 4) + PI / 4) with (5 * (PI / 4)) by field.
  replace (3 * (2 * PI / 4) + PI / 4) with (- (PI / 4) + 2 * PI) by field.
  replace (4 * (2 * PI / 4) + PI / 4) with (PI / 4 + 2 * PI) by field.
  rewrite !cos_plus, !sin_plus, cos_2PI, sin_2PI, cos_neg, sin_neg.
  rewrite cos_PI4, sin_PI4, cos_3PI4, sin_3PI4, cos_5PI4, sin_5PI4.
  pose proof sqrt2_neq_0.
  repeat split; field; assumption.
Qed.

Lemma Forall2_same {A : Type} (P : A -> A -> Prop) (l : list A) :
  (forall a, P a a) -> Forall2 P l l.
Proof. intros H. induction l; constructor; auto. Qed.

(** X25: the vertices are those of the cube, up to rounding.  For a mesh
    of edge [size] lifted by [zOffset], [createVertices] returns 90
    coordinates that agree one by one, at the scale of |size| + |zOffset|,
    with these: slice by slice the corners (h, h), (-h, h), (-h, -h),
    (h, -h), (h, h) of the square of half-edge h = size / 2, at the
    heights zOffset - h and zOffset + h for the side surface, and paired
    with the centre of the face for the base and the top. *)
Theorem cube_vertices_are_corners (size zOffset : R) :
  let h := size / 2 in
  let baseZ := zOffset - h in
  let topZ := zOffset + h in
  Forall2 (agree (Rabs size + Rabs zOffset))
    (fst (Cube3DMesh.createVertices
            (Cube3DMesh.set_zOffset zOffset (Cube3DMesh.new size))))
    (flat_map (fun '(px, py) => [px; py; baseZ; px; py; topZ]) (squareCorners h)
     ++ flat_map (fun '(px, py) => [0; 0; baseZ; px; py; baseZ]) (squareCorners h)
     ++ flat_map (fun '(px, py) => [0; 0; topZ; px; py; topZ]) (squareCorners h)).
Proof.
  cbv zeta.
  assert (E :
    fst (Cube3DMesh.createVertices
           (Cube3DMesh.set_zOffset zOffset (Cube3DMesh.new size)))
    = flat_map (fun '(px, py) => [px; py; zOffset - size / 2;
                                  px; py; zOffset + size / 2])
               (squareCorners (size / 2))
      ++ flat_map (fun '(px, py) => [0; 0; zOffset - size / 2;
                                     px; py; zOffset - size / 2])
                  (squareCorners (size / 2))
      ++ flat_map (fun '(px, py) => [0; 0; zOffset + size / 2;
                                     px; py; zOffset + size / 2])
                  (squareCorners (size / 2))).
  { rewrite createVertices_positions. cbv zeta.
    cbn [Cube3DMesh._sliceCount Cube3DMesh._height Cube3DMesh._zOffset
         Cube3DMesh._radius Cube3DMesh.set_zOffset Cube3DMesh.new
         flat_map seq app squareCorners].
    change (Cube3DMesh.phiOf
              (Cube3DMesh.set_zOffset zOffset (Cube3DMesh.new size)))
      with (Cube3DMesh.phiOf (Cube3DMesh.new 1)).
    destruct slice_angles
      as ((C0 & S0) & (C1 & S1) & (C2 & S2) & (C3 & S3) & (C4 & S4)).
    rewrite C0, S0, C1, S1, C2, S2, C3, S3, C4, S4.
    pose proof sqrt2_neq_0.
    repeat (apply f_equal2; [try reflexivity; field; assumption|]).
    reflexivity. }
  rewrite E. apply Forall2_same. intros a. apply agree_same.
  pose proof (Rabs_pos size). pose proof (Rabs_pos zOffset). lra.
Qed.

Lemma triples_six (a b c d e f : R) (rest : list R) :
  triples ([a; b; c] ++ [d; e; f] ++ rest)
  = mkV3 a b c :: mkV3 d e f :: triples rest.
Proof. reflexivity. Qed.

Lemma triples_flat_map {A : Type} (n1 n2 : A -> V3) (l : list A)
    (rest : list R) :
  triples (flat_map (fun i => [x (n1 i); y (n1 i); z (n1 i)]
                              ++ [x (n2 i); y (n2 i); z (n2 i)]) l ++ rest)
  = flat_map (fun i => [n1 i; n2 i]) l ++ triples rest.
Proof.
  induction l as [|i l IH]; [reflexivity|].
  cbn [flat_map]. rewrite <- !app_assoc, triples_six, IH.
  destruct (n1 i), (n2 i). reflexivity.
Qed.

(** X26: every normal of the mesh is a unit vector, whatever the number
    of slices, and there are six normals for each of the sliceCount + 1
    slices, as many as vertices. *)
Theorem cube_normals_are_unit (m : Cube3DMesh.t) :
  Forall (fun n => dot n n = 1) (triples (Cube3DMesh.createNormals m)) /\
  List.length (triples (Cube3DMesh.createNormals m))
  = (6 * S (Cube3DMesh._sliceCount m))%nat.
Proof.
  unfold Cube3DMesh.createNormals. cbv zeta.
  set (slices := seq 0 (S (Cube3DMesh._sliceCount m))).
  rewrite (@triples_flat_map nat
             (fun i => mkV3 (cos (Cube3DMesh.phiOf m i))
                            (sin (Cube3DMesh.phiOf m i)) 0)
             (fun i => mkV3 (cos (Cube3DMesh.phiOf m i))
                            (sin (Cube3DMesh.phiOf m i)) 0)).
  rewrite (@triples_flat_map nat (fun _ => mkV3 0 0 (-1)) (fun _ => mkV3 0 0 (-1))).
  rewrite <- (app_nil_r (flat_map (fun _ : nat => [0; 0; 1] ++ [0; 0; 1]) slices)).
  rewrite (@triples_flat_map nat (fun _ => mkV3 0 0 1) (fun _ => mkV3 0 0 1)).
  cbn [triples]. rewrite app_nil_r. split.
  - rewrite !Forall_app. repeat split; apply Forall_forall; intros n Hin;
      apply in_flat_map in Hin as (i & _ & Hin); cbn [In] in Hin;
      destruct Hin as [<-|[<-|[]]]; unfold dot; cbn [x y z];
      try ring.
    + pose proof (sin2_cos2 (Cube3DMesh.phiOf m i)) as Hc.
      unfold Rsqr in Hc. lra.
    + pose proof (sin2_cos2 (Cube3DMesh.phiOf m i)) as Hc.
      unfold Rsqr in Hc. lra.
  - rewrite !length_app.
    rewrite !(@length_flat_map_const _ _ _ 2%nat) by reflexivity.
    unfold slices. rewrite length_seq. lia.
Qed.

(** X27: the index buffer is never cleared.  A second call of
    [createVertices] on the same mesh returns the same 30 vertices but
    leaves 60 indices in the buffer, the later ones counted from the
    buffer's length; [createIndices] then cuts the buffer in three parts
    of 20 and returns 54 triangles, and the 54 indices of the third part
    name no vertex. *)
Theorem second_createVertices_breaks_indices (size : R) :
  let first := Cube3DMesh.createVertices (Cube3DMesh.new size) in
  let second := Cube3DMesh.createVertices (snd first) in
  let triangles := fst (Cube3DMesh.createIndices (snd second)) in
  fst second = fst first /\
  List.length (fst second) = 90%nat /\
  List.length (Cube3DMesh._indices (snd second)) = 60%nat /\
  List.length triangles = 162%nat /\
  List.length
    (filter (fun k => match k with
                      | Some n => (30 <=? n)%nat
                      | None => true
                      end) triangles) = 54%nat.
Proof.
  cbv zeta.
  assert (Hbuffer :
    Cube3DMesh._indices
      (snd (Cube3DMesh.createVertices
              (snd (Cube3DMesh.createVertices (Cube3DMesh.new size)))))
    = seq 0 30 ++ seq 0 10 ++ seq 40 20) by apply second_buffer.
  split; [rewrite !createVertices_positions; reflexivity|].
  split; [rewrite createVertices_positions; reflexivity|].
  split; [rewrite Hbuffer; reflexivity|].
  unfold Cube3DMesh.createIndices. rewrite Hbuffer.
  split; reflexivity.
Qed.

(** ** The banner during a run *)

Lemma Math_round_integer (k : Z) : Math_round (IZR k) = IZR k.
Proof.
  unfold Math_round. f_equal. symmetry. apply Int_part_spec. lra.
Qed.

Lemma Math_round_percent (v : R) :
  0 <= v <= 100 -> Rmax 0 (Rmin 100 (Math_round v)) = Math_round v.
Proof.
  intros [H0 H100]. pose proof (Math_round_near v) as [Hlo Hhi].
  unfold Math_round in *.
  assert (Hz0 : (0 <= Int_part (v + 1 / 2))%Z).
  { assert (-1 < Int_part (v + 1 / 2))%Z by (apply lt_IZR; lra). lia. }
  assert (Hz100 : (Int_part (v + 1 / 2) <= 100)%Z).
  { assert (Int_part (v + 1 / 2) < 101)%Z by (apply lt_IZR; lra). lia. }
  apply IZR_le in Hz0. apply IZR_le in Hz100.
  rewrite Rmin_right by lra. apply Rmax_right. lra.
Qed.

Lemma bannerStates_shown (reports : list R) (text : option R) :
  Forall (fun v => 0 <= v <= 100) reports ->
  bannerStates reports (Some text)
  = List.map (fun v => Some (Some (Math_round v))) reports.
Proof.
  intros H. revert text. induction H as [|v reports Hv _ IH]; intros text.
  - reflexivity.
  - cbn [bannerStates List.map BlockingBanner.updateBlockingBannerProgress].
    rewrite IH, (Math_round_percent Hv). reflexivity.
Qed.

(** X28: the banner during a run that nobody aborts.  Shown with
    progress 0 when the run starts, it shows after row k the number
    100 * k / 24 rounded to the nearest integer, for k = 1, ..., 24, and
    100 at the end.  A banner that is not there is not brought back by a
    progress report, and a banner that is there is not replaced by a
    second [showBlockingBanner]. *)
Theorem banner_follows_run (env : Collaborators) (c : Controller)
    (box : OrientedBox) :
  canRefine c = true ->
  createBox env c = Some box ->
  (forall n, userAborts env n = false) ->
  exists (t : list ScanEvent) (c' : Controller),
    refineCalculation env c = Returned t c' /\
    bannerStates (progressReports t) (BlockingBanner.showBlockingBanner (Some 0) None)
    = List.map (fun k => Some (Some (Math_round (100 * INR k / 24)))) (seq 1 24) /\
    last (bannerStates (progressReports t) (BlockingBanner.showBlockingBanner (Some 0) None))
         None
    = Some (Some 100) /\
    Forall (fun b => b = None)
           (bannerStates (progressReports t) (BlockingBanner.hideBlockingBanner (Some None))) /\
    (forall (b : BlockingBanner.Banner) (text progress : option R),
       b = Some text -> BlockingBanner.showBlockingBanner progress b = b).
Proof.
  intros Hcan Hbox Hnever.
  destruct (refineCalculation_settles env c Hcan Hbox)
    as (t & c' & Hrun & Hiff & _ & _ & Hok & _).
  rewrite abortedDuring_never in Hiff by assumption.
  destruct (Hok Hiff) as (_ & _ & _ & Ht).
  destruct (gridPointsOf_isGrid box) as [Hlen Hrows].
  exists t, c'. split; [exact Hrun|]. subst t.
  rewrite progressReports_serpentineTrace, Hlen.
  assert (E : List.map progressAfter (seq 1 RefinedGridSize)
              = List.map (fun k => 100 * INR k / 24) (seq 1 24)).
  { apply map_ext. intros k. unfold progressAfter, RefinedGridSize.
    replace (INR 24) with 24 by (simpl; ring). reflexivity. }
  rewrite E.
  assert (Hstates :
    bannerStates (List.map (fun k => 100 * INR k / 24) (seq 1 24))
                 (BlockingBanner.showBlockingBanner (Some 0) None)
    = List.map (fun k => Some (Some (Math_round (100 * INR k / 24)))) (seq 1 24)).
  { cbn [BlockingBanner.showBlockingBanner]. rewrite bannerStates_shown.
    - rewrite map_map. reflexivity.
    - apply Forall_forall. intros v Hin.
      apply in_map_iff in Hin as (k & <- & Hk). apply in_seq in Hk.
      assert (1 <= INR k) by (change 1 with (INR 1); apply le_INR; lia).
      assert (INR k <= 24).
      { replace 24 with (INR 24) by (simpl; ring). apply le_INR. lia. }
      lra. }
  split; [exact Hstates|]. split; [|split].
  - rewrite Hstates. cbn [seq List.map last].
    replace (100 * INR 24 / 24) with (IZR 100) by (simpl; field).
    rewrite Math_round_integer. reflexivity.
  - unfold BlockingBanner.hideBlockingBanner.
    generalize (List.map (fun k => 100 * INR k / 24) (seq 1 24)).
    induction l as [|v l IH]; cbn; constructor; auto.
  - intros b text progress ->. reflexivity.
Qed.

Lemma banner_follows_run_witness :
  exists (t : list ScanEvent) (c' : Controller),
    refineCalculation plainCollaborators towerBox = Returned t c' /\
    last (bannerStates (progressReports t) (BlockingBanner.showBlockingBanner (Some 0) None))
         None
    = Some (Some 100).
Proof.
  destruct (@banner_follows_run plainCollaborators towerBox _ eq_refl
              towerBox_box (fun _ => eq_refl)) as (t & c' & Hrun & _ & Hlast & _).
  exists t, c'. split; assumption.
Defined.

(** ** The labels after a run *)

Lemma substractEmptyAreas_nonneg (c : Controller) (v : R) :
  substractEmptyAreas c = Some v -> 0 <= v.
Proof.
  unfold substractEmptyAreas.
  pose proof (Rabs_pos (_width c)). pose proof (Rabs_pos (_depth c)).
  pose proof (Rabs_pos (_height c)).
  destruct (canRefine c && _).
  - destruct (sumRows _ _ _ _ _) as [[e|]|]; intros E; try discriminate;
      injection E as <-; [|lra].
    destruct (Rlt_dec _ _); lra.
  - intros E. injection E as <-.
    apply Rmult_le_pos; [apply Rmult_le_pos|]; assumption.
Qed.

Lemma labels_answered (c : Controller) (uom : ENUM_DISTANCE_UNIT)
    (fuel : nat) :
  0 <= refinedVolumeCalculation c -> (2 <= fuel)%nat ->
  exists labels, provideLabels fuel uom c = Some labels.
Proof.
  intros Hr Hfuel. unfold provideLabels, calculateVolume.
  cbn [m_width m_height m_depth m_area m_volume m_refinedVolume].
  pose proof (Rabs_pos (_width c)) as Hw.
  pose proof (Rabs_pos (_depth c)) as Hd.
  pose proof (Rabs_pos (_height c)) as Hh.
  assert (Ha : 0 <= Rabs (_width c) * Rabs (_depth c))
    by (apply Rmult_le_pos; assumption).
  assert (Hv : 0 <= Rabs (_width c) * Rabs (_depth c) * Rabs (_height c))
    by (apply Rmult_le_pos; assumption).
  destruct fuel as [|[|fuel]]; try lia.
  assert (Hdist : forall v, 0 <= v ->
                    exists t, getDistanceText (S (S fuel)) uom v = Some t).
  { intros v Hv0. destruct uom; cbn; unit_cases; eexists; reflexivity. }
  assert (Harea : forall v, 0 <= v ->
                    exists t, getAreaText (S (S fuel)) uom v = Some t).
  { intros v Hv0. destruct uom; cbn; unit_cases; eexists; reflexivity. }
  assert (Hvol : forall v, 0 <= v ->
                   exists t, getVolumeText (S (S fuel)) uom v = Some t).
  { intros v Hv0. destruct uom; cbn; unit_cases; eexists; reflexivity. }
  destruct (Hdist _ Hw) as [? ->]. destruct (Hdist _ Hh) as [? ->].
  destruct (Hdist _ Hd) as [? ->]. destruct (Harea _ Ha) as [? ->].
  destruct (Hvol _ Hv) as [? ->]. destruct (Hvol _ Hr) as [? ->].
  eexists. reflexivity.
Qed.

(** X29: the labels can always be written after a refinement run.
    However the run on a finalized box ended, aborted or not, the refined
    volume it leaves is not negative, and [provideLabels] answers all six
    texts in every unit of measure after at most one call to a smaller
    unit each.  On a controller whose refined volume is negative it would
    answer nothing at any depth. *)
Theorem labels_after_run (env : Collaborators) (c : Controller)
    (box : OrientedBox) (uom : ENUM_DISTANCE_UNIT) :
  canRefine c = true ->
  createBox env c = Some box ->
  (exists (t : list ScanEvent) (c' : Controller),
     refineCalculation env c = Returned t c' /\
     0 <= refinedVolumeCalculation c' /\
     forall fuel, (2 <= fuel)%nat ->
                  exists labels, provideLabels fuel uom c' = Some labels) /\
  (forall (c0 : Controller) (fuel : nat),
     refinedVolumeCalculation c0 < 0 -> provideLabels fuel uom c0 = None).
Proof.
  intros Hcan Hbox. split.
  - destruct (refineCalculation_settles env c Hcan Hbox)
      as (t & c' & Hrun & _ & _ & Hfail & Hok & _).
    assert (Hr : 0 <= refinedVolumeCalculation c').
    { destruct (success c') eqn:Hs.
      - destruct (Hok eq_refl) as (_ & Hv & _).
        apply (substractEmptyAreas_nonneg _ Hv).
      - destruct (Hfail eq_refl) as (_ & -> & _). lra. }
    exists t, c'. split; [exact Hrun|]. split; [exact Hr|].
    intros fuel Hfuel. apply labels_answered; assumption.
  - intros c0 fuel Hneg. unfold provideLabels.
    assert (Hnone : getVolumeText fuel uom
                      (m_refinedVolume (calculateVolume c0)) = None).
    { cbn [calculateVolume m_refinedVolume]. clear - Hneg.
      revert uom. induction fuel as [|fuel IH]; intros uom; [reflexivity|].
      cbn [getVolumeText]. cbv zeta. rewrite IH.
      destruct uom; cbn; unit_cases; reflexivity. }
    rewrite Hnone.
    repeat match goal with
           | |- match ?t with _ => _ end = None => destruct t; try reflexivity
           end.
Qed.

Lemma labels_after_run_witness :
  exists (t : list ScanEvent) (c' : Controller),
    refineCalculation plainCollaborators towerBox = Returned t c' /\
    0 <= refinedVolumeCalculation c'.
Proof.
  destruct (proj1 (@labels_after_run plainCollaborators towerBox _ KM eq_refl
                     towerBox_box)) as (t & c' & Hrun & Hr & _).
  exists t, c'. split; assumption.
Defined.
